(** * PMW3610 optical motion-sensor driver: a shallow embedding of
      [src/pmw3610.c] and the properties of its register access layer,
      asynchronous bring-up and motion report pipeline. *)

From Stdlib Require Import ZArith List Bool Lia.
Import ListNotations.
Local Open Scope Z_scope.

(* ================================================================== *)
(** ** Fixed-width C integers, carried by [Z] *)

(** Conversion to an unsigned [bits]-wide type. *)
Definition wrap_unsigned (bits x : Z) : Z := x mod 2 ^ bits.

(** Conversion to a signed [bits]-wide two's-complement type. *)
Definition wrap_signed (bits x : Z) : Z :=
  let m := x mod 2 ^ bits in
  if m <? 2 ^ (bits - 1) then m else m - 2 ^ bits.

Definition u8 : Z -> Z := wrap_unsigned 8.
Definition u32 : Z -> Z := wrap_unsigned 32.
Definition s16 : Z -> Z := wrap_signed 16.
Definition s64 : Z -> Z := wrap_signed 64.

Definition INT16_MIN : Z := -32768.
Definition INT16_MAX : Z := 32767.

(** Zephyr's errno values used by the driver. *)
Definition EIO : Z := 5.
Definition EBUSY : Z := 16.
Definition EINVAL : Z := 22.
Definition ENOTSUP : Z := 134.

(** C truth value of an [int]. *)
Definition truthy (e : Z) : bool := negb (e =? 0).

(** Zephyr's [MIN] and [CLAMP] macros. *)
Definition MIN (a b : Z) : Z := if a <? b then a else b.
Definition CLAMP (val low high : Z) : Z :=
  if val <=? low then low else MIN val high.

(* ================================================================== *)
(** ** What the driver takes from [pmw3610.h] and from Kconfig *)

(** The constants of [pmw3610.h] that [pmw3610.c] refers to.  The header
    is not part of the sources at hand, so its values are a parameter of
    every definition below. *)
Record pmw3610_h : Type := {
  SPI_WRITE_BIT : Z;
  T_CLOCK_ON_DELAY_US : Z;
  PMW3610_REG_PRODUCT_ID : Z;
  PMW3610_REG_MOTION_BURST : Z;
  PMW3610_REG_RUN_DOWNSHIFT : Z;
  PMW3610_REG_REST1_RATE : Z;
  PMW3610_REG_REST1_DOWNSHIFT : Z;
  PMW3610_REG_REST2_RATE : Z;
  PMW3610_REG_REST2_DOWNSHIFT : Z;
  PMW3610_REG_REST3_RATE : Z;
  PMW3610_REG_OBSERVATION : Z;
  PMW3610_REG_POWER_UP_RESET : Z;
  PMW3610_REG_SPI_CLK_ON_REQ : Z;
  PMW3610_REG_RES_STEP : Z;
  PMW3610_PRODUCT_ID : Z;
  PMW3610_POWERUP_CMD_RESET : Z;
  PMW3610_SPI_CLOCK_CMD_ENABLE : Z;
  PMW3610_SPI_CLOCK_CMD_DISABLE : Z;
  PMW3610_MAX_CPI : Z;
  PMW3610_MIN_CPI : Z;
  PMW3610_BURST_SIZE : nat;
  PMW3610_X_L_POS : nat;
  PMW3610_Y_L_POS : nat;
  PMW3610_XY_H_POS : nat;
  PMW3610_SHUTTER_H_POS : nat;
  PMW3610_SHUTTER_L_POS : nat
}.

(** The build-time options ([CONFIG_PMW3610_...]) the file is compiled
    under.  The devicetree property [automouse_layer] is taken to be 0,
    which removes the automouse blocks ([#if AUTOMOUSE_LAYER > 0]). *)
Record kconfig : Type := {
  CONFIG_PMW3610_INIT_POWER_UP_EXTRA_DELAY_MS : Z;
  CONFIG_PMW3610_RUN_DOWNSHIFT_TIME_MS : Z;
  CONFIG_PMW3610_REST1_DOWNSHIFT_TIME_MS : Z;
  CONFIG_PMW3610_REST2_DOWNSHIFT_TIME_MS : Z;
  CONFIG_PMW3610_REST1_SAMPLE_TIME_MS : Z;
  CONFIG_PMW3610_REST2_SAMPLE_TIME_MS : Z;
  CONFIG_PMW3610_REST3_SAMPLE_TIME_MS : Z;
  CONFIG_PMW3610_REPORT_INTERVAL_MIN : Z;
  CONFIG_PMW3610_SWAP_XY : bool;
  CONFIG_PMW3610_INVERT_X : bool;
  CONFIG_PMW3610_INVERT_Y : bool;
  CONFIG_PMW3610_SMART_ALGORITHM : bool
}.

(** [struct pixart_config], as filled in by [PMW3610_DEFINE]; the bus and
    interrupt-line handles are the environment below. *)
Record pixart_config : Type := {
  cpi : Z;
  evt_type : Z;
  x_input_code : Z;
  y_input_code : Z
}.

(* ================================================================== *)
(** ** Driver state and the world it runs in *)

(** The fields of [struct pixart_data] the file reads and writes. *)
Record pixart_data : Type := {
  ready : bool;
  async_init_step : nat;
  err : Z;
  sw_smart_flag : bool
}.

(** The function-local [static] variables of [pmw3610_report_data]. *)
Record report_static : Type := {
  dx : Z;
  dy : Z;
  last_smp_time : Z;
  last_rpt_time : Z
}.

(** Everything the driver does to the outside, in order. *)
Inductive event : Type :=
| EvSpiWrite (tx : list Z)            (* spi_write_dt: the bytes sent *)
| EvSpiRead (addr : Z) (len : nat)    (* spi_transceive_dt: address out, len bytes in *)
| EvSleepUs (us : Z)                  (* k_sleep(K_USEC(us)) *)
| EvGpioInt (en : bool)               (* gpio_pin_interrupt_configure_dt *)
| EvInputReport (type code value : Z) (sync : bool). (* input_report *)

Record world : Type := {
  data : pixart_data;
  stat : report_static;
  init_work : option Z;   (* delay of the pending init_work item, if queued *)
  trigger_work : bool;    (* trigger_work submitted and not yet run *)
  trace : list event
}.

(** The bus: the return code and the received payload of a transaction,
    as a function of everything that happened up to and including it. *)
Definition bus : Type := list event -> Z * list Z.

Definition set_data (d : pixart_data) (w : world) : world :=
  {| data := d; stat := stat w; init_work := init_work w;
     trigger_work := trigger_work w; trace := trace w |}.
Definition set_stat (s : report_static) (w : world) : world :=
  {| data := data w; stat := s; init_work := init_work w;
     trigger_work := trigger_work w; trace := trace w |}.
Definition set_init_work (q : option Z) (w : world) : world :=
  {| data := data w; stat := stat w; init_work := q;
     trigger_work := trigger_work w; trace := trace w |}.
Definition set_trigger_work (q : bool) (w : world) : world :=
  {| data := data w; stat := stat w; init_work := init_work w;
     trigger_work := q; trace := trace w |}.
Definition set_trace (t : list event) (w : world) : world :=
  {| data := data w; stat := stat w; init_work := init_work w;
     trigger_work := trigger_work w; trace := t |}.

Definition set_ready (b : bool) (d : pixart_data) : pixart_data :=
  {| ready := b; async_init_step := async_init_step d; err := err d;
     sw_smart_flag := sw_smart_flag d |}.
Definition set_async_init_step (n : nat) (d : pixart_data) : pixart_data :=
  {| ready := ready d; async_init_step := n; err := err d;
     sw_smart_flag := sw_smart_flag d |}.
Definition set_err (e : Z) (d : pixart_data) : pixart_data :=
  {| ready := ready d; async_init_step := async_init_step d; err := e;
     sw_smart_flag := sw_smart_flag d |}.
Definition set_sw_smart_flag (b : bool) (d : pixart_data) : pixart_data :=
  {| ready := ready d; async_init_step := async_init_step d; err := err d;
     sw_smart_flag := b |}.

(** *** The state monad the translation is written in *)

Definition M (A : Type) : Type := world -> A * world.

Definition ret {A : Type} (a : A) : M A := fun w => (a, w).
Definition bind {A B : Type} (m : M A) (f : A -> M B) : M B :=
  fun w => let (a, w') := m w in f a w'.

Declare Scope drv_scope.
Delimit Scope drv_scope with drv.
Notation "x <- m ;; k" := (bind m (fun x => k))
  (at level 61, m at next level, right associativity) : drv_scope.
Notation "' pat <- m ;; k" := (bind m (fun x => match x with pat => k end))
  (at level 61, pat pattern, m at next level, right associativity) : drv_scope.
Notation "m ;;; k" := (bind m (fun _ => k))
  (at level 61, right associativity) : drv_scope.
Local Open Scope drv_scope.

Definition emit (e : event) : M unit :=
  fun w => (tt, set_trace (trace w ++ [e]) w).
Definition get_data : M pixart_data := fun w => (data w, w).
Definition put_data (d : pixart_data) : M unit := fun w => (tt, set_data d w).
Definition get_stat : M report_static := fun w => (stat w, w).
Definition put_stat (s : report_static) : M unit := fun w => (tt, set_stat s w).

(** [k_work_schedule(&data->init_work, K_MSEC(ms))]. *)
Definition k_work_schedule (ms : Z) : M unit :=
  fun w => (tt, set_init_work (Some ms) w).
(** [k_work_submit(&data->trigger_work)]. *)
Definition k_work_submit : M unit :=
  fun w => (tt, set_trigger_work true w).
(** [k_sleep(K_USEC(us))]. *)
Definition k_sleep_usec (us : Z) : M unit := emit (EvSleepUs us).

(** The [len] bytes a read leaves in the receive buffer, given the bus's
    answer. *)
Definition rx_buffer (r : Z * list Z) (len : nat) : list Z :=
  map u8 (firstn len (snd r ++ repeat 0 len)).

(* ================================================================== *)
(** ** The driver *)

(** Each C function is a computation in [M] under its own name.  An
    argument of C type [uint8_t] or [uint32_t] is a [Z] meant in the
    range of that type; where the code stores a computed value into a
    narrower variable ([uint8_t value], the write buffer, [int16_t x])
    the truncation is written out. *)

Section Driver.

Variable h : pmw3610_h.
Variable k : kconfig.
Variable config : pixart_config.
Variable spi : bus.

(** [spi_write_dt] of a buffer: the transaction is logged and the bus
    answers with its return code. *)
Definition spi_write_dt (tx : list Z) : M Z :=
  fun w => let t := trace w ++ [EvSpiWrite tx] in (fst (spi t), set_trace t w).

(** [spi_transceive_dt] as [pmw3610_read] uses it: one address byte out,
    one dummy byte skipped, [len] bytes received into the caller's
    [uint8_t] buffer. *)
Definition spi_transceive_dt (addr : Z) (len : nat) : M (Z * list Z) :=
  fun w =>
    let t := trace w ++ [EvSpiRead addr len] in
    let r := spi t in
    ((fst r, rx_buffer r len), set_trace t w).

(** *** Register access layer *)

Definition pmw3610_read (addr : Z) (len : nat) : M (Z * list Z) :=
  spi_transceive_dt (u8 addr) len.

Definition pmw3610_read_reg (addr : Z) : M (Z * list Z) :=
  pmw3610_read addr 1.

(** The two bytes [pmw3610_write_reg] puts on the bus. *)
Definition write_buf (addr value : Z) : list Z :=
  [u8 (Z.lor (u8 addr) (SPI_WRITE_BIT h)); u8 value].

Definition pmw3610_write_reg (addr value : Z) : M Z :=
  spi_write_dt (write_buf addr value).

Definition pmw3610_write (reg val : Z) : M Z :=
  pmw3610_write_reg (PMW3610_REG_SPI_CLK_ON_REQ h) (PMW3610_SPI_CLOCK_CMD_ENABLE h) ;;;
  k_sleep_usec (T_CLOCK_ON_DELAY_US h) ;;;
  e <- pmw3610_write_reg reg val ;;
  if truthy e then ret e
  else
    pmw3610_write_reg (PMW3610_REG_SPI_CLK_ON_REQ h) (PMW3610_SPI_CLOCK_CMD_DISABLE h) ;;;
    ret 0.

(** *** Configuration functions *)

(** [uint8_t value = (cpi / 200);] *)
Definition cpi_reg_value (cpi : Z) : Z := u8 (cpi / 200).

(** The [for] loop of [set_cpi]: it stops at the first failing write and
    leaves that write's return code in [err]. *)
Fixpoint set_cpi_loop (regs : list (Z * Z)) (e : Z) : M Z :=
  match regs with
  | [] => ret e
  | (a, d) :: rest =>
      e' <- pmw3610_write_reg a d ;;
      if truthy e' then ret e' else set_cpi_loop rest e'
  end.

Definition set_cpi (cpi : Z) : M Z :=
  if (cpi >? PMW3610_MAX_CPI h) || (cpi <? PMW3610_MIN_CPI h) then ret (- EINVAL)
  else
    let value := cpi_reg_value cpi in
    let addr := [0x7F; PMW3610_REG_RES_STEP h; 0x7F] in
    let data := [0xFF; value; 0x00] in
    pmw3610_write_reg (PMW3610_REG_SPI_CLK_ON_REQ h) (PMW3610_SPI_CLOCK_CMD_ENABLE h) ;;;
    k_sleep_usec (T_CLOCK_ON_DELAY_US h) ;;;
    (* [int err;] is assigned by the first iteration, which always runs *)
    e <- set_cpi_loop (combine addr data) 0 ;;
    pmw3610_write_reg (PMW3610_REG_SPI_CLK_ON_REQ h) (PMW3610_SPI_CLOCK_CMD_DISABLE h) ;;;
    if truthy e then ret e else ret 0.

Definition set_sample_time (reg_addr sample_time : Z) : M Z :=
  let maxtime := 2550 in
  let mintime := 10 in
  if (sample_time >? maxtime) || (sample_time <? mintime) then ret (- EINVAL)
  else
    let value := u8 (sample_time / mintime) in
    pmw3610_write reg_addr value.

Definition set_downshift_time (reg_addr time : Z) : M Z :=
  let range : option (Z * Z) :=
    if reg_addr =? PMW3610_REG_RUN_DOWNSHIFT h then Some (8160, 32)
    else if reg_addr =? PMW3610_REG_REST1_DOWNSHIFT h then
      Some (u32 (255 * 16 * CONFIG_PMW3610_REST1_SAMPLE_TIME_MS k),
            u32 (16 * CONFIG_PMW3610_REST1_SAMPLE_TIME_MS k))
    else if reg_addr =? PMW3610_REG_REST2_DOWNSHIFT h then
      Some (u32 (255 * 128 * CONFIG_PMW3610_REST2_SAMPLE_TIME_MS k),
            u32 (128 * CONFIG_PMW3610_REST2_SAMPLE_TIME_MS k))
    else None in
  match range with
  | None => ret (- ENOTSUP)
  | Some (maxtime, mintime) =>
      if (time >? maxtime) || (time <? mintime) then ret (- EINVAL)
      else
        (* __ASSERT_NO_MSG((mintime > 0) && (maxtime / mintime <= UINT8_MAX))
           is a debug-build check and emits nothing *)
        let value := u8 (time / mintime) in
        pmw3610_write reg_addr value
  end.

Definition set_interrupt (en : bool) : M unit := emit (EvGpioInt en).

(** *** Asynchronous initialisation *)

Definition ASYNC_INIT_STEP_POWER_UP : nat := 0.
Definition ASYNC_INIT_STEP_CLEAR_OB1 : nat := 1.
Definition ASYNC_INIT_STEP_CHECK_OB1 : nat := 2.
Definition ASYNC_INIT_STEP_CONFIGURE : nat := 3.
Definition ASYNC_INIT_STEP_COUNT : nat := 4.

Definition async_init_delay : list Z :=
  [10 + CONFIG_PMW3610_INIT_POWER_UP_EXTRA_DELAY_MS k; 200; 50; 0].

Definition pmw3610_async_init_power_up : M Z :=
  r <- pmw3610_write_reg (PMW3610_REG_POWER_UP_RESET h) (PMW3610_POWERUP_CMD_RESET h) ;;
  if r <? 0 then ret r else ret 0.

Definition pmw3610_async_init_clear_ob1 : M Z :=
  pmw3610_write (PMW3610_REG_OBSERVATION h) 0x00.

Definition pmw3610_async_init_check_ob1 : M Z :=
  ' (e, buf) <- pmw3610_read_reg (PMW3610_REG_OBSERVATION h) ;;
  if truthy e then ret e
  else
    let value := nth 0%nat buf 0 in
    if negb (Z.land value 0x0F =? 0x0F) then ret (- EINVAL)
    else
      ' (e, buf) <- pmw3610_read_reg (PMW3610_REG_PRODUCT_ID h) ;;
      if truthy e then ret e
      else
        let product_id := nth 0%nat buf 0 in
        if negb (product_id =? PMW3610_PRODUCT_ID h) then ret (- EIO)
        else ret 0.

(** [for (reg = 0x02; (reg <= 0x05) && !err; reg++) err = read_reg(reg)] *)
Fixpoint clear_motion_loop (regs : list Z) (e : Z) : M Z :=
  match regs with
  | [] => ret e
  | r :: rest =>
      if truthy e then ret e
      else ' (e', _) <- pmw3610_read_reg r ;; clear_motion_loop rest e'
  end.

(** [if (!err) { err = m; }] *)
Definition unless_err (e : Z) (m : M Z) : M Z :=
  if truthy e then ret e else m.

Definition pmw3610_async_init_configure : M Z :=
  e <- clear_motion_loop [0x02; 0x03; 0x04; 0x05] 0 ;;
  e <- unless_err e (set_cpi (cpi config)) ;;
  e <- unless_err e (set_downshift_time (PMW3610_REG_RUN_DOWNSHIFT h)
                       (CONFIG_PMW3610_RUN_DOWNSHIFT_TIME_MS k)) ;;
  e <- unless_err e (set_downshift_time (PMW3610_REG_REST1_DOWNSHIFT h)
                       (CONFIG_PMW3610_REST1_DOWNSHIFT_TIME_MS k)) ;;
  e <- unless_err e (set_downshift_time (PMW3610_REG_REST2_DOWNSHIFT h)
                       (CONFIG_PMW3610_REST2_DOWNSHIFT_TIME_MS k)) ;;
  e <- unless_err e (set_sample_time (PMW3610_REG_REST1_RATE h)
                       (CONFIG_PMW3610_REST1_SAMPLE_TIME_MS k)) ;;
  e <- unless_err e (set_sample_time (PMW3610_REG_REST2_RATE h)
                       (CONFIG_PMW3610_REST2_SAMPLE_TIME_MS k)) ;;
  e <- unless_err e (set_sample_time (PMW3610_REG_REST3_RATE h)
                       (CONFIG_PMW3610_REST3_SAMPLE_TIME_MS k)) ;;
  if truthy e then ret e else ret 0.

Definition async_init_fn : list (M Z) :=
  [pmw3610_async_init_power_up; pmw3610_async_init_clear_ob1;
   pmw3610_async_init_check_ob1; pmw3610_async_init_configure].

(** What [pmw3610_async_init] does once the step function has returned
    [e]. *)
Definition async_init_after (e : Z) : M unit :=
  d <- get_data ;;
  put_data (set_err e d) ;;;
  if truthy e then ret tt
  else
    d <- get_data ;;
    let n := S (async_init_step d) in
    put_data (set_async_init_step n d) ;;;
    if (n =? ASYNC_INIT_STEP_COUNT)%nat then
      d <- get_data ;;
      put_data (set_ready true d) ;;;
      set_interrupt true
    else k_work_schedule (nth n async_init_delay 0).

(** The handler of [init_work].  Indexing [async_init_fn] past its four
    entries has no defined behaviour: [None]. *)
Definition pmw3610_async_init (w : world) : option world :=
  match nth_error async_init_fn (async_init_step (data w)) with
  | None => None
  | Some fn => Some (snd ((e <- fn ;; async_init_after e) w))
  end.

(** The work queue serving [init_work]: while the item is queued, it is
    taken off the queue and its handler runs.  The result also lists,
    for every run of the handler, the step it ran and the code that step
    left in [data->err]. *)
Fixpoint run_init_work (fuel : nat) (w : world) : option (list (nat * Z) * world) :=
  match fuel with
  | O => Some ([], w)
  | S fuel' =>
      match init_work w with
      | None => Some ([], w)
      | Some _ =>
          match pmw3610_async_init (set_init_work None w) with
          | None => None
          | Some w' =>
              match run_init_work fuel' w' with
              | None => None
              | Some (l, w'') =>
                  Some ((async_init_step (data w), err (data w')) :: l, w'')
              end
          end
      end
  end.

(** *** Motion report *)

(** [TOINT16(val, bits)]: [val] stored in a signed [bits]-wide bit-field
    of type [int16_t] and read back; the store keeps the low [bits] bits
    (the conversion GCC and Clang define). *)
Definition TOINT16 (val bits : Z) : Z := s16 (wrap_signed bits val).

Definition decode_x (x_l xy_h : Z) : Z :=
  s16 (TOINT16 (x_l + Z.shiftl (Z.land xy_h 0xF0) 4) 12).
Definition decode_y (y_l xy_h : Z) : Z :=
  s16 (TOINT16 (y_l + Z.shiftl (Z.land xy_h 0x0F) 8) 12).

Definition byte_at (buf : list Z) (pos : nat) : Z := nth pos buf 0.

(** The [CONFIG_PMW3610_SWAP_XY] / [INVERT_X] / [INVERT_Y] blocks. *)
Definition axis_transform (x y : Z) : Z * Z :=
  let (x, y) :=
    if CONFIG_PMW3610_SWAP_XY k then (let a := x in (y, a)) else (x, y) in
  let x := if CONFIG_PMW3610_INVERT_X k then s16 (- x) else x in
  let y := if CONFIG_PMW3610_INVERT_Y k then s16 (- y) else y in
  (x, y).

Definition shutter_of (buf : list Z) : Z :=
  s16 (Z.shiftl (s16 (Z.land (byte_at buf (PMW3610_SHUTTER_H_POS h)) 0x01)) 8
       + byte_at buf (PMW3610_SHUTTER_L_POS h)).

(** The [CONFIG_PMW3610_SMART_ALGORITHM] block. *)
Definition smart_algorithm (buf : list Z) : M unit :=
  if CONFIG_PMW3610_SMART_ALGORITHM k then
    let shutter := shutter_of buf in
    d <- get_data ;;
    (if sw_smart_flag d && (shutter <? 45) then
       pmw3610_write 0x32 0x00 ;;;
       d <- get_data ;;
       put_data (set_sw_smart_flag false d)
     else ret tt) ;;;
    d <- get_data ;;
    (if negb (sw_smart_flag d) && (shutter >? 45) then
       pmw3610_write 0x32 0x80 ;;;
       d <- get_data ;;
       put_data (set_sw_smart_flag true d)
     else ret tt)
  else ret tt.

(** Purge of stale deltas and accumulation of the new sample. *)
Definition purge_and_accumulate (now x y : Z) (s : report_static) : report_static :=
  let s1 :=
    if CONFIG_PMW3610_REPORT_INTERVAL_MIN k >? 0 then
      let s0 :=
        if s64 (now - last_smp_time s) >=? CONFIG_PMW3610_REPORT_INTERVAL_MIN k then
          {| dx := 0; dy := 0;
             last_smp_time := last_smp_time s; last_rpt_time := last_rpt_time s |}
        else s in
      {| dx := dx s0; dy := dy s0;
         last_smp_time := now; last_rpt_time := last_rpt_time s0 |}
    else s in
  {| dx := s64 (dx s1 + x); dy := s64 (dy s1 + y);
     last_smp_time := last_smp_time s1; last_rpt_time := last_rpt_time s1 |}.

(** The tail of [pmw3610_report_data], from the report-interval gate to
    [return err]; [e] is the (zero) code of the burst read. *)
Definition report_emit (now e : Z) : M Z :=
  s <- get_stat ;;
  if (CONFIG_PMW3610_REPORT_INTERVAL_MIN k >? 0)
     && (s64 (now - last_rpt_time s) <? CONFIG_PMW3610_REPORT_INTERVAL_MIN k)
  then ret 0
  else
    let rx := s16 (CLAMP (dx s) INT16_MIN INT16_MAX) in
    let ry := s16 (CLAMP (dy s) INT16_MIN INT16_MAX) in
    let have_x := negb (rx =? 0) in
    let have_y := negb (ry =? 0) in
    (if have_x || have_y then
       put_stat {| dx := 0; dy := 0;
                   last_smp_time := last_smp_time s;
                   last_rpt_time :=
                     if CONFIG_PMW3610_REPORT_INTERVAL_MIN k >? 0 then now
                     else last_rpt_time s |} ;;;
       (if have_x then
          emit (EvInputReport (evt_type config) (x_input_code config) rx (negb have_y))
        else ret tt) ;;;
       (if have_y then
          emit (EvInputReport (evt_type config) (y_input_code config) ry true)
        else ret tt)
     else ret tt) ;;;
    ret e.

(** [now] is the value [k_uptime_get()] returns during the call. *)
Definition pmw3610_report_data (now : Z) : M Z :=
  d <- get_data ;;
  if negb (ready d) then ret (- EBUSY)
  else
    ' (e, buf) <- pmw3610_read (PMW3610_REG_MOTION_BURST h) (PMW3610_BURST_SIZE h) ;;
    if truthy e then ret e
    else
      let x := decode_x (byte_at buf (PMW3610_X_L_POS h)) (byte_at buf (PMW3610_XY_H_POS h)) in
      let y := decode_y (byte_at buf (PMW3610_Y_L_POS h)) (byte_at buf (PMW3610_XY_H_POS h)) in
      let (x, y) := axis_transform x y in
      smart_algorithm buf ;;;
      s <- get_stat ;;
      put_stat (purge_and_accumulate now x y s) ;;;
      report_emit now e.

Definition pmw3610_gpio_callback : M unit :=
  set_interrupt false ;;;
  k_work_submit.

Definition pmw3610_work_callback (now : Z) : M unit :=
  pmw3610_report_data now ;;;
  set_interrupt true.

End Driver.

(* ================================================================== *)
(** ** Vocabulary of the statements *)

Section Vocabulary.

Variable h : pmw3610_h.
Variable k : kconfig.

(** The events of a clocked write up to and including the inner write. *)
Definition clocked_prefix (reg val : Z) : list event :=
  [EvSpiWrite (write_buf h (PMW3610_REG_SPI_CLK_ON_REQ h) (PMW3610_SPI_CLOCK_CMD_ENABLE h));
   EvSleepUs (T_CLOCK_ON_DELAY_US h);
   EvSpiWrite (write_buf h reg val)].

Definition clock_disable : event :=
  EvSpiWrite (write_buf h (PMW3610_REG_SPI_CLK_ON_REQ h) (PMW3610_SPI_CLOCK_CMD_DISABLE h)).

(** The clock-enable bracket's opening: enable write, then the delay. *)
Definition clock_enable_seq : list event :=
  [EvSpiWrite (write_buf h (PMW3610_REG_SPI_CLK_ON_REQ h) (PMW3610_SPI_CLOCK_CMD_ENABLE h));
   EvSleepUs (T_CLOCK_ON_DELAY_US h)].

(** The three payload writes of [set_cpi], carrying register value [v]. *)
Definition cpi_payload (v : Z) : list event :=
  [EvSpiWrite (write_buf h 0x7F 0xFF);
   EvSpiWrite (write_buf h (PMW3610_REG_RES_STEP h) v);
   EvSpiWrite (write_buf h 0x7F 0x00)].

(** Bus transactions and the delays between them. *)
Definition bus_event (e : event) : Prop :=
  match e with
  | EvSpiWrite _ | EvSpiRead _ _ | EvSleepUs _ => True
  | EvGpioInt _ | EvInputReport _ _ _ _ => False
  end.

(** [m] leaves the driver state and the work queue alone: all it does is
    append bus events to the trace. *)
Definition bus_only {A : Type} (m : M A) : Prop :=
  forall w, exists t, Forall bus_event t /\ snd (m w) = set_trace (trace w ++ t) w.

(** The steps a complete bring-up runs from step [s] on, all successful. *)
Definition all_steps_ok_from (s : nat) : list (nat * Z) :=
  map (fun i => (i, 0)) (seq s (ASYNC_INIT_STEP_COUNT - s)).

(** The motion burst read of a report cycle started in [w]. *)
Definition burst_read (w : world) : list event :=
  trace w ++ [EvSpiRead (u8 (PMW3610_REG_MOTION_BURST h)) (PMW3610_BURST_SIZE h)].

(** The raw 12-bit deltas of a motion packet. *)
Definition decode_packet (buf : list Z) : Z * Z :=
  (decode_x (byte_at buf (PMW3610_X_L_POS h)) (byte_at buf (PMW3610_XY_H_POS h)),
   decode_y (byte_at buf (PMW3610_Y_L_POS h)) (byte_at buf (PMW3610_XY_H_POS h))).

(** The sample a motion packet contributes: decoded, then transformed. *)
Definition sample_of (buf : list Z) : Z * Z :=
  axis_transform k (fst (decode_packet buf)) (snd (decode_packet buf)).

(** The report-interval gate of [pmw3610_report_data] lets the cycle
    through to emission. *)
Definition gate_open (now : Z) (s : report_static) : bool :=
  negb ((CONFIG_PMW3610_REPORT_INTERVAL_MIN k >? 0)
        && (s64 (now - last_rpt_time s) <? CONFIG_PMW3610_REPORT_INTERVAL_MIN k)).

(** Sign extension of a 12-bit value: subtract 4096 from 2048 on. *)
Definition sign_extend_12 (raw : Z) : Z :=
  if 2048 <=? raw then raw - 4096 else raw.

(** Saturation to the signed 16-bit range. *)
Definition clamp_int16 (v : Z) : Z := Z.max (-32768) (Z.min v 32767).

(** Axis swap followed by per-axis negation, on mathematical integers. *)
Definition swap_xy (p : Z * Z) : Z * Z := (snd p, fst p).
Definition invert_axes (inv_x inv_y : bool) (p : Z * Z) : Z * Z :=
  ((if inv_x then - fst p else fst p), (if inv_y then - snd p else snd p)).
Definition swap_then_invert (swap inv_x inv_y : bool) (p : Z * Z) : Z * Z :=
  invert_axes inv_x inv_y (if swap then swap_xy p else p).
Definition invert_then_swap (swap inv_x inv_y : bool) (p : Z * Z) : Z * Z :=
  let q := invert_axes inv_x inv_y p in if swap then swap_xy q else q.

(** The events an emission of the clamped pair [(rx, ry)] consists of. *)
Definition emission (config : pixart_config) (rx ry : Z) : list event :=
  (if rx =? 0 then []
   else [EvInputReport (evt_type config) (x_input_code config) rx (ry =? 0)])
  ++ (if ry =? 0 then []
      else [EvInputReport (evt_type config) (y_input_code config) ry true]).

End Vocabulary.

(* ================================================================== *)
(** ** Sample instances: a header, a build configuration, some buses *)

Module Sample.

Definition hdr : pmw3610_h := {|
  SPI_WRITE_BIT := 0x80;
  T_CLOCK_ON_DELAY_US := 300;
  PMW3610_REG_PRODUCT_ID := 0x00;
  PMW3610_REG_MOTION_BURST := 0x12;
  PMW3610_REG_RUN_DOWNSHIFT := 0x1B;
  PMW3610_REG_REST1_RATE := 0x1C;
  PMW3610_REG_REST1_DOWNSHIFT := 0x1D;
  PMW3610_REG_REST2_RATE := 0x1E;
  PMW3610_REG_REST2_DOWNSHIFT := 0x1F;
  PMW3610_REG_REST3_RATE := 0x20;
  PMW3610_REG_OBSERVATION := 0x2D;
  PMW3610_REG_POWER_UP_RESET := 0x3A;
  PMW3610_REG_SPI_CLK_ON_REQ := 0x41;
  PMW3610_REG_RES_STEP := 0x85;
  PMW3610_PRODUCT_ID := 0x3E;
  PMW3610_POWERUP_CMD_RESET := 0x5A;
  PMW3610_SPI_CLOCK_CMD_ENABLE := 0xBA;
  PMW3610_SPI_CLOCK_CMD_DISABLE := 0xB5;
  PMW3610_MAX_CPI := 3200;
  PMW3610_MIN_CPI := 200;
  PMW3610_BURST_SIZE := 10;
  PMW3610_X_L_POS := 1;
  PMW3610_Y_L_POS := 2;
  PMW3610_XY_H_POS := 3;
  PMW3610_SHUTTER_H_POS := 5;
  PMW3610_SHUTTER_L_POS := 6
|}.

Definition kcfg (interval : Z) (swap invx invy smart : bool) : kconfig := {|
  CONFIG_PMW3610_INIT_POWER_UP_EXTRA_DELAY_MS := 0;
  CONFIG_PMW3610_RUN_DOWNSHIFT_TIME_MS := 128;
  CONFIG_PMW3610_REST1_DOWNSHIFT_TIME_MS := 9600;
  CONFIG_PMW3610_REST2_DOWNSHIFT_TIME_MS := 25600;
  CONFIG_PMW3610_REST1_SAMPLE_TIME_MS := 40;
  CONFIG_PMW3610_REST2_SAMPLE_TIME_MS := 100;
  CONFIG_PMW3610_REST3_SAMPLE_TIME_MS := 200;
  CONFIG_PMW3610_REPORT_INTERVAL_MIN := interval;
  CONFIG_PMW3610_SWAP_XY := swap;
  CONFIG_PMW3610_INVERT_X := invx;
  CONFIG_PMW3610_INVERT_Y := invy;
  CONFIG_PMW3610_SMART_ALGORITHM := smart
|}.

Definition cfg : pixart_config :=
  {| cpi := 800; evt_type := 2; x_input_code := 0; y_input_code := 1 |}.

Definition data0 : pixart_data :=
  {| ready := false; async_init_step := 0; err := 0; sw_smart_flag := false |}.
Definition stat0 : report_static :=
  {| dx := 0; dy := 0; last_smp_time := 0; last_rpt_time := 0 |}.

(** The zero-initialised driver with nothing queued and nothing done. *)
Definition world0 : world :=
  {| data := data0; stat := stat0; init_work := None; trigger_work := false;
     trace := [] |}.

(** A bus on which every transaction succeeds and every read returns
    [payload]. *)
Definition bus_const (payload : list Z) : bus := fun _ => (0, payload).

(** A bus that fails, with [-EIO], exactly the writes of the frame [tx]. *)
Definition bus_fail_write (tx : list Z) : bus :=
  fun t =>
    match rev t with
    | EvSpiWrite tx' :: _ =>
        if list_eq_dec Z.eq_dec tx tx' then (- EIO, []) else (0, [])
    | _ => (0, [])
    end.

(** A healthy sensor: the observation register reads [0x0F] (or [ob1]
    when given), the product id matches, every other read returns zeros. *)
Definition bus_sensor (ob1 : Z) : bus :=
  fun t =>
    match rev t with
    | EvSpiRead a _ :: _ =>
        if a =? PMW3610_REG_OBSERVATION hdr then (0, [ob1])
        else if a =? PMW3610_REG_PRODUCT_ID hdr then (0, [PMW3610_PRODUCT_ID hdr])
        else (0, [])
    | _ => (0, [])
    end.

(** Bring-up under way: step [s] is queued, nothing has failed. *)
Definition world_at_step (s : nat) : world :=
  {| data := {| ready := false; async_init_step := s; err := 0;
                sw_smart_flag := false |};
     stat := stat0; init_work := Some 50; trigger_work := false; trace := [] |}.

(** A bus whose reads all fail with [-EIO]; writes succeed. *)
Definition bus_fail_read : bus :=
  fun t =>
    match rev t with
    | EvSpiRead _ _ :: _ => (- EIO, [])
    | _ => (0, [])
    end.

(** A motion packet laid out as [hdr] says. *)
Definition packet (x_l y_l xy_h shutter_h shutter_l : Z) : list Z :=
  [0; x_l; y_l; xy_h; 0; shutter_h; shutter_l; 0; 0; 0].

Definition data_ready (smart : bool) : pixart_data :=
  {| ready := true; async_init_step := 4; err := 0; sw_smart_flag := smart |}.

(** Report statics with accumulators [(ax, ay)], last sample at [smp]
    and last report at [rpt]. *)
Definition stat_of (ax ay smp rpt : Z) : report_static :=
  {| dx := ax; dy := ay; last_smp_time := smp; last_rpt_time := rpt |}.

(** A driver that finished bring-up, with the given report statics. *)
Definition world_ready (smart : bool) (s : report_static) : world :=
  {| data := data_ready smart; stat := s; init_work := None;
     trigger_work := false; trace := [] |}.

End Sample.

(* ================================================================== *)
(** ** The rest of the file: driver start-up and the attribute interface *)

(** Zephyr's [ENODEV]. *)
Definition ENODEV : Z := 19.

(** What the platform answers while [pmw3610_init] runs: whether the SPI
    bus and the port of the interrupt pin are ready, and the return
    codes of [gpio_pin_configure_dt] and [gpio_add_callback]. *)
Record platform : Type := {
  spi_is_ready_dt : bool;
  device_is_ready : bool;
  gpio_pin_configure_dt : Z;
  gpio_add_callback : Z
}.

(** [struct sensor_value]. *)
Record sensor_value : Type := {
  val1 : Z;
  val2 : Z
}.

(** What [pmw3610_attr_set] takes from the headers: Zephyr's
    [SENSOR_CHAN_ALL], and the attribute numbers and value conversions of
    [pmw3610.h], which is not among the sources at hand. *)
Record pmw3610_attr_h : Type := {
  SENSOR_CHAN_ALL : Z;
  PMW3610_ATTR_CPI : Z;
  PMW3610_ATTR_RUN_DOWNSHIFT_TIME : Z;
  PMW3610_ATTR_REST1_DOWNSHIFT_TIME : Z;
  PMW3610_ATTR_REST2_DOWNSHIFT_TIME : Z;
  PMW3610_ATTR_REST1_SAMPLE_TIME : Z;
  PMW3610_ATTR_REST2_SAMPLE_TIME : Z;
  PMW3610_ATTR_REST3_SAMPLE_TIME : Z;
  PMW3610_SVALUE_TO_CPI : sensor_value -> Z;
  PMW3610_SVALUE_TO_TIME : sensor_value -> Z
}.

Section DriverStart.

Variable h : pmw3610_h.
Variable k : kconfig.
Variable config : pixart_config.
Variable spi : bus.
Variable p : platform.
Variable a : pmw3610_attr_h.

Definition pmw3610_init_irq : M Z :=
  if negb (device_is_ready p) then ret (- ENODEV)
  else
    let e := gpio_pin_configure_dt p in
    if truthy e then ret e
    else
      (* gpio_init_callback(&data->irq_gpio_cb, pmw3610_gpio_callback, ...) *)
      ret (gpio_add_callback p).

(** [pmw3610_init].  [k_work_init] and [k_work_init_delayable] leave the
    work items not queued; [data->dev = dev] has no counterpart in the
    model.  Reading [async_init_delay] past its four entries has no
    defined behaviour: [None]. *)
Definition pmw3610_init (w : world) : option (Z * world) :=
  if negb (spi_is_ready_dt p) then Some (- ENODEV, w)
  else
    let w1 := set_data (set_sw_smart_flag false (data w)) w in
    let w2 := set_trigger_work false w1 in
    let (e, w3) := pmw3610_init_irq w2 in
    if truthy e then Some (e, w3)
    else
      let w4 := set_init_work None w3 in
      match nth_error (async_init_delay k) (async_init_step (data w4)) with
      | None => None
      | Some ms => Some (e, snd (k_work_schedule ms w4))
      end.

Definition pmw3610_attr_set (chan attr : Z) (val : sensor_value) : M Z :=
  if negb (chan =? SENSOR_CHAN_ALL a) then ret (- ENOTSUP)
  else
    d <- get_data ;;
    if negb (ready d) then ret (- EBUSY)
    else
      let attr := u32 attr in
      if attr =? PMW3610_ATTR_CPI a then
        set_cpi h spi (PMW3610_SVALUE_TO_CPI a val)
      else if attr =? PMW3610_ATTR_RUN_DOWNSHIFT_TIME a then
        set_downshift_time h k spi (PMW3610_REG_RUN_DOWNSHIFT h)
          (PMW3610_SVALUE_TO_TIME a val)
      else if attr =? PMW3610_ATTR_REST1_DOWNSHIFT_TIME a then
        set_downshift_time h k spi (PMW3610_REG_REST1_DOWNSHIFT h)
          (PMW3610_SVALUE_TO_TIME a val)
      else if attr =? PMW3610_ATTR_REST2_DOWNSHIFT_TIME a then
        set_downshift_time h k spi (PMW3610_REG_REST2_DOWNSHIFT h)
          (PMW3610_SVALUE_TO_TIME a val)
      else if attr =? PMW3610_ATTR_REST1_SAMPLE_TIME a then
        set_sample_time h spi (PMW3610_REG_REST1_RATE h) (PMW3610_SVALUE_TO_TIME a val)
      else if attr =? PMW3610_ATTR_REST2_SAMPLE_TIME a then
        set_sample_time h spi (PMW3610_REG_REST2_RATE h) (PMW3610_SVALUE_TO_TIME a val)
      else if attr =? PMW3610_ATTR_REST3_SAMPLE_TIME a then
        set_sample_time h spi (PMW3610_REG_REST3_RATE h) (PMW3610_SVALUE_TO_TIME a val)
      else ret (- ENOTSUP).

(** One interrupt: the GPIO callback, then the work item it submitted. *)
Definition interrupt_cycle (now : Z) : M unit :=
  pmw3610_gpio_callback ;;;
  (fun w => pmw3610_work_callback h k config spi now (set_trigger_work false w)).

End DriverStart.

(** *** More vocabulary *)

Section Vocabulary2.

Variable h : pmw3610_h.
Variable k : kconfig.

(** The four read-and-discard register reads [pmw3610_async_init_configure]
    starts with. *)
Definition motion_drain : list event :=
  map (fun r => EvSpiRead (u8 r) 1) [0x02; 0x03; 0x04; 0x05].

(** The two reads of the self-test step. *)
Definition observation_read : event := EvSpiRead (u8 (PMW3610_REG_OBSERVATION h)) 1.
Definition product_id_read : event := EvSpiRead (u8 (PMW3610_REG_PRODUCT_ID h)) 1.

(** The first byte a single-register read leaves in its buffer. *)
Definition read_byte (r : Z * list Z) : Z := byte_at (rx_buffer r 1) 0.

(** A bus on which no transaction fails. *)
Definition bus_never_fails (spi : bus) : Prop := forall t, fst (spi t) = 0.

(** A sensor that passed its self-test and identifies itself. *)
Definition sensor_healthy (spi : bus) : Prop :=
  bus_never_fails spi
  /\ (forall t, Z.land (read_byte (spi (t ++ [observation_read]))) 0x0F = 0x0F)
  /\ (forall t, read_byte (spi (t ++ [product_id_read])) = PMW3610_PRODUCT_ID h).

(** A build whose values [pmw3610_async_init_configure] accepts: the
    three downshift registers are distinct, the default CPI and the
    run-mode downshift time are in range, the sample times are in
    10..2550 ms and the rest-mode downshift times are within 1..255
    units of 16 (rest1) and 128 (rest2) sample periods. *)
Definition build_accepted (config : pixart_config) : Prop :=
  PMW3610_REG_REST1_DOWNSHIFT h <> PMW3610_REG_RUN_DOWNSHIFT h
  /\ PMW3610_REG_REST2_DOWNSHIFT h <> PMW3610_REG_RUN_DOWNSHIFT h
  /\ PMW3610_REG_REST2_DOWNSHIFT h <> PMW3610_REG_REST1_DOWNSHIFT h
  /\ PMW3610_MIN_CPI h <= cpi config <= PMW3610_MAX_CPI h
  /\ 32 <= CONFIG_PMW3610_RUN_DOWNSHIFT_TIME_MS k <= 8160
  /\ 10 <= CONFIG_PMW3610_REST1_SAMPLE_TIME_MS k <= 2550
  /\ 10 <= CONFIG_PMW3610_REST2_SAMPLE_TIME_MS k <= 2550
  /\ 10 <= CONFIG_PMW3610_REST3_SAMPLE_TIME_MS k <= 2550
  /\ 16 * CONFIG_PMW3610_REST1_SAMPLE_TIME_MS k
     <= CONFIG_PMW3610_REST1_DOWNSHIFT_TIME_MS k
     <= 255 * 16 * CONFIG_PMW3610_REST1_SAMPLE_TIME_MS k
  /\ 128 * CONFIG_PMW3610_REST2_SAMPLE_TIME_MS k
     <= CONFIG_PMW3610_REST2_DOWNSHIFT_TIME_MS k
     <= 255 * 128 * CONFIG_PMW3610_REST2_SAMPLE_TIME_MS k.

(** Events other than those on the interrupt line. *)
Definition not_gpio_event (e : event) : Prop :=
  match e with
  | EvGpioInt _ => False
  | _ => True
  end.

(** The fields of the driver data and of the work queue that only
    bring-up writes. *)
Definition same_bringup_state (w w' : world) : Prop :=
  ready (data w') = ready (data w)
  /\ async_init_step (data w') = async_init_step (data w)
  /\ err (data w') = err (data w)
  /\ init_work w' = init_work w.

(** The return code of a log entry is zero. *)
Definition step_ok (entry : nat * Z) : bool := snd entry =? 0.

End Vocabulary2.

(** *** More sample instances *)

Module SampleStart.

Definition platform_ok : platform :=
  {| spi_is_ready_dt := true; device_is_ready := true;
     gpio_pin_configure_dt := 0; gpio_add_callback := 0 |}.

Definition platform_no_irq_port : platform :=
  {| spi_is_ready_dt := true; device_is_ready := false;
     gpio_pin_configure_dt := 0; gpio_add_callback := 0 |}.

Definition attrs : pmw3610_attr_h :=
  {| SENSOR_CHAN_ALL := 59;
     PMW3610_ATTR_CPI := 0;
     PMW3610_ATTR_RUN_DOWNSHIFT_TIME := 1;
     PMW3610_ATTR_REST1_DOWNSHIFT_TIME := 2;
     PMW3610_ATTR_REST2_DOWNSHIFT_TIME := 3;
     PMW3610_ATTR_REST1_SAMPLE_TIME := 4;
     PMW3610_ATTR_REST2_SAMPLE_TIME := 5;
     PMW3610_ATTR_REST3_SAMPLE_TIME := 6;
     PMW3610_SVALUE_TO_CPI := fun v => u32 (val1 v);
     PMW3610_SVALUE_TO_TIME := fun v => u32 (val1 v) |}.

Definition kcfg0 : kconfig := Sample.kcfg 0 false false false false.

(** A bus that fails, with [-EIO], exactly the reads of register [reg]. *)
Definition bus_fail_read_of (reg : Z) : bus :=
  fun t =>
    match rev t with
    | EvSpiRead r _ :: _ => if r =? reg then (- EIO, []) else (0, [])
    | _ => (0, [])
    end.

(** A bus on which every transaction returns the positive code 1. *)
Definition bus_positive : bus := fun _ => (1, []).

End SampleStart.

(* ================================================================== *)
(** ** Basic facts *)

Lemma wrap_signed_id (bits x : Z) :
  0 < bits -> - 2 ^ (bits - 1) <= x < 2 ^ (bits - 1) -> wrap_signed bits x = x.
Proof.
  intros Hb Hx. unfold wrap_signed.
  assert (Hp : 2 ^ bits = 2 * 2 ^ (bits - 1)).
  { replace bits with (Z.succ (bits - 1)) at 1 by lia. apply Z.pow_succ_r. lia. }
  destruct (Z_lt_le_dec x 0) as [Hneg | Hpos].
  - assert (Hm : x mod 2 ^ bits = x + 2 ^ bits).
    { symmetry. apply (Z.mod_unique x (2 ^ bits) (-1)); lia. }
    rewrite Hm. destruct (Z.ltb_spec (x + 2 ^ bits) (2 ^ (bits - 1))); lia.
  - rewrite Z.mod_small by lia.
    destruct (Z.ltb_spec x (2 ^ (bits - 1))); lia.
Qed.

Lemma s16_id (x : Z) : -32768 <= x <= 32767 -> s16 x = x.
Proof. intros Hx. apply wrap_signed_id; simpl; lia. Qed.

Lemma s64_id (x : Z) : - 2 ^ 63 <= x < 2 ^ 63 -> s64 x = x.
Proof. intros Hx. apply wrap_signed_id; simpl; lia. Qed.

Lemma u8_id (x : Z) : 0 <= x < 256 -> u8 x = x.
Proof. intros Hx. apply Z.mod_small. simpl. lia. Qed.

Lemma u8_range (x : Z) : 0 <= u8 x < 256.
Proof. unfold u8, wrap_unsigned. apply Z.mod_pos_bound. reflexivity. Qed.

Lemma low_nibble_mask (hi : Z) : Z.land hi 0x0F = hi mod 16.
Proof. change 0x0F with (Z.ones 4). rewrite Z.land_ones by lia. reflexivity. Qed.

Lemma low_nibble_u8 (v : Z) : Z.land (u8 v) 0x0F = Z.land v 0x0F.
Proof.
  rewrite !low_nibble_mask. unfold u8, wrap_unsigned.
  change (2 ^ 8) with (16 * 16).
  rewrite Z.rem_mul_r by lia.
  rewrite (Z.mul_comm 16 ((v / 16) mod 16)), Z.mod_add by lia.
  apply Z.mod_mod. lia.
Qed.

Lemma truthy_zero : truthy 0 = false.
Proof. reflexivity. Qed.

Lemma truthy_nonzero (e : Z) : e <> 0 -> truthy e = true.
Proof. intros He. unfold truthy. destruct (Z.eqb_spec e 0); [contradiction | reflexivity]. Qed.

Lemma set_trace_trace (w : world) : set_trace (trace w) w = w.
Proof. destruct w; reflexivity. Qed.

(** Unfolding of the monad and of the register access layer, down to
    explicit traces. *)
Ltac run_bus :=
  unfold pmw3610_write, pmw3610_write_reg, spi_write_dt, pmw3610_read_reg,
    pmw3610_read, spi_transceive_dt, k_sleep_usec, set_interrupt, emit,
    bind, ret;
  cbn [set_trace trace data stat init_work trigger_work fst snd].

Ltac norm_trace :=
  cbn [set_trace trace data stat init_work trigger_work fst snd];
  repeat (rewrite <- app_assoc; cbn [app]).

(* ================================================================== *)
(** ** Register access layer: the clocked write *)

Section ClockedWrite.

Variable h : pmw3610_h.
Variable spi : bus.

Lemma pmw3610_write_ok (reg val : Z) (w : world) :
  fst (spi (trace w ++ clocked_prefix h reg val)) = 0 ->
  pmw3610_write h spi reg val w
  = (0, set_trace (trace w ++ clocked_prefix h reg val ++ [clock_disable h]) w).
Proof.
  unfold clocked_prefix, clock_disable. intros H0.
  run_bus. norm_trace. rewrite H0. cbn [truthy Z.eqb negb]. norm_trace. reflexivity.
Qed.

End ClockedWrite.

(* ================================================================== *)
(** ** [set_cpi] *)

Section SetCpi.

Variable h : pmw3610_h.
Variable spi : bus.

Lemma cpi_range_check (c : Z) :
  PMW3610_MIN_CPI h <= c <= PMW3610_MAX_CPI h ->
  (c >? PMW3610_MAX_CPI h) || (c <? PMW3610_MIN_CPI h) = false.
Proof.
  intros Hc. apply orb_false_iff. split.
  - destruct (Z.gtb_spec c (PMW3610_MAX_CPI h)); [lia | reflexivity].
  - destruct (Z.ltb_spec c (PMW3610_MIN_CPI h)); [lia | reflexivity].
Qed.

Lemma cpi_range_check_out (c : Z) :
  c > PMW3610_MAX_CPI h \/ c < PMW3610_MIN_CPI h ->
  (c >? PMW3610_MAX_CPI h) || (c <? PMW3610_MIN_CPI h) = true.
Proof.
  intros Hc. apply orb_true_iff.
  destruct Hc as [Hc | Hc]; [left | right].
  - destruct (Z.gtb_spec c (PMW3610_MAX_CPI h)); [reflexivity | lia].
  - destruct (Z.ltb_spec c (PMW3610_MIN_CPI h)); [reflexivity | lia].
Qed.

(** [set_cpi] on an accepted input, by the return codes of the payload
    writes. *)
Lemma set_cpi_in_range (c : Z) (w : world) :
  PMW3610_MIN_CPI h <= c <= PMW3610_MAX_CPI h ->
  let pre := trace w ++ clock_enable_seq h in
  let p := cpi_payload h (cpi_reg_value c) in
  let e1 := fst (spi (pre ++ firstn 1 p)) in
  let e2 := fst (spi (pre ++ firstn 2 p)) in
  let e3 := fst (spi (pre ++ firstn 3 p)) in
  set_cpi h spi c w =
  if truthy e1 then (e1, set_trace (pre ++ firstn 1 p ++ [clock_disable h]) w)
  else if truthy e2 then (e2, set_trace (pre ++ firstn 2 p ++ [clock_disable h]) w)
  else if truthy e3 then (e3, set_trace (pre ++ firstn 3 p ++ [clock_disable h]) w)
  else (0, set_trace (pre ++ firstn 3 p ++ [clock_disable h]) w).
Proof.
  intros Hc. cbv zeta.
  unfold set_cpi. rewrite (cpi_range_check c Hc).
  unfold clock_enable_seq, cpi_payload, clock_disable.
  cbn [combine set_cpi_loop firstn]. run_bus. norm_trace.
  destruct (truthy (fst (spi _))) eqn:E1; norm_trace;
    [ rewrite ?E1; reflexivity | ].
  destruct (truthy (fst (spi (trace w ++ [_; _; _; _])))) eqn:E2; norm_trace;
    [ rewrite ?E1, ?E2; reflexivity | ].
  destruct (truthy (fst (spi (trace w ++ [_; _; _; _; _])))) eqn:E3; norm_trace;
    rewrite ?E1, ?E2, ?E3; reflexivity.
Qed.

Lemma set_cpi_out_of_range (c : Z) (w : world) :
  c > PMW3610_MAX_CPI h \/ c < PMW3610_MIN_CPI h ->
  set_cpi h spi c w = (- EINVAL, w).
Proof.
  intros Hc. unfold set_cpi. rewrite (cpi_range_check_out c Hc). reflexivity.
Qed.

Lemma cpi_reg_value_exact (c : Z) :
  0 <= c -> c <= PMW3610_MAX_CPI h -> PMW3610_MAX_CPI h < 51200 ->
  cpi_reg_value c = c / 200.
Proof.
  intros H0 Hc Hmax. unfold cpi_reg_value. apply u8_id. split.
  - apply Z.div_pos; lia.
  - apply Z.div_lt_upper_bound; lia.
Qed.

End SetCpi.

(* ================================================================== *)
(** ** Functions that only talk to the bus *)

Lemma bus_only_ret {A : Type} (a : A) : bus_only (ret a).
Proof.
  intros w. exists []. split; [constructor | ].
  cbn. rewrite app_nil_r. symmetry. apply set_trace_trace.
Qed.

Lemma bus_only_bind {A B : Type} (m : M A) (f : A -> M B) :
  bus_only m -> (forall a, bus_only (f a)) -> bus_only (bind m f).
Proof.
  intros Hm Hf w. unfold bind.
  destruct (m w) as [a w1] eqn:Em.
  destruct (Hm w) as [t1 [F1 H1]]. rewrite Em in H1. cbn [snd] in H1. subst w1.
  destruct (Hf a (set_trace (trace w ++ t1) w)) as [t2 [F2 H2]].
  exists (t1 ++ t2). split; [apply Forall_app; split; assumption | ].
  rewrite H2. cbn [trace set_trace].
  rewrite app_assoc. reflexivity.
Qed.

Lemma bus_only_sleep (us : Z) : bus_only (k_sleep_usec us).
Proof.
  intros w. exists [EvSleepUs us]. split; [ | reflexivity].
  repeat constructor.
Qed.

Lemma bus_only_spi_write_dt (spi : bus) (tx : list Z) : bus_only (spi_write_dt spi tx).
Proof.
  intros w. exists [EvSpiWrite tx]. split; [ | reflexivity].
  repeat constructor.
Qed.

Lemma bus_only_spi_transceive_dt (spi : bus) (addr : Z) (len : nat) :
  bus_only (spi_transceive_dt spi addr len).
Proof.
  intros w. exists [EvSpiRead addr len]. split; [ | reflexivity].
  repeat constructor.
Qed.

Create HintDb bus_only.
#[export] Hint Resolve bus_only_ret bus_only_sleep bus_only_spi_write_dt
  bus_only_spi_transceive_dt : bus_only.

(** Splits binds and branches until the primitives are reached. *)
Ltac bus_only_tac :=
  repeat first
    [ solve [auto with bus_only]
    | apply bus_only_bind; [ | intros ]
    | match goal with
      | |- bus_only (if ?b then _ else _) => destruct b
      | |- bus_only (match ?x with (_, _) => _ end) => destruct x
      | |- bus_only (match ?x with Some _ => _ | None => _ end) => destruct x
      end ].

Section BusOnly.

Variable h : pmw3610_h.
Variable k : kconfig.
Variable config : pixart_config.
Variable spi : bus.

Lemma bus_only_write_reg (a v : Z) : bus_only (pmw3610_write_reg h spi a v).
Proof. unfold pmw3610_write_reg. bus_only_tac. Qed.

Lemma bus_only_read (a : Z) (n : nat) : bus_only (pmw3610_read spi a n).
Proof. unfold pmw3610_read. bus_only_tac. Qed.

Lemma bus_only_read_reg (a : Z) : bus_only (pmw3610_read_reg spi a).
Proof. unfold pmw3610_read_reg. apply bus_only_read. Qed.

#[local] Hint Resolve bus_only_write_reg bus_only_read bus_only_read_reg : bus_only.

Lemma bus_only_write (a v : Z) : bus_only (pmw3610_write h spi a v).
Proof. unfold pmw3610_write. bus_only_tac. Qed.

#[local] Hint Resolve bus_only_write : bus_only.

Lemma bus_only_set_cpi_loop (regs : list (Z * Z)) :
  forall e, bus_only (set_cpi_loop h spi regs e).
Proof.
  induction regs as [| [a d] rest IH]; intros e; cbn [set_cpi_loop]; bus_only_tac.
Qed.

#[local] Hint Resolve bus_only_set_cpi_loop : bus_only.

Lemma bus_only_set_cpi (c : Z) : bus_only (set_cpi h spi c).
Proof. unfold set_cpi. bus_only_tac. Qed.

Lemma bus_only_set_sample_time (a t : Z) : bus_only (set_sample_time h spi a t).
Proof. unfold set_sample_time. bus_only_tac. Qed.

Lemma bus_only_set_downshift_time (a t : Z) : bus_only (set_downshift_time h k spi a t).
Proof. unfold set_downshift_time. bus_only_tac. Qed.

#[local] Hint Resolve bus_only_set_cpi bus_only_set_sample_time
  bus_only_set_downshift_time : bus_only.

Lemma bus_only_clear_motion_loop (regs : list Z) :
  forall e, bus_only (clear_motion_loop spi regs e).
Proof.
  induction regs as [| r rest IH]; intros e; cbn [clear_motion_loop]; bus_only_tac.
Qed.

#[local] Hint Resolve bus_only_clear_motion_loop : bus_only.

Lemma bus_only_power_up : bus_only (pmw3610_async_init_power_up h spi).
Proof. unfold pmw3610_async_init_power_up. bus_only_tac. Qed.

Lemma bus_only_clear_ob1 : bus_only (pmw3610_async_init_clear_ob1 h spi).
Proof. unfold pmw3610_async_init_clear_ob1. bus_only_tac. Qed.

Lemma bus_only_check_ob1 : bus_only (pmw3610_async_init_check_ob1 h spi).
Proof. unfold pmw3610_async_init_check_ob1. bus_only_tac. Qed.

Lemma bus_only_configure : bus_only (pmw3610_async_init_configure h k config spi).
Proof. unfold pmw3610_async_init_configure, unless_err. bus_only_tac. Qed.

(** Every entry of the step table only talks to the bus. *)
Lemma bus_only_async_init_fn (n : nat) (fn : M Z) :
  nth_error (async_init_fn h k config spi) n = Some fn -> bus_only fn.
Proof.
  unfold async_init_fn. intros Hn.
  destruct n as [| [| [| [| n]]]]; cbn in Hn.
  - injection Hn as <-. apply bus_only_power_up.
  - injection Hn as <-. apply bus_only_clear_ob1.
  - injection Hn as <-. apply bus_only_check_ob1.
  - injection Hn as <-. apply bus_only_configure.
  - destruct n; discriminate.
Qed.

Lemma async_init_fn_defined (n : nat) :
  (n < ASYNC_INIT_STEP_COUNT)%nat ->
  exists fn, nth_error (async_init_fn h k config spi) n = Some fn.
Proof.
  unfold ASYNC_INIT_STEP_COUNT. intros Hn.
  destruct n as [| [| [| [| n]]]]; try lia; eexists; reflexivity.
Qed.

End BusOnly.

(* ================================================================== *)
(** ** The asynchronous initialisation state machine *)

Section AsyncInit.

Variable h : pmw3610_h.
Variable k : kconfig.
Variable config : pixart_config.
Variable spi : bus.

Lemma async_init_after_fail (e : Z) (w : world) :
  e <> 0 ->
  async_init_after k e w = (tt, set_data (set_err e (data w)) w).
Proof.
  intros He. unfold async_init_after, bind, get_data, put_data, ret.
  rewrite (truthy_nonzero e He). reflexivity.
Qed.

Lemma async_init_after_next (w : world) :
  S (async_init_step (data w)) <> ASYNC_INIT_STEP_COUNT ->
  async_init_after k 0 w
  = (tt, set_init_work (Some (nth (S (async_init_step (data w))) (async_init_delay k) 0))
           (set_data (set_async_init_step (S (async_init_step (data w)))
                        (set_err 0 (data w))) w)).
Proof.
  intros Hn. unfold async_init_after, bind, get_data, put_data, ret, k_work_schedule.
  cbn [truthy Z.eqb negb data set_data set_err async_init_step].
  destruct (Nat.eqb_spec (S (async_init_step (data w))) ASYNC_INIT_STEP_COUNT);
    [contradiction | reflexivity].
Qed.

Lemma async_init_after_done (w : world) :
  S (async_init_step (data w)) = ASYNC_INIT_STEP_COUNT ->
  async_init_after k 0 w
  = (tt, set_trace (trace w ++ [EvGpioInt true])
           (set_data (set_ready true
                        (set_async_init_step ASYNC_INIT_STEP_COUNT
                           (set_err 0 (data w)))) w)).
Proof.
  intros Hn. unfold async_init_after, bind, get_data, put_data, ret, set_interrupt, emit.
  cbn [truthy Z.eqb negb data set_data set_err async_init_step].
  rewrite Hn. rewrite Nat.eqb_refl. reflexivity.
Qed.

(** One run of the handler, by the outcome [e] of the step function and
    the bus events [t] it produced. *)
Lemma pmw3610_async_init_run (w : world) :
  (async_init_step (data w) < ASYNC_INIT_STEP_COUNT)%nat ->
  exists fn e t,
    nth_error (async_init_fn h k config spi) (async_init_step (data w)) = Some fn
    /\ fn w = (e, set_trace (trace w ++ t) w)
    /\ Forall bus_event t
    /\ pmw3610_async_init h k config spi w
       = Some (snd (async_init_after k e (set_trace (trace w ++ t) w))).
Proof.
  intros Hs.
  destruct (async_init_fn_defined h k config spi _ Hs) as [fn Hfn].
  destruct (bus_only_async_init_fn h k config spi _ _ Hfn w) as [t [Ft Ht]].
  destruct (fn w) as [e w1] eqn:Efn. cbn [snd] in Ht. subst w1.
  exists fn, e, t. repeat split; try assumption.
  unfold pmw3610_async_init. rewrite Hfn. unfold bind at 1. rewrite Efn. reflexivity.
Qed.

Lemma run_init_work_idle (fuel : nat) (w : world) :
  init_work w = None ->
  run_init_work h k config spi fuel w = Some ([], w).
Proof. intros Hq. destruct fuel; cbn [run_init_work]; [ | rewrite Hq ]; reflexivity. Qed.

(** The work queue run from a state in which bring-up is not complete. *)
Lemma run_init_work_spec (fuel : nat) :
  forall w : world,
    (async_init_step (data w) < ASYNC_INIT_STEP_COUNT)%nat ->
    ready (data w) = false ->
    exists log w' t,
      run_init_work h k config spi fuel w = Some (log, w')
      /\ trace w' = trace w ++ t
      /\ (ready (data w') = true ->
          log = all_steps_ok_from (async_init_step (data w))
          /\ async_init_step (data w') = ASYNC_INIT_STEP_COUNT
          /\ err (data w') = 0
          /\ init_work w' = None
          /\ exists t0, t = t0 ++ [EvGpioInt true] /\ Forall bus_event t0)
      /\ (ready (data w') = false -> Forall bus_event t)
      /\ (forall i e, In (i, e) log -> e <> 0 ->
            ready (data w') = false /\ err (data w') = e
            /\ async_init_step (data w') = i /\ init_work w' = None)
      /\ ((ASYNC_INIT_STEP_COUNT - async_init_step (data w) <= fuel)%nat ->
          init_work w' = None).
Proof.
  induction fuel as [| fuel IH]; intros w Hs Hr.
  - exists [], w, []. cbn [run_init_work]. rewrite app_nil_r.
    repeat split; try congruence; try constructor; try (intros; contradiction).
    intros. lia.
  - cbn [run_init_work]. destruct (init_work w) as [d |] eqn:Hq.
    2:{ exists [], w, []. rewrite app_nil_r.
        repeat split; try congruence; try constructor; intros; contradiction. }
    set (w0 := set_init_work None w).
    destruct (pmw3610_async_init_run w0) as (fn & e & t1 & Hfn & Efn & Ft1 & Hrun);
      [exact Hs | ].
    rewrite Hrun. clear Hrun.
    destruct (Z.eq_dec e 0) as [-> | Hne].
    + destruct (Nat.eq_dec (S (async_init_step (data w))) ASYNC_INIT_STEP_COUNT)
        as [Hlast | Hmore].
      * rewrite async_init_after_done by exact Hlast. cbn [snd].
        rewrite run_init_work_idle by reflexivity.
        eexists _, _, (t1 ++ [EvGpioInt true]).
        split; [reflexivity | ]. cbn [trace data set_trace set_data set_ready
          set_async_init_step set_err err async_init_step ready init_work w0
          set_init_work].
        split; [rewrite app_assoc; reflexivity | ].
        split.
        { intros _. repeat split.
          - unfold all_steps_ok_from. unfold ASYNC_INIT_STEP_COUNT in Hlast |- *.
            injection Hlast as Hlast. rewrite Hlast. reflexivity.
          - exists t1. split; [reflexivity | assumption]. }
        split; [discriminate | ].
        split; [ | reflexivity ].
        intros i e [Hin | []] He. injection Hin as _ <-. contradiction.
      * rewrite async_init_after_next by exact Hmore. cbn [snd].
        match goal with |- context [run_init_work _ _ _ _ fuel ?x] => set (w1 := x) end.
        destruct (IH w1) as (log & w' & t2 & Hrun & Htr & Hready & Hnot & Hfail & Hterm).
        { subst w1 w0. cbn. unfold ASYNC_INIT_STEP_COUNT in *. lia. }
        { subst w1 w0. cbn. exact Hr. }
        rewrite Hrun.
        assert (Hs1 : async_init_step (data w1) = S (async_init_step (data w)))
          by reflexivity.
        assert (Ht1 : trace w1 = trace w ++ t1) by reflexivity.
        assert (He1 : err (data w1) = 0) by reflexivity.
        rewrite He1.
        exists ((async_init_step (data w), 0) :: log), w', (t1 ++ t2).
        split; [reflexivity | ].
        split; [rewrite Htr, Ht1, app_assoc; reflexivity | ].
        split.
        { intros Hrd. destruct (Hready Hrd) as (Hlog & Hst & Herr & Hq' & t0 & Ht0 & Ft0).
          repeat split; try assumption.
          - rewrite Hlog, Hs1. unfold all_steps_ok_from.
            replace (ASYNC_INIT_STEP_COUNT - async_init_step (data w))%nat
              with (S (ASYNC_INIT_STEP_COUNT - S (async_init_step (data w))))%nat
              by lia.
            reflexivity.
          - exists (t1 ++ t0). rewrite Ht0, app_assoc. split; [reflexivity | ].
            apply Forall_app. split; assumption. }
        split.
        { intros Hrd. apply Forall_app. split; [assumption | auto]. }
        split.
        { intros i e [Hin | Hin] He.
          - injection Hin as _ <-. contradiction.
          - apply (Hfail i e Hin He). }
        intros Hfuel. apply Hterm. rewrite Hs1. lia.
    + rewrite async_init_after_fail by exact Hne. cbn [snd].
      rewrite run_init_work_idle by reflexivity.
      eexists _, _, t1.
      split; [reflexivity | ]. cbn [trace data set_trace set_data set_ready
          set_async_init_step set_err err async_init_step ready init_work w0
          set_init_work].
      split; [reflexivity | ].
      split; [congruence | ].
      split; [intros _; assumption | ].
      split; [ | reflexivity ].
      intros i e' [Hin | []] He. injection Hin as <- <-.
      repeat split. exact Hr.
Qed.

(** A failing step, seen from one run of the handler. *)
Lemma pmw3610_async_init_fail (w : world) (fn : M Z) (e : Z) (w1 : world) :
  nth_error (async_init_fn h k config spi) (async_init_step (data w)) = Some fn ->
  fn w = (e, w1) ->
  e <> 0 ->
  pmw3610_async_init h k config spi w = Some (set_data (set_err e (data w)) w1)
  /\ init_work w1 = init_work w.
Proof.
  intros Hfn Efn Hne.
  destruct (bus_only_async_init_fn h k config spi _ _ Hfn w) as [t [_ Ht]].
  rewrite Efn in Ht. cbn [snd] in Ht.
  unfold pmw3610_async_init. rewrite Hfn. unfold bind at 1. rewrite Efn.
  rewrite async_init_after_fail by exact Hne. cbn [snd].
  subst w1. split; reflexivity.
Qed.

(** The self-test check on an observation value whose low nibble is not
    [0xF]. *)
Lemma check_ob1_bad_nibble (w : world) (v : Z) (rest : list Z) :
  spi (trace w ++ [EvSpiRead (u8 (PMW3610_REG_OBSERVATION h)) 1]) = (0, v :: rest) ->
  Z.land v 0x0F <> 0x0F ->
  pmw3610_async_init_check_ob1 h spi w
  = (- EINVAL, set_trace (trace w ++ [EvSpiRead (u8 (PMW3610_REG_OBSERVATION h)) 1]) w).
Proof.
  intros Hrd Hnib. unfold pmw3610_async_init_check_ob1.
  unfold bind at 1. unfold pmw3610_read_reg, pmw3610_read, spi_transceive_dt.
  rewrite Hrd. cbn [fst snd truthy Z.eqb negb rx_buffer app firstn map nth].
  rewrite low_nibble_u8.
  destruct (Z.eqb_spec (Z.land v 15) 15); [contradiction | reflexivity].
Qed.

End AsyncInit.

(* ================================================================== *)
(** ** Decoding a motion packet *)

Lemma wrap_signed_range (bits x : Z) :
  0 < bits -> - 2 ^ (bits - 1) <= wrap_signed bits x < 2 ^ (bits - 1).
Proof.
  intros Hb. unfold wrap_signed.
  assert (Hp : 2 ^ bits = 2 * 2 ^ (bits - 1)).
  { replace bits with (Z.succ (bits - 1)) at 1 by lia. apply Z.pow_succ_r. lia. }
  assert (Hpos : 0 < 2 ^ (bits - 1)) by (apply Z.pow_pos_nonneg; lia).
  assert (Hm : 0 <= x mod 2 ^ bits < 2 ^ bits) by (apply Z.mod_pos_bound; lia).
  destruct (Z.ltb_spec (x mod 2 ^ bits) (2 ^ (bits - 1))); lia.
Qed.

Lemma TOINT16_12_range (v : Z) : -2048 <= TOINT16 v 12 <= 2047.
Proof.
  unfold TOINT16.
  pose proof (wrap_signed_range 12 v eq_refl) as Hr. cbn in Hr.
  rewrite s16_id; lia.
Qed.

Lemma decode_x_range (lo hi : Z) : -2048 <= decode_x lo hi <= 2047.
Proof.
  unfold decode_x.
  pose proof (TOINT16_12_range (lo + Z.shiftl (Z.land hi 240) 4)).
  rewrite s16_id; lia.
Qed.

Lemma decode_y_range (lo hi : Z) : -2048 <= decode_y lo hi <= 2047.
Proof.
  unfold decode_y.
  pose proof (TOINT16_12_range (lo + Z.shiftl (Z.land hi 15) 8)).
  rewrite s16_id; lia.
Qed.

(** A property of bytes checked on all 256 of them. *)
Lemma byte_forall (P : Z -> bool) :
  forallb P (map Z.of_nat (seq 0 256)) = true ->
  forall x, 0 <= x < 256 -> P x = true.
Proof.
  intros Hall x Hx. rewrite forallb_forall in Hall. apply Hall.
  apply in_map_iff. exists (Z.to_nat x). split; [lia | ].
  apply in_seq. lia.
Qed.

Lemma high_nibble_mask (hi : Z) : 0 <= hi < 256 -> Z.land hi 0xF0 = 16 * (hi / 16).
Proof.
  intros Hh. apply Z.eqb_eq.
  apply (byte_forall (fun x => Z.land x 0xF0 =? 16 * (x / 16))); [ | exact Hh].
  vm_compute. reflexivity.
Qed.

Lemma TOINT16_12_sign_extend (raw : Z) :
  0 <= raw < 4096 -> TOINT16 raw 12 = sign_extend_12 raw.
Proof.
  intros Hr. unfold TOINT16, sign_extend_12, wrap_signed.
  change (2 ^ 12) with 4096. change (2 ^ (12 - 1)) with 2048.
  rewrite Z.mod_small by lia.
  destruct (Z.ltb_spec raw 2048), (Z.leb_spec 2048 raw); try lia;
    apply s16_id; lia.
Qed.

Lemma decode_x_sign_extend (lo hi : Z) :
  0 <= lo < 256 -> 0 <= hi < 256 ->
  decode_x lo hi = sign_extend_12 (lo + 256 * (hi / 16)).
Proof.
  intros Hl Hh. unfold decode_x.
  rewrite high_nibble_mask by exact Hh.
  rewrite Z.shiftl_mul_pow2 by lia. change (2 ^ 4) with 16.
  replace (16 * (hi / 16) * 16) with (256 * (hi / 16)) by lia.
  assert (0 <= hi / 16 < 16).
  { split; [apply Z.div_pos; lia | apply Z.div_lt_upper_bound; lia]. }
  rewrite <- TOINT16_12_sign_extend by lia.
  apply s16_id. pose proof (TOINT16_12_range (lo + 256 * (hi / 16))). lia.
Qed.

Lemma decode_y_sign_extend (lo hi : Z) :
  0 <= lo < 256 ->
  decode_y lo hi = sign_extend_12 (lo + 256 * (hi mod 16)).
Proof.
  intros Hl. unfold decode_y.
  rewrite low_nibble_mask.
  rewrite Z.shiftl_mul_pow2 by lia. change (2 ^ 8) with 256.
  replace (hi mod 16 * 256) with (256 * (hi mod 16)) by lia.
  assert (0 <= hi mod 16 < 16) by (apply Z.mod_pos_bound; lia).
  rewrite <- TOINT16_12_sign_extend by lia.
  apply s16_id. pose proof (TOINT16_12_range (lo + 256 * (hi mod 16))). lia.
Qed.

(** On 12-bit deltas no negation overflows: the transform is the
    mathematical swap followed by the mathematical negations. *)
Lemma axis_transform_swap_then_invert (k : kconfig) (x y : Z) :
  -2048 <= x <= 2047 -> -2048 <= y <= 2047 ->
  axis_transform k x y
  = swap_then_invert (CONFIG_PMW3610_SWAP_XY k) (CONFIG_PMW3610_INVERT_X k)
      (CONFIG_PMW3610_INVERT_Y k) (x, y).
Proof.
  intros Hx Hy. unfold axis_transform, swap_then_invert, invert_axes, swap_xy.
  destruct (CONFIG_PMW3610_SWAP_XY k), (CONFIG_PMW3610_INVERT_X k),
    (CONFIG_PMW3610_INVERT_Y k); cbn [fst snd];
    rewrite ?s16_id by lia; reflexivity.
Qed.

Lemma sample_of_range (h : pmw3610_h) (k : kconfig) (buf : list Z) :
  -2048 <= fst (sample_of h k buf) <= 2048 /\ -2048 <= snd (sample_of h k buf) <= 2048.
Proof.
  unfold sample_of, decode_packet. cbn [fst snd].
  set (x := decode_x _ _). set (y := decode_y _ _).
  pose proof (decode_x_range (byte_at buf (PMW3610_X_L_POS h)) (byte_at buf (PMW3610_XY_H_POS h))) as Hx.
  pose proof (decode_y_range (byte_at buf (PMW3610_Y_L_POS h)) (byte_at buf (PMW3610_XY_H_POS h))) as Hy.
  fold x in Hx. fold y in Hy.
  rewrite axis_transform_swap_then_invert by assumption.
  unfold swap_then_invert, invert_axes, swap_xy.
  destruct (CONFIG_PMW3610_SWAP_XY k), (CONFIG_PMW3610_INVERT_X k),
    (CONFIG_PMW3610_INVERT_Y k); cbn [fst snd]; lia.
Qed.

(* ================================================================== *)
(** ** The report pipeline *)

Lemma CLAMP_int16 (v : Z) : s16 (CLAMP v INT16_MIN INT16_MAX) = clamp_int16 v.
Proof.
  unfold CLAMP, MIN, clamp_int16, INT16_MIN, INT16_MAX.
  destruct (Z.leb_spec v (-32768)); [ rewrite s16_id by lia; lia | ].
  destruct (Z.ltb_spec v 32767); rewrite s16_id by lia; lia.
Qed.

Lemma clamp_int16_zero (v : Z) : clamp_int16 v = 0 <-> v = 0.
Proof. unfold clamp_int16. lia. Qed.

Section Report.

Variable h : pmw3610_h.
Variable k : kconfig.
Variable config : pixart_config.
Variable spi : bus.

(** The two tests of the smart-algorithm block never both fire. *)
Lemma smart_algorithm_cases (buf : list Z) (w : world) :
  smart_algorithm h k spi buf w =
  if CONFIG_PMW3610_SMART_ALGORITHM k then
    if sw_smart_flag (data w) && (shutter_of h buf <? 45) then
      let w1 := snd (pmw3610_write h spi 0x32 0x00 w) in
      (tt, set_data (set_sw_smart_flag false (data w1)) w1)
    else if negb (sw_smart_flag (data w)) && (shutter_of h buf >? 45) then
      let w1 := snd (pmw3610_write h spi 0x32 0x80 w) in
      (tt, set_data (set_sw_smart_flag true (data w1)) w1)
    else (tt, w)
  else (tt, w).
Proof.
  unfold smart_algorithm.
  destruct (CONFIG_PMW3610_SMART_ALGORITHM k); [ | reflexivity].
  unfold bind, get_data, put_data, ret. cbn zeta.
  destruct (sw_smart_flag (data w)) eqn:Ef; cbn [andb negb].
  - destruct (Z.ltb_spec (shutter_of h buf) 45) as [Hlt | Hge].
    + destruct (pmw3610_write h spi 50 0 w) as [r w1]. cbn [snd data set_data
        sw_smart_flag set_sw_smart_flag negb andb].
      destruct (Z.gtb_spec (shutter_of h buf) 45); [lia | reflexivity].
    + rewrite Ef. reflexivity.
  - rewrite Ef. cbn [negb andb].
    destruct (shutter_of h buf >? 45); [ | reflexivity].
    destruct (pmw3610_write h spi 50 128 w) as [r w1]. reflexivity.
Qed.

(** What the smart-algorithm block can change: [sw_smart_flag], and the
    trace by bus events. *)
Lemma smart_algorithm_frame (buf : list Z) (w : world) :
  exists ts flag,
    Forall bus_event ts
    /\ snd (smart_algorithm h k spi buf w)
       = set_data (set_sw_smart_flag flag (data w)) (set_trace (trace w ++ ts) w).
Proof.
  rewrite smart_algorithm_cases.
  assert (Hsame : exists ts flag, Forall bus_event ts /\
            w = set_data (set_sw_smart_flag flag (data w)) (set_trace (trace w ++ ts) w)).
  { exists [], (sw_smart_flag (data w)). split; [constructor | ].
    rewrite app_nil_r. destruct w as [[] ? ? ? ?]. reflexivity. }
  destruct (CONFIG_PMW3610_SMART_ALGORITHM k); [ | exact Hsame].
  destruct (sw_smart_flag (data w) && (shutter_of h buf <? 45)).
  { destruct (bus_only_write h spi 0x32 0x00 w) as [ts [Fts Hts]].
    exists ts, false. split; [exact Fts | ]. cbn zeta. rewrite Hts. reflexivity. }
  destruct (negb (sw_smart_flag (data w)) && (shutter_of h buf >? 45)).
  { destruct (bus_only_write h spi 0x32 0x80 w) as [ts [Fts Hts]].
    exists ts, true. split; [exact Fts | ]. cbn zeta. rewrite Hts. reflexivity. }
  exact Hsame.
Qed.

(** A report cycle whose burst read succeeds. *)
Lemma pmw3610_report_data_ok (now : Z) (w : world) :
  ready (data w) = true ->
  fst (spi (burst_read h w)) = 0 ->
  let buf := rx_buffer (spi (burst_read h w)) (PMW3610_BURST_SIZE h) in
  let ws := snd (smart_algorithm h k spi buf (set_trace (burst_read h w) w)) in
  pmw3610_report_data h k config spi now w
  = report_emit k config now 0
      (set_stat (purge_and_accumulate k now (fst (sample_of h k buf))
                   (snd (sample_of h k buf)) (stat ws)) ws).
Proof.
  intros Hr H0. cbv zeta.
  unfold pmw3610_report_data, burst_read in *.
  unfold bind at 1. unfold get_data at 1. rewrite Hr. cbn [negb].
  unfold bind at 1. unfold pmw3610_read, spi_transceive_dt.
  rewrite H0. cbn [truthy Z.eqb negb].
  unfold sample_of, decode_packet. cbn [fst snd].
  destruct (axis_transform k _ _) as [x y]. cbn [fst snd].
  unfold bind at 1.
  destruct (smart_algorithm h k spi _ _) as [[] ws]. cbn [snd].
  unfold bind, get_stat, put_stat. reflexivity.
Qed.

(** The emission stage with the gate open. *)
Lemma report_emit_open (now e : Z) (w : world) :
  gate_open k now (stat w) = true ->
  let rx := clamp_int16 (dx (stat w)) in
  let ry := clamp_int16 (dy (stat w)) in
  report_emit k config now e w
  = (e, if (rx =? 0) && (ry =? 0) then w
        else set_trace (trace w ++ emission config rx ry)
               (set_stat {| dx := 0; dy := 0;
                            last_smp_time := last_smp_time (stat w);
                            last_rpt_time :=
                              if CONFIG_PMW3610_REPORT_INTERVAL_MIN k >? 0 then now
                              else last_rpt_time (stat w) |} w)).
Proof.
  unfold gate_open. intros Hg. apply negb_true_iff in Hg. cbv zeta.
  unfold report_emit, bind, get_stat, put_stat, ret, emit, emission.
  rewrite Hg. rewrite !CLAMP_int16.
  destruct (clamp_int16 (dx (stat w)) =? 0) eqn:Ex,
           (clamp_int16 (dy (stat w)) =? 0) eqn:Ey;
    cbn [negb orb andb app set_stat set_trace trace stat data init_work trigger_work];
    rewrite ?app_nil_r; try reflexivity.
  rewrite <- app_assoc. reflexivity.
Qed.

Lemma report_emit_closed (now e : Z) (w : world) :
  gate_open k now (stat w) = false ->
  report_emit k config now e w = (0, w).
Proof.
  unfold gate_open. intros Hg. apply negb_false_iff in Hg.
  unfold report_emit, bind, get_stat, ret. rewrite Hg. reflexivity.
Qed.

(** A time difference of two uptime stamps does not wrap. *)
Lemma s64_uptime_diff (now last : Z) :
  0 <= last < 2 ^ 63 -> 0 <= now < 2 ^ 63 -> s64 (now - last) = now - last.
Proof. intros Hl Hn. apply s64_id. lia. Qed.

(** Purge of the accumulators when the last sample is stale. *)
Lemma purge_and_accumulate_stale (now x y : Z) (s : report_static) :
  0 < CONFIG_PMW3610_REPORT_INTERVAL_MIN k ->
  0 <= last_smp_time s < 2 ^ 63 -> 0 <= now < 2 ^ 63 ->
  CONFIG_PMW3610_REPORT_INTERVAL_MIN k <= now - last_smp_time s ->
  -32768 <= x <= 32767 -> -32768 <= y <= 32767 ->
  purge_and_accumulate k now x y s
  = {| dx := x; dy := y; last_smp_time := now; last_rpt_time := last_rpt_time s |}.
Proof.
  intros HI Hl Hn Hgap Hx Hy. unfold purge_and_accumulate.
  destruct (Z.gtb_spec (CONFIG_PMW3610_REPORT_INTERVAL_MIN k) 0); [ | lia].
  rewrite s64_uptime_diff by assumption.
  destruct (Z.geb_spec (now - last_smp_time s) (CONFIG_PMW3610_REPORT_INTERVAL_MIN k));
    [ | lia].
  cbn [dx dy last_smp_time last_rpt_time].
  rewrite !Z.add_0_l, !s64_id by (cbn; lia). reflexivity.
Qed.

Lemma purge_and_accumulate_last_rpt_time (now x y : Z) (s : report_static) :
  last_rpt_time (purge_and_accumulate k now x y s) = last_rpt_time s.
Proof.
  unfold purge_and_accumulate.
  destruct (CONFIG_PMW3610_REPORT_INTERVAL_MIN k >? 0); [ | reflexivity].
  destruct (s64 (now - last_smp_time s) >=? CONFIG_PMW3610_REPORT_INTERVAL_MIN k);
    reflexivity.
Qed.

Lemma purge_and_accumulate_last_smp_time (now x y : Z) (s : report_static) :
  0 < CONFIG_PMW3610_REPORT_INTERVAL_MIN k ->
  last_smp_time (purge_and_accumulate k now x y s) = now.
Proof.
  intros HI. unfold purge_and_accumulate.
  destruct (Z.gtb_spec (CONFIG_PMW3610_REPORT_INTERVAL_MIN k) 0); [ | lia].
  reflexivity.
Qed.

(** The world after the smart-algorithm block of a cycle: statics and
    [ready] are those the cycle started with. *)
Lemma smart_algorithm_keeps (buf : list Z) (w : world) :
  stat (snd (smart_algorithm h k spi buf w)) = stat w
  /\ ready (data (snd (smart_algorithm h k spi buf w))) = ready (data w).
Proof.
  destruct (smart_algorithm_frame buf w) as (ts & flag & _ & ->).
  split; reflexivity.
Qed.

(** The emission stage leaves the driver data and the time of the last
    sample alone. *)
Lemma report_emit_keeps (now e : Z) (w : world) :
  data (snd (report_emit k config now e w)) = data w
  /\ last_smp_time (stat (snd (report_emit k config now e w))) = last_smp_time (stat w).
Proof.
  destruct (gate_open k now (stat w)) eqn:Hg.
  - rewrite (report_emit_open now e w Hg). cbv zeta. cbn [snd].
    destruct ((clamp_int16 (dx (stat w)) =? 0) && (clamp_int16 (dy (stat w)) =? 0));
      split; reflexivity.
  - rewrite (report_emit_closed now e w Hg). split; reflexivity.
Qed.

(** After a cycle that took a sample at [now]. *)
Lemma pmw3610_report_data_sampled (now : Z) (w : world) :
  0 < CONFIG_PMW3610_REPORT_INTERVAL_MIN k ->
  ready (data w) = true ->
  fst (spi (burst_read h w)) = 0 ->
  ready (data (snd (pmw3610_report_data h k config spi now w))) = true
  /\ last_smp_time (stat (snd (pmw3610_report_data h k config spi now w))) = now.
Proof.
  intros HI Hr H0.
  rewrite (pmw3610_report_data_ok now w Hr H0). cbv zeta.
  match goal with |- context [report_emit k config now 0 ?W] =>
    destruct (report_emit_keeps now 0 W) as [Hd Hs] end.
  rewrite Hd, Hs. cbn [data stat set_stat].
  split.
  - destruct (smart_algorithm_keeps
                (rx_buffer (spi (burst_read h w)) (PMW3610_BURST_SIZE h))
                (set_trace (burst_read h w) w)) as [_ Hrd].
    rewrite Hrd. exact Hr.
  - apply purge_and_accumulate_last_smp_time. exact HI.
Qed.

End Report.

(* ================================================================== *)
(** ** The claims *)

(** C1 (as the code behaves).  When the inner register write of the
    clocked write [pmw3610_write] fails with code [e], the function
    returns [e] at once: the events it has produced are the clock-enable
    write, the delay and the inner write, and nothing after them.  The
    clock-disable write is not issued on this path. *)
Theorem pmw3610_write_inner_failure_skips_disable :
  forall (h : pmw3610_h) (spi : bus) (reg val : Z) (w : world) (e : Z),
    fst (spi (trace w ++ clocked_prefix h reg val)) = e ->
    e <> 0 ->
    pmw3610_write h spi reg val w
    = (e, set_trace (trace w ++ clocked_prefix h reg val) w).
Proof.
  intros h spi reg val w e He Hne. unfold clocked_prefix in *.
  run_bus. norm_trace. rewrite He, (truthy_nonzero e Hne). reflexivity.
Qed.

Lemma pmw3610_write_inner_failure_witness :
  fst (Sample.bus_fail_write [173; 0]
         (trace Sample.world0 ++ clocked_prefix Sample.hdr 0x2D 0)) = - EIO
  /\ - EIO <> 0
  /\ pmw3610_write Sample.hdr (Sample.bus_fail_write [173; 0]) 0x2D 0 Sample.world0
     = (- EIO,
        set_trace [EvSpiWrite [193; 186]; EvSleepUs 300; EvSpiWrite [173; 0]]
          Sample.world0).
Proof.
  split; [reflexivity | ]. split; [discriminate | ].
  apply (pmw3610_write_inner_failure_skips_disable Sample.hdr
           (Sample.bus_fail_write [173; 0]) 0x2D 0 Sample.world0 (- EIO));
    [reflexivity | discriminate].
Defined.

(** C4.  [set_cpi] on an input [c] of its [uint32_t] argument, the
    header's [PMW3610_MAX_CPI] fitting the 8-bit register (below 51200):
    - if [PMW3610_MIN_CPI <= c <= PMW3610_MAX_CPI], the register value
      is [c / 200] (floor division, both bounds included), that is the
      data byte of the resolution-register frame, and what goes on the
      bus is the clock-enable opening, the first [n >= 1] of the three
      payload writes carrying [c / 200], and the clock-disable write;
      when the three payload writes succeed all three are issued and
      the result is 0;
    - if [c] is outside the range, the result is [-EINVAL] and the world
      is unchanged: no bus write has been issued. *)
Theorem set_cpi_register_value :
  forall (h : pmw3610_h) (spi : bus) (c : Z) (w : world),
    0 <= c < 2 ^ 32 ->
    PMW3610_MAX_CPI h < 51200 ->
    (PMW3610_MIN_CPI h <= c <= PMW3610_MAX_CPI h ->
       cpi_reg_value c = c / 200
       /\ write_buf h (PMW3610_REG_RES_STEP h) (cpi_reg_value c)
          = [u8 (Z.lor (u8 (PMW3610_REG_RES_STEP h)) (SPI_WRITE_BIT h)); c / 200]
       /\ exists n : nat,
            (1 <= n <= 3)%nat
            /\ trace (snd (set_cpi h spi c w))
               = trace w ++ clock_enable_seq h ++ firstn n (cpi_payload h (c / 200))
                   ++ [clock_disable h])
    /\ (PMW3610_MIN_CPI h <= c <= PMW3610_MAX_CPI h ->
        (forall j : nat, (j < 3)%nat ->
           fst (spi (trace w ++ clock_enable_seq h
                       ++ firstn (S j) (cpi_payload h (c / 200)))) = 0) ->
        set_cpi h spi c w
        = (0, set_trace (trace w ++ clock_enable_seq h ++ cpi_payload h (c / 200)
                           ++ [clock_disable h]) w))
    /\ (c > PMW3610_MAX_CPI h \/ c < PMW3610_MIN_CPI h ->
          set_cpi h spi c w = (- EINVAL, w)).
Proof.
  intros h spi c w Hc Hmax. split.
  - intros Hr.
    assert (Hv : cpi_reg_value c = c / 200)
      by (apply (cpi_reg_value_exact h); lia).
    split; [exact Hv | ]. split.
    { unfold write_buf. rewrite Hv. f_equal. f_equal.
      rewrite <- Hv. unfold cpi_reg_value. apply u8_id. apply u8_range. }
    rewrite (set_cpi_in_range h spi c w Hr). cbv zeta. rewrite Hv.
    destruct (truthy _).
    { exists 1%nat. split; [lia | ]. cbn [snd trace set_trace].
      rewrite <- app_assoc. reflexivity. }
    destruct (truthy _).
    { exists 2%nat. split; [lia | ]. cbn [snd trace set_trace].
      rewrite <- app_assoc. reflexivity. }
    destruct (truthy _); exists 3%nat; (split; [lia | ]); cbn [snd trace set_trace];
      rewrite <- app_assoc; reflexivity.
  - split.
    + intros Hr Hall.
      assert (Hv : cpi_reg_value c = c / 200)
        by (apply (cpi_reg_value_exact h); lia).
      rewrite (set_cpi_in_range h spi c w Hr). cbv zeta. rewrite Hv.
      rewrite <- !app_assoc.
      rewrite (Hall 0%nat), (Hall 1%nat), (Hall 2%nat) by lia.
      rewrite truthy_zero. reflexivity.
    + intros Hout. apply set_cpi_out_of_range. exact Hout.
Qed.

Lemma set_cpi_register_value_witness :
  0 <= 800 < 2 ^ 32
  /\ PMW3610_MAX_CPI Sample.hdr < 51200
  /\ PMW3610_MIN_CPI Sample.hdr <= 800 <= PMW3610_MAX_CPI Sample.hdr
  /\ cpi_reg_value 800 = 4
  /\ set_cpi Sample.hdr (Sample.bus_const []) 800 Sample.world0
     = (0, set_trace [EvSpiWrite [193; 186]; EvSleepUs 300; EvSpiWrite [255; 255];
                      EvSpiWrite [133; 4]; EvSpiWrite [255; 0];
                      EvSpiWrite [193; 181]] Sample.world0)
  /\ set_cpi Sample.hdr (Sample.bus_const []) 3400 Sample.world0
     = (- EINVAL, Sample.world0).
Proof.
  split; [lia | ]. split; [reflexivity | ]. split; [cbn; lia | ].
  split; [ | split].
  - apply (set_cpi_register_value Sample.hdr (Sample.bus_const []) 800 Sample.world0);
      cbn; lia.
  - apply (set_cpi_register_value Sample.hdr (Sample.bus_const []) 800 Sample.world0);
      [lia | cbn; lia | cbn; lia | reflexivity].
  - apply (set_cpi_register_value Sample.hdr (Sample.bus_const []) 3400 Sample.world0);
      cbn; lia.
Defined.

(** C9.  In the three-write burst of [set_cpi] (latch [0xFF], resolution
    value, latch [0x00]) under one clock-enable bracket: if payload
    write number [i] (counting from 0) is the first to fail, with code
    [e], then the payload writes after it are not issued, the
    clock-disable write is issued all the same, and [set_cpi] returns
    [e]. *)
Theorem set_cpi_burst_failure :
  forall (h : pmw3610_h) (spi : bus) (c : Z) (w : world) (i : nat) (e : Z),
    PMW3610_MIN_CPI h <= c <= PMW3610_MAX_CPI h ->
    (i < 3)%nat ->
    (forall j : nat, (j < i)%nat ->
       fst (spi (trace w ++ clock_enable_seq h
                   ++ firstn (S j) (cpi_payload h (cpi_reg_value c)))) = 0) ->
    fst (spi (trace w ++ clock_enable_seq h
                ++ firstn (S i) (cpi_payload h (cpi_reg_value c)))) = e ->
    e <> 0 ->
    set_cpi h spi c w
    = (e, set_trace (trace w ++ clock_enable_seq h
                       ++ firstn (S i) (cpi_payload h (cpi_reg_value c))
                       ++ [clock_disable h]) w).
Proof.
  intros h spi c w i e Hr Hi Hprev He Hne.
  rewrite (set_cpi_in_range h spi c w Hr). cbv zeta.
  rewrite <- !app_assoc.
  destruct i as [| [| [| i]]]; [ | | | lia].
  - rewrite He, (truthy_nonzero e Hne). reflexivity.
  - rewrite (Hprev 0%nat) by lia. rewrite truthy_zero.
    rewrite He, (truthy_nonzero e Hne). reflexivity.
  - rewrite (Hprev 0%nat), (Hprev 1%nat) by lia. rewrite truthy_zero.
    rewrite He, (truthy_nonzero e Hne). reflexivity.
Qed.

Lemma set_cpi_burst_failure_witness :
  PMW3610_MIN_CPI Sample.hdr <= 800 <= PMW3610_MAX_CPI Sample.hdr
  /\ set_cpi Sample.hdr (Sample.bus_fail_write [133; 4]) 800 Sample.world0
     = (- EIO,
        set_trace [EvSpiWrite [193; 186]; EvSleepUs 300; EvSpiWrite [255; 255];
                   EvSpiWrite [133; 4]; EvSpiWrite [193; 181]] Sample.world0).
Proof.
  split; [cbn; lia | ].
  apply (set_cpi_burst_failure Sample.hdr (Sample.bus_fail_write [133; 4]) 800
           Sample.world0 1%nat (- EIO)).
  - cbn; lia.
  - lia.
  - intros j Hj. assert (j = 0%nat) as -> by lia. reflexivity.
  - reflexivity.
  - discriminate.
Defined.

Example all_steps_ok_from_start :
  all_steps_ok_from 0 = [(0%nat, 0); (1%nat, 0); (2%nat, 0); (3%nat, 0)].
Proof. reflexivity. Qed.

(** C2.  The bring-up state machine, from any state in which a step is
    still to run and [ready] is false:
    (a) if the step function run by the handler returns an error [e],
        the handler records [e] in [err], leaves [async_init_step] and
        [ready] as they were, schedules nothing and adds nothing to what
        the step itself did on the bus;
    (b) run by the work queue, the handler is invoked once per scheduled
        step; [ready] is true at the end only if the steps run were all
        the remaining ones, in order, each returning 0 (from step 0:
        all four), and then the last event is the enabling of the
        interrupt line; while [ready] is false the interrupt line has
        not been touched; a step that returned an error is where the
        machine stops for good: [err] holds its code, the counter still
        names it, nothing is queued, and the queue stays idle whatever
        time passes; after at most four runs the queue is idle;
    (c) at step CheckSelfTest, an observation read that succeeds with a
        low nibble of [0x0E] makes the step fail with [-EINVAL], with
        the consequences of (b). *)
Theorem async_init_fail_stop :
  forall (h : pmw3610_h) (k : kconfig) (config : pixart_config) (spi : bus)
         (w : world),
    (async_init_step (data w) < ASYNC_INIT_STEP_COUNT)%nat ->
    ready (data w) = false ->
    (forall (fn : M Z) (e : Z) (w1 : world),
        nth_error (async_init_fn h k config spi) (async_init_step (data w)) = Some fn ->
        fn w = (e, w1) ->
        e <> 0 ->
        exists w' : world,
          pmw3610_async_init h k config spi w = Some w'
          /\ err (data w') = e
          /\ async_init_step (data w') = async_init_step (data w)
          /\ ready (data w') = false
          /\ init_work w' = init_work w
          /\ trace w' = trace w1)
    /\ (forall fuel : nat,
          exists (log : list (nat * Z)) (w' : world) (t : list event),
            run_init_work h k config spi fuel w = Some (log, w')
            /\ trace w' = trace w ++ t
            /\ (ready (data w') = true ->
                  log = all_steps_ok_from (async_init_step (data w))
                  /\ (async_init_step (data w) = 0%nat ->
                        log = [(0%nat, 0); (1%nat, 0); (2%nat, 0); (3%nat, 0)])
                  /\ async_init_step (data w') = ASYNC_INIT_STEP_COUNT
                  /\ err (data w') = 0
                  /\ exists t0, t = t0 ++ [EvGpioInt true] /\ Forall bus_event t0)
            /\ (ready (data w') = false -> Forall bus_event t)
            /\ (forall (i : nat) (e : Z),
                  In (i, e) log -> e <> 0 ->
                  ready (data w') = false
                  /\ err (data w') = e
                  /\ async_init_step (data w') = i
                  /\ init_work w' = None
                  /\ forall n, run_init_work h k config spi n w' = Some ([], w'))
            /\ ((ASYNC_INIT_STEP_COUNT - async_init_step (data w) <= fuel)%nat ->
                  init_work w' = None))
    /\ (async_init_step (data w) = ASYNC_INIT_STEP_CHECK_OB1 ->
        forall (d v : Z) (rest : list Z) (fuel : nat),
          init_work w = Some d ->
          spi (trace w ++ [EvSpiRead (u8 (PMW3610_REG_OBSERVATION h)) 1])
          = (0, v :: rest) ->
          Z.land v 0x0F = 0x0E ->
          exists w' : world,
            run_init_work h k config spi (S fuel) w
            = Some ([(ASYNC_INIT_STEP_CHECK_OB1, - EINVAL)], w')
            /\ trace w' = trace w ++ [EvSpiRead (u8 (PMW3610_REG_OBSERVATION h)) 1]
            /\ err (data w') = - EINVAL
            /\ async_init_step (data w') = ASYNC_INIT_STEP_CHECK_OB1
            /\ ready (data w') = false
            /\ init_work w' = None
            /\ forall n, run_init_work h k config spi n w' = Some ([], w')).
Proof.
  intros h k config spi w Hs Hr. split; [ | split].
  - intros fn e w1 Hfn Efn Hne.
    destruct (pmw3610_async_init_fail h k config spi w fn e w1 Hfn Efn Hne)
      as [Hrun Hq].
    eexists. split; [exact Hrun | ].
    cbn [data set_data err set_err async_init_step ready init_work trace].
    repeat split; assumption.
  - intros fuel.
    destruct (run_init_work_spec h k config spi fuel w Hs Hr)
      as (log & w' & t & Hrun & Htr & Hready & Hnot & Hfail & Hterm).
    exists log, w', t.
    split; [exact Hrun | ]. split; [exact Htr | ].
    split.
    { intros Hrd. destruct (Hready Hrd) as (Hlog & Hst & Herr & _ & Ht0).
      split; [exact Hlog | ]. split; [ | auto].
      intros H0. rewrite Hlog, H0. reflexivity. }
    split; [exact Hnot | ]. split; [ | exact Hterm].
    intros i e Hin Hne. destruct (Hfail i e Hin Hne) as (H1 & H2 & H3 & H4).
    repeat split; try assumption.
    intros n. apply run_init_work_idle. exact H4.
  - intros Hstep d v rest fuel Hq Hrd Hnib.
    set (w0 := set_init_work None w).
    assert (Hck : pmw3610_async_init_check_ob1 h spi w0
                  = (- EINVAL,
                     set_trace (trace w0 ++ [EvSpiRead (u8 (PMW3610_REG_OBSERVATION h)) 1]) w0)).
    { apply (check_ob1_bad_nibble h spi w0 v rest); [exact Hrd | ].
      rewrite Hnib. discriminate. }
    assert (Hfn : nth_error (async_init_fn h k config spi) (async_init_step (data w0))
                  = Some (pmw3610_async_init_check_ob1 h spi)).
    { subst w0. cbn [data set_init_work]. rewrite Hstep. reflexivity. }
    destruct (pmw3610_async_init_fail h k config spi w0 _ _ _ Hfn Hck) as [Hrun _];
      [discriminate | ].
    eexists. split.
    { cbn [run_init_work]. rewrite Hq. fold w0. rewrite Hrun.
      rewrite run_init_work_idle by reflexivity.
      cbn [data set_data err set_err]. subst w0. cbn [data set_init_work].
      rewrite Hstep. reflexivity. }
    cbn [data set_data set_trace trace err set_err async_init_step ready init_work].
    subst w0. cbn [data set_init_work trace init_work].
    repeat split; try assumption.
    intros n. apply run_init_work_idle. reflexivity.
Qed.

Lemma async_init_fail_stop_witness :
  (async_init_step (data (Sample.world_at_step 2)) < ASYNC_INIT_STEP_COUNT)%nat
  /\ ready (data (Sample.world_at_step 2)) = false
  /\ Sample.bus_sensor 0x0E
       (trace (Sample.world_at_step 2)
          ++ [EvSpiRead (u8 (PMW3610_REG_OBSERVATION Sample.hdr)) 1])
     = (0, [0x0E])
  /\ exists w' : world,
       run_init_work Sample.hdr (Sample.kcfg 0 false false false false) Sample.cfg
         (Sample.bus_sensor 0x0E) 4 (Sample.world_at_step 2)
       = Some ([(ASYNC_INIT_STEP_CHECK_OB1, - EINVAL)], w')
       /\ ready (data w') = false
       /\ init_work w' = None.
Proof.
  split; [cbn; unfold ASYNC_INIT_STEP_COUNT; lia | ].
  split; [reflexivity | ]. split; [reflexivity | ].
  destruct (async_init_fail_stop Sample.hdr (Sample.kcfg 0 false false false false)
              Sample.cfg (Sample.bus_sensor 0x0E) (Sample.world_at_step 2))
    as (_ & _ & Hc).
  - cbn; unfold ASYNC_INIT_STEP_COUNT; lia.
  - reflexivity.
  - destruct (Hc eq_refl 50 0x0E [] 3%nat eq_refl eq_refl eq_refl)
      as (w' & Hrun & _ & _ & _ & Hrd & Hq & _).
    exists w'. repeat split; assumption.
Defined.

Lemma byte_at_rx_buffer (r : Z * list Z) (n pos : nat) :
  0 <= byte_at (rx_buffer r n) pos < 256.
Proof.
  unfold byte_at, rx_buffer.
  destruct (nth_in_or_default pos (map u8 (firstn n (snd r ++ repeat 0 n))) 0)
    as [Hin | ->]; [ | lia].
  apply in_map_iff in Hin. destruct Hin as (b & <- & _). apply u8_range.
Qed.

(** C3.  For every motion packet received from the bus, each axis is
    decoded from its low byte plus four bits of the shared high byte
    placed at bits 8-11 (the high nibble for X, the low nibble for Y),
    read as a 12-bit two's-complement number: 4096 is subtracted from
    2048 on, so the result lies in -2048..2047.  Raw [0xFFF] decodes to
    -1, raw [0x001] to 1, raw [0x7FF] to 2047 and raw [0x800] to
    -2048, on either axis. *)
Theorem motion_decode_12bit :
  forall (h : pmw3610_h) (r : Z * list Z) (n : nat),
    let buf := rx_buffer r n in
    let x_l := byte_at buf (PMW3610_X_L_POS h) in
    let y_l := byte_at buf (PMW3610_Y_L_POS h) in
    let xy_h := byte_at buf (PMW3610_XY_H_POS h) in
    decode_packet h buf
    = (sign_extend_12 (x_l + 256 * (xy_h / 16)),
       sign_extend_12 (y_l + 256 * (xy_h mod 16)))
    /\ -2048 <= fst (decode_packet h buf) <= 2047
    /\ -2048 <= snd (decode_packet h buf) <= 2047
    /\ decode_x 0xFF 0xF0 = -1 /\ decode_y 0xFF 0x0F = -1
    /\ decode_x 0x01 0x00 = 1 /\ decode_y 0x01 0x00 = 1
    /\ decode_x 0xFF 0x70 = 2047 /\ decode_y 0xFF 0x07 = 2047
    /\ decode_x 0x00 0x80 = -2048 /\ decode_y 0x00 0x08 = -2048.
Proof.
  intros h r n buf x_l y_l xy_h.
  assert (Hx : 0 <= x_l < 256) by apply byte_at_rx_buffer.
  assert (Hy : 0 <= y_l < 256) by apply byte_at_rx_buffer.
  assert (Hh : 0 <= xy_h < 256) by apply byte_at_rx_buffer.
  unfold decode_packet. fold x_l y_l xy_h. cbn [fst snd].
  split.
  { rewrite decode_x_sign_extend, decode_y_sign_extend by assumption. reflexivity. }
  split; [apply decode_x_range | ].
  split; [apply decode_y_range | ].
  repeat split; reflexivity.
Qed.

(** C8.  The sample a packet contributes is its decoded pair with the
    configured transforms applied swap first: X and Y are exchanged when
    the swap is configured, and the configured negations are then
    applied to the exchanged axes.  With swap and X inversion
    configured, the decoded pair (3, -5) becomes (5, 3); inverting first
    and swapping afterwards would give (-5, -3). *)
Theorem axis_transform_swap_first :
  forall (h : pmw3610_h) (k : kconfig) (buf : list Z),
    sample_of h k buf
    = swap_then_invert (CONFIG_PMW3610_SWAP_XY k) (CONFIG_PMW3610_INVERT_X k)
        (CONFIG_PMW3610_INVERT_Y k) (decode_packet h buf)
    /\ axis_transform (Sample.kcfg 0 true true false false) 3 (-5) = (5, 3)
    /\ invert_then_swap true true false (3, -5) = (-5, -3).
Proof.
  intros h k buf. split; [ | split; reflexivity].
  unfold sample_of.
  rewrite axis_transform_swap_then_invert.
  - destruct (decode_packet h buf); reflexivity.
  - apply decode_x_range.
  - apply decode_y_range.
Qed.

(** C7.  A report cycle whose motion burst read fails with [e]: the
    report function returns [e]; the one thing it has done is the read
    itself, so the accumulators and the rest of the driver state are as
    before and no event has been reported; it has not touched the
    interrupt line, which the work callback enables after the report
    function has returned. *)
Theorem report_bus_error_skips_cycle :
  forall (h : pmw3610_h) (k : kconfig) (config : pixart_config) (spi : bus)
         (now : Z) (w : world) (e : Z),
    ready (data w) = true ->
    fst (spi (burst_read h w)) = e ->
    e <> 0 ->
    pmw3610_report_data h k config spi now w = (e, set_trace (burst_read h w) w)
    /\ stat (snd (pmw3610_report_data h k config spi now w)) = stat w
    /\ data (snd (pmw3610_report_data h k config spi now w)) = data w
    /\ pmw3610_work_callback h k config spi now w
       = (tt, set_trace (burst_read h w ++ [EvGpioInt true]) w).
Proof.
  intros h k config spi now w e Hr He Hne.
  assert (Hrep : pmw3610_report_data h k config spi now w
                 = (e, set_trace (burst_read h w) w)).
  { unfold pmw3610_report_data, burst_read in *.
    unfold bind at 1. unfold get_data at 1. rewrite Hr. cbn [negb].
    unfold bind at 1. unfold pmw3610_read, spi_transceive_dt.
    rewrite He, (truthy_nonzero e Hne). reflexivity. }
  split; [exact Hrep | ].
  rewrite Hrep. repeat split.
  unfold pmw3610_work_callback, bind. rewrite Hrep. reflexivity.
Qed.

Lemma report_bus_error_skips_cycle_witness :
  ready (data (Sample.world_ready false Sample.stat0)) = true
  /\ fst (Sample.bus_fail_read
            (burst_read Sample.hdr (Sample.world_ready false Sample.stat0))) = - EIO
  /\ pmw3610_work_callback Sample.hdr (Sample.kcfg 0 false false false false)
       Sample.cfg Sample.bus_fail_read 100 (Sample.world_ready false Sample.stat0)
     = (tt, set_trace [EvSpiRead 0x12 10; EvGpioInt true]
              (Sample.world_ready false Sample.stat0)).
Proof.
  split; [reflexivity | ]. split; [reflexivity | ].
  apply (report_bus_error_skips_cycle Sample.hdr (Sample.kcfg 0 false false false false)
           Sample.cfg Sample.bus_fail_read 100 (Sample.world_ready false Sample.stat0)
           (- EIO)); [reflexivity | reflexivity | discriminate].
Defined.

Lemma shutter_of_range (h : pmw3610_h) (r : Z * list Z) (n : nat) :
  0 <= shutter_of h (rx_buffer r n) <= 511.
Proof.
  unfold shutter_of.
  pose proof (byte_at_rx_buffer r n (PMW3610_SHUTTER_L_POS h)) as Hl.
  set (hi := byte_at (rx_buffer r n) (PMW3610_SHUTTER_H_POS h)).
  change 1 with (Z.ones 1). rewrite Z.land_ones by lia. change (2 ^ 1) with 2.
  assert (Hb : 0 <= hi mod 2 < 2) by (apply Z.mod_pos_bound; lia).
  rewrite (s16_id (hi mod 2)) by lia.
  rewrite Z.shiftl_mul_pow2 by lia. change (2 ^ 8) with 256.
  rewrite s16_id; lia.
Qed.

(** C10.  With the smart algorithm compiled in, for every packet
    received: the shutter value is a 9-bit number; the block either does
    nothing, or it performs one clocked write to register [0x32] and
    flips [sw_smart_flag] once (to false with value [0x00] when the flag
    was set and the shutter is below 45, to true with value [0x80] when
    the flag was clear and the shutter is above 45) - never both; and at
    a shutter value of exactly 45 it does nothing, whatever the flag. *)
Theorem smart_latch_dead_point :
  forall (h : pmw3610_h) (k : kconfig) (spi : bus) (r : Z * list Z) (n : nat)
         (w : world),
    CONFIG_PMW3610_SMART_ALGORITHM k = true ->
    let buf := rx_buffer r n in
    0 <= shutter_of h buf <= 511
    /\ smart_algorithm h k spi buf w
       = (if sw_smart_flag (data w) && (shutter_of h buf <? 45) then
            let w1 := snd (pmw3610_write h spi 0x32 0x00 w) in
            (tt, set_data (set_sw_smart_flag false (data w1)) w1)
          else if negb (sw_smart_flag (data w)) && (shutter_of h buf >? 45) then
            let w1 := snd (pmw3610_write h spi 0x32 0x80 w) in
            (tt, set_data (set_sw_smart_flag true (data w1)) w1)
          else (tt, w))
    /\ (shutter_of h buf = 45 -> smart_algorithm h k spi buf w = (tt, w)).
Proof.
  intros h k spi r n w Hsmart buf.
  split; [apply shutter_of_range | ].
  assert (Hcases := smart_algorithm_cases h k spi buf w).
  rewrite Hsmart in Hcases.
  split; [exact Hcases | ].
  intros H45. rewrite Hcases, H45. cbn [Z.ltb Z.gtb Z.compare Pos.compare
    Pos.compare_cont]. rewrite !andb_false_r. reflexivity.
Qed.

Lemma smart_latch_dead_point_witness :
  CONFIG_PMW3610_SMART_ALGORITHM (Sample.kcfg 0 false false false true) = true
  /\ shutter_of Sample.hdr (rx_buffer (0, Sample.packet 0 0 0 0 45) 10) = 45
  /\ smart_algorithm Sample.hdr (Sample.kcfg 0 false false false true)
       (Sample.bus_const []) (rx_buffer (0, Sample.packet 0 0 0 0 45) 10)
       (Sample.world_ready true Sample.stat0)
     = (tt, Sample.world_ready true Sample.stat0).
Proof.
  split; [reflexivity | ]. split; [reflexivity | ].
  apply (smart_latch_dead_point Sample.hdr (Sample.kcfg 0 false false false true)
           (Sample.bus_const []) (0, Sample.packet 0 0 0 0 45) 10
           (Sample.world_ready true Sample.stat0) eq_refl).
  reflexivity.
Defined.

(** C5.  With a minimum report interval [I > 0] configured:
    - in every report cycle that takes a sample (the driver is ready and
      the burst read succeeds), if the time since the last sample is at
      least [I] - in particular if it exceeds [I] - the accumulators
      hold exactly the new sample once it has been added: what they held
      before has been discarded, and the rest of the cycle runs on these
      values;
    - a sample taken at [t0] followed by a sample taken at [t0 + 2 I]:
      the second cycle runs its emission stage on accumulators that hold
      the second sample only. *)
Theorem stale_accumulators_purged :
  forall (h : pmw3610_h) (k : kconfig) (config : pixart_config) (spi : bus),
    0 < CONFIG_PMW3610_REPORT_INTERVAL_MIN k ->
    (forall (now : Z) (w : world),
        ready (data w) = true ->
        fst (spi (burst_read h w)) = 0 ->
        0 <= last_smp_time (stat w) < 2 ^ 63 ->
        0 <= now < 2 ^ 63 ->
        CONFIG_PMW3610_REPORT_INTERVAL_MIN k <= now - last_smp_time (stat w) ->
        let buf := rx_buffer (spi (burst_read h w)) (PMW3610_BURST_SIZE h) in
        let ws := snd (smart_algorithm h k spi buf (set_trace (burst_read h w) w)) in
        let x := fst (sample_of h k buf) in
        let y := snd (sample_of h k buf) in
        purge_and_accumulate k now x y (stat w)
        = {| dx := x; dy := y; last_smp_time := now;
             last_rpt_time := last_rpt_time (stat w) |}
        /\ pmw3610_report_data h k config spi now w
           = report_emit k config now 0
               (set_stat {| dx := x; dy := y; last_smp_time := now;
                            last_rpt_time := last_rpt_time (stat w) |} ws))
    /\ (forall (t0 : Z) (w0 : world),
          ready (data w0) = true ->
          fst (spi (burst_read h w0)) = 0 ->
          0 <= t0 ->
          t0 + 2 * CONFIG_PMW3610_REPORT_INTERVAL_MIN k < 2 ^ 63 ->
          let t1 := t0 + 2 * CONFIG_PMW3610_REPORT_INTERVAL_MIN k in
          let w1 := snd (pmw3610_report_data h k config spi t0 w0) in
          fst (spi (burst_read h w1)) = 0 ->
          let buf := rx_buffer (spi (burst_read h w1)) (PMW3610_BURST_SIZE h) in
          let ws := snd (smart_algorithm h k spi buf (set_trace (burst_read h w1) w1)) in
          pmw3610_report_data h k config spi t1 w1
          = report_emit k config t1 0
              (set_stat {| dx := fst (sample_of h k buf);
                           dy := snd (sample_of h k buf);
                           last_smp_time := t1;
                           last_rpt_time := last_rpt_time (stat w1) |} ws)).
Proof.
  intros h k config spi HI.
  assert (Hgen : forall (now : Z) (w : world),
        ready (data w) = true ->
        fst (spi (burst_read h w)) = 0 ->
        0 <= last_smp_time (stat w) < 2 ^ 63 ->
        0 <= now < 2 ^ 63 ->
        CONFIG_PMW3610_REPORT_INTERVAL_MIN k <= now - last_smp_time (stat w) ->
        let buf := rx_buffer (spi (burst_read h w)) (PMW3610_BURST_SIZE h) in
        let ws := snd (smart_algorithm h k spi buf (set_trace (burst_read h w) w)) in
        let x := fst (sample_of h k buf) in
        let y := snd (sample_of h k buf) in
        purge_and_accumulate k now x y (stat w)
        = {| dx := x; dy := y; last_smp_time := now;
             last_rpt_time := last_rpt_time (stat w) |}
        /\ pmw3610_report_data h k config spi now w
           = report_emit k config now 0
               (set_stat {| dx := x; dy := y; last_smp_time := now;
                            last_rpt_time := last_rpt_time (stat w) |} ws)).
  { intros now w Hr H0 Hl Hn Hgap buf ws x y.
    pose proof (sample_of_range h k buf) as [Hx Hy]. fold x in Hx. fold y in Hy.
    assert (Hacc : purge_and_accumulate k now x y (stat w)
                   = {| dx := x; dy := y; last_smp_time := now;
                        last_rpt_time := last_rpt_time (stat w) |}).
    { apply purge_and_accumulate_stale; try assumption; lia. }
    split; [exact Hacc | ].
    rewrite (pmw3610_report_data_ok h k config spi now w Hr H0). cbv zeta.
    fold buf. fold ws. fold x. fold y.
    destruct (smart_algorithm_keeps h k spi buf (set_trace (burst_read h w) w))
      as [Hst _].
    fold ws in Hst. rewrite Hst. cbn [stat set_trace]. rewrite Hacc. reflexivity. }
  split; [exact Hgen | ].
  intros t0 w0 Hr H0 Ht0 Ht1 t1 w1 H1 buf ws.
  destruct (pmw3610_report_data_sampled h k config spi t0 w0 HI Hr H0) as [Hr1 Hs1].
  fold w1 in Hr1, Hs1.
  destruct (Hgen t1 w1 Hr1 H1) as [_ Hrun].
  - rewrite Hs1. lia.
  - subst t1. lia.
  - rewrite Hs1. subst t1. lia.
  - exact Hrun.
Qed.

Lemma stale_accumulators_purged_witness :
  0 < CONFIG_PMW3610_REPORT_INTERVAL_MIN (Sample.kcfg 10 false false false false)
  /\ stat (snd (pmw3610_report_data Sample.hdr (Sample.kcfg 10 false false false false)
                  Sample.cfg (Sample.bus_const (Sample.packet 3 0 0 0 0)) 100
                  (Sample.world_ready false (Sample.stat_of 0 0 90 95))))
     = Sample.stat_of 3 0 100 95
  /\ pmw3610_report_data Sample.hdr (Sample.kcfg 10 false false false false)
       Sample.cfg (Sample.bus_const (Sample.packet 3 0 0 0 0)) 120
       (snd (pmw3610_report_data Sample.hdr (Sample.kcfg 10 false false false false)
               Sample.cfg (Sample.bus_const (Sample.packet 3 0 0 0 0)) 100
               (Sample.world_ready false (Sample.stat_of 0 0 90 95))))
     = (0, {| data := Sample.data_ready false;
              stat := Sample.stat_of 0 0 120 120;
              init_work := None; trigger_work := false;
              trace := [EvSpiRead 0x12 10; EvSpiRead 0x12 10;
                        EvInputReport 2 0 3 true] |}).
Proof.
  split; [reflexivity | ]. split; [reflexivity | ].
  destruct (stale_accumulators_purged Sample.hdr
              (Sample.kcfg 10 false false false false) Sample.cfg
              (Sample.bus_const (Sample.packet 3 0 0 0 0)) eq_refl) as [_ Hsc].
  etransitivity.
  - apply (Hsc 100 (Sample.world_ready false (Sample.stat_of 0 0 90 95)));
      [reflexivity | reflexivity | discriminate | reflexivity | reflexivity].
  - vm_compute. reflexivity.
Defined.

(** C6.  A report cycle that reaches emission (the driver is ready, the
    burst read succeeds, the report-interval gate is open): the
    candidate pair [(rx, ry)] is the pair of accumulators, new sample
    included, each saturated to -32768..32767.  If both are zero no
    event is reported and the accumulators are left as they are.
    Otherwise both accumulators are zeroed, and what is reported is: an
    X event with value [rx] only if [rx] is non-zero, its sync flag
    clear (more follows) exactly when [ry] is non-zero too; then a Y
    event with value [ry] only if [ry] is non-zero, its sync flag set.
    An accumulated X of 40000 is reported as 32767. *)
Theorem report_emission_clamped :
  forall (h : pmw3610_h) (k : kconfig) (config : pixart_config) (spi : bus)
         (now : Z) (w : world),
    ready (data w) = true ->
    fst (spi (burst_read h w)) = 0 ->
    gate_open k now (stat w) = true ->
    let buf := rx_buffer (spi (burst_read h w)) (PMW3610_BURST_SIZE h) in
    let ws := snd (smart_algorithm h k spi buf (set_trace (burst_read h w) w)) in
    let acc := purge_and_accumulate k now (fst (sample_of h k buf))
                 (snd (sample_of h k buf)) (stat w) in
    let rx := clamp_int16 (dx acc) in
    let ry := clamp_int16 (dy acc) in
    pmw3610_report_data h k config spi now w
    = (0, if (rx =? 0) && (ry =? 0) then set_stat acc ws
          else set_trace (trace ws ++ emission config rx ry)
                 (set_stat {| dx := 0; dy := 0;
                              last_smp_time := last_smp_time acc;
                              last_rpt_time :=
                                if CONFIG_PMW3610_REPORT_INTERVAL_MIN k >? 0 then now
                                else last_rpt_time acc |} ws))
    /\ (dx acc = 40000 ->
          rx = 32767
          /\ emission config rx ry
             = EvInputReport (evt_type config) (x_input_code config) 32767 (ry =? 0)
               :: (if ry =? 0 then []
                   else [EvInputReport (evt_type config) (y_input_code config) ry true])).
Proof.
  intros h k config spi now w Hr H0 Hg buf ws acc rx ry.
  split.
  - rewrite (pmw3610_report_data_ok h k config spi now w Hr H0). cbv zeta.
    fold buf. fold ws.
    destruct (smart_algorithm_keeps h k spi buf (set_trace (burst_read h w) w))
      as [Hst _].
    fold ws in Hst. cbn [stat set_trace] in Hst. rewrite Hst. fold acc.
    rewrite report_emit_open.
    + reflexivity.
    + cbn [stat set_stat]. unfold gate_open in *. subst acc.
      rewrite purge_and_accumulate_last_rpt_time. exact Hg.
  - intros H40. assert (Hrx : rx = 32767) by (subst rx; rewrite H40; reflexivity).
    split; [exact Hrx | ].
    unfold emission. rewrite Hrx. reflexivity.
Qed.

Lemma report_emission_clamped_witness :
  ready (data (Sample.world_ready false (Sample.stat_of 39999 0 0 0))) = true
  /\ gate_open (Sample.kcfg 0 false false false false) 100
       (Sample.stat_of 39999 0 0 0) = true
  /\ pmw3610_report_data Sample.hdr (Sample.kcfg 0 false false false false)
       Sample.cfg (Sample.bus_const (Sample.packet 1 0 0 0 0)) 100
       (Sample.world_ready false (Sample.stat_of 39999 0 0 0))
     = (0, {| data := Sample.data_ready false;
              stat := Sample.stat_of 0 0 0 0;
              init_work := None; trigger_work := false;
              trace := [EvSpiRead 0x12 10; EvInputReport 2 0 32767 true] |}).
Proof.
  split; [reflexivity | ]. split; [reflexivity | ].
  etransitivity.
  - apply (report_emission_clamped Sample.hdr (Sample.kcfg 0 false false false false)
             Sample.cfg (Sample.bus_const (Sample.packet 1 0 0 0 0)) 100
             (Sample.world_ready false (Sample.stat_of 39999 0 0 0)));
      reflexivity.
  - vm_compute. reflexivity.
Defined.

(* ================================================================== *)
(** ** Further properties: register access and configuration functions *)

Lemma u32_id (x : Z) : 0 <= x < 2 ^ 32 -> u32 x = x.
Proof. intros Hx. apply Z.mod_small. exact Hx. Qed.

Lemma orb_range_false (x lo hi : Z) :
  lo <= x <= hi -> (x >? hi) || (x <? lo) = false.
Proof.
  intros Hx. apply orb_false_iff. split.
  - destruct (Z.gtb_spec x hi); [lia | reflexivity].
  - destruct (Z.ltb_spec x lo); [lia | reflexivity].
Qed.

Lemma orb_range_true (x lo hi : Z) :
  x > hi \/ x < lo -> (x >? hi) || (x <? lo) = true.
Proof.
  intros Hx. apply orb_true_iff. destruct Hx as [Hx | Hx]; [left | right].
  - destruct (Z.gtb_spec x hi); [reflexivity | lia].
  - destruct (Z.ltb_spec x lo); [reflexivity | lia].
Qed.

Lemma div_unit_range (t u : Z) :
  0 < u -> u <= t <= 255 * u -> 1 <= t / u <= 255.
Proof.
  intros Hu Ht. split.
  - apply Z.div_le_lower_bound; lia.
  - apply Z.div_le_upper_bound; lia.
Qed.

(** X1.  The clocked write reports the inner register write and nothing
    else: its return code is the code of the inner write, whatever the
    clock-enable and clock-disable writes returned; when the inner write
    succeeds, the bus has seen enable, delay, inner write and disable,
    in this order. *)
Theorem pmw3610_write_reports_inner_write :
  forall (h : pmw3610_h) (spi : bus) (reg val : Z) (w : world),
    fst (pmw3610_write h spi reg val w)
    = fst (spi (trace w ++ clocked_prefix h reg val))
    /\ (fst (spi (trace w ++ clocked_prefix h reg val)) = 0 ->
        pmw3610_write h spi reg val w
        = (0, set_trace (trace w ++ clocked_prefix h reg val ++ [clock_disable h]) w)).
Proof.
  intros h spi reg val w. unfold clocked_prefix, clock_disable.
  run_bus. norm_trace.
  destruct (truthy (fst (spi _))) eqn:Et.
  - split; [reflexivity | ]. intros H0. rewrite H0 in Et. discriminate.
  - unfold truthy in Et. apply negb_false_iff in Et. apply Z.eqb_eq in Et.
    norm_trace. split; [symmetry; exact Et | intros _; reflexivity].
Qed.

Lemma pmw3610_write_reports_inner_write_witness :
  fst (Sample.bus_fail_write [193; 186]
         (trace Sample.world0 ++ clocked_prefix Sample.hdr 0x2D 0)) = 0
  /\ fst (Sample.bus_fail_write [193; 186] [EvSpiWrite [193; 186]]) = - EIO
  /\ pmw3610_write Sample.hdr (Sample.bus_fail_write [193; 186]) 0x2D 0 Sample.world0
     = (0, set_trace [EvSpiWrite [193; 186]; EvSleepUs 300; EvSpiWrite [173; 0];
                      EvSpiWrite [193; 181]] Sample.world0).
Proof.
  split; [reflexivity | ]. split; [reflexivity | ].
  apply (pmw3610_write_reports_inner_write Sample.hdr
           (Sample.bus_fail_write [193; 186]) 0x2D 0 Sample.world0).
  reflexivity.
Defined.

(** X2.  [set_sample_time]: a sample time outside 10..2550 ms is
    rejected with [-EINVAL] before any bus access; a sample time inside
    it is written, by one clocked write, as the number of 10 ms units,
    which lies in 1..255 and so fits the register unchanged. *)
Theorem set_sample_time_contract :
  forall (h : pmw3610_h) (spi : bus) (reg ms : Z) (w : world),
    (ms > 2550 \/ ms < 10 -> set_sample_time h spi reg ms w = (- EINVAL, w))
    /\ (10 <= ms <= 2550 ->
        1 <= ms / 10 <= 255
        /\ set_sample_time h spi reg ms w = pmw3610_write h spi reg (ms / 10) w).
Proof.
  intros h spi reg ms w. unfold set_sample_time. split.
  - intros Hout. rewrite (orb_range_true ms 10 2550 Hout). reflexivity.
  - intros Hin. rewrite (orb_range_false ms 10 2550 Hin).
    assert (Hv : 1 <= ms / 10 <= 255) by (apply div_unit_range; lia).
    split; [exact Hv | ]. rewrite u8_id by lia. reflexivity.
Qed.

Lemma set_sample_time_contract_witness :
  10 <= 40 <= 2550
  /\ set_sample_time Sample.hdr (Sample.bus_const []) 0x1C 40 Sample.world0
     = (0, set_trace [EvSpiWrite [193; 186]; EvSleepUs 300; EvSpiWrite [156; 4];
                      EvSpiWrite [193; 181]] Sample.world0)
  /\ set_sample_time Sample.hdr (Sample.bus_const []) 0x1C 2551 Sample.world0
     = (- EINVAL, Sample.world0).
Proof.
  split; [lia | ]. split.
  - etransitivity.
    + apply (set_sample_time_contract Sample.hdr (Sample.bus_const []) 0x1C 40
               Sample.world0). lia.
    + reflexivity.
  - apply (set_sample_time_contract Sample.hdr (Sample.bus_const []) 0x1C 2551
             Sample.world0). lia.
Defined.

(** [set_downshift_time] on a register that is none of the three
    downshift registers returns [-ENOTSUP] and does nothing, whatever
    the time. *)
Lemma set_downshift_time_unsupported :
  forall (h : pmw3610_h) (k : kconfig) (spi : bus) (reg time : Z) (w : world),
    reg <> PMW3610_REG_RUN_DOWNSHIFT h ->
    reg <> PMW3610_REG_REST1_DOWNSHIFT h ->
    reg <> PMW3610_REG_REST2_DOWNSHIFT h ->
    set_downshift_time h k spi reg time w = (- ENOTSUP, w).
Proof.
  intros h k spi reg time w H1 H2 H3. unfold set_downshift_time.
  apply Z.eqb_neq in H1, H2, H3. rewrite H1, H2, H3. reflexivity.
Qed.

(** X3.  Run-mode downshift time: a time outside 32..8160 ms is rejected
    with [-EINVAL] before any bus access; a time inside it is written as
    [time / 32], a value in 1..255; and every register value [v] in
    1..255 is what the time [32 * v] is written as. *)
Theorem set_downshift_time_run_mode :
  forall (h : pmw3610_h) (k : kconfig) (spi : bus) (time : Z) (w : world),
    (time > 8160 \/ time < 32 ->
       set_downshift_time h k spi (PMW3610_REG_RUN_DOWNSHIFT h) time w = (- EINVAL, w))
    /\ (32 <= time <= 8160 ->
        1 <= time / 32 <= 255
        /\ set_downshift_time h k spi (PMW3610_REG_RUN_DOWNSHIFT h) time w
           = pmw3610_write h spi (PMW3610_REG_RUN_DOWNSHIFT h) (time / 32) w)
    /\ (forall v : Z, 1 <= v <= 255 ->
        set_downshift_time h k spi (PMW3610_REG_RUN_DOWNSHIFT h) (32 * v) w
        = pmw3610_write h spi (PMW3610_REG_RUN_DOWNSHIFT h) v w).
Proof.
  intros h k spi time w.
  assert (Hin : forall t, 32 <= t <= 8160 ->
            1 <= t / 32 <= 255
            /\ set_downshift_time h k spi (PMW3610_REG_RUN_DOWNSHIFT h) t w
               = pmw3610_write h spi (PMW3610_REG_RUN_DOWNSHIFT h) (t / 32) w).
  { intros t Ht. unfold set_downshift_time. rewrite Z.eqb_refl.
    rewrite (orb_range_false t 32 8160 Ht).
    assert (Hv : 1 <= t / 32 <= 255) by (apply div_unit_range; lia).
    split; [exact Hv | ]. rewrite u8_id by lia. reflexivity. }
  split; [ | split].
  - intros Hout. unfold set_downshift_time. rewrite Z.eqb_refl.
    rewrite (orb_range_true time 32 8160 Hout). reflexivity.
  - apply Hin.
  - intros v Hv. destruct (Hin (32 * v)) as [_ Heq]; [lia | ].
    rewrite Heq. replace (32 * v / 32) with v; [reflexivity | ].
    rewrite Z.mul_comm, Z.div_mul; lia.
Qed.

Lemma set_downshift_time_run_mode_witness :
  1 <= 4 <= 255
  /\ set_downshift_time Sample.hdr SampleStart.kcfg0 (Sample.bus_const []) 0x1B 128
       Sample.world0
     = (0, set_trace [EvSpiWrite [193; 186]; EvSleepUs 300; EvSpiWrite [155; 4];
                      EvSpiWrite [193; 181]] Sample.world0)
  /\ set_downshift_time Sample.hdr SampleStart.kcfg0 (Sample.bus_const []) 0x1B 31
       Sample.world0
     = (- EINVAL, Sample.world0).
Proof.
  split; [lia | ].
  destruct (set_downshift_time_run_mode Sample.hdr SampleStart.kcfg0
              (Sample.bus_const []) 31 Sample.world0) as (Hout & _ & Hv).
  split.
  - etransitivity; [apply (Hv 4); lia | reflexivity].
  - apply Hout. lia.
Defined.

(** X4.  Rest-mode downshift times are counted in units of 16 (rest1)
    and 128 (rest2) of the configured sample periods: with distinct
    downshift registers and a sample period [T] in 1..2550 ms, a time
    within 1..255 units is written as the number of whole units, a value
    in 1..255, and a time outside is rejected with [-EINVAL] before any
    bus access. *)
Theorem set_downshift_time_rest_modes :
  forall (h : pmw3610_h) (k : kconfig) (spi : bus) (time : Z) (w : world),
    PMW3610_REG_REST1_DOWNSHIFT h <> PMW3610_REG_RUN_DOWNSHIFT h ->
    PMW3610_REG_REST2_DOWNSHIFT h <> PMW3610_REG_RUN_DOWNSHIFT h ->
    PMW3610_REG_REST2_DOWNSHIFT h <> PMW3610_REG_REST1_DOWNSHIFT h ->
    (forall T u : Z,
        T = CONFIG_PMW3610_REST1_SAMPLE_TIME_MS k -> u = 16 * T ->
        1 <= T <= 2550 ->
        (u <= time <= 255 * u ->
           1 <= time / u <= 255
           /\ set_downshift_time h k spi (PMW3610_REG_REST1_DOWNSHIFT h) time w
              = pmw3610_write h spi (PMW3610_REG_REST1_DOWNSHIFT h) (time / u) w)
        /\ (time > 255 * u \/ time < u ->
            set_downshift_time h k spi (PMW3610_REG_REST1_DOWNSHIFT h) time w
            = (- EINVAL, w)))
    /\ (forall T u : Z,
        T = CONFIG_PMW3610_REST2_SAMPLE_TIME_MS k -> u = 128 * T ->
        1 <= T <= 2550 ->
        (u <= time <= 255 * u ->
           1 <= time / u <= 255
           /\ set_downshift_time h k spi (PMW3610_REG_REST2_DOWNSHIFT h) time w
              = pmw3610_write h spi (PMW3610_REG_REST2_DOWNSHIFT h) (time / u) w)
        /\ (time > 255 * u \/ time < u ->
            set_downshift_time h k spi (PMW3610_REG_REST2_DOWNSHIFT h) time w
            = (- EINVAL, w))).
Proof.
  intros h k spi time w H1 H2 H3.
  apply Z.eqb_neq in H1, H2, H3.
  split; intros T u -> -> HT; unfold set_downshift_time;
    rewrite ?H1, ?H2, ?H3, ?Z.eqb_refl;
    rewrite !u32_id by (change (2 ^ 32) with 4294967296; lia).
  - replace (255 * 16 * CONFIG_PMW3610_REST1_SAMPLE_TIME_MS k)
      with (255 * (16 * CONFIG_PMW3610_REST1_SAMPLE_TIME_MS k)) by lia.
    split.
    + intros Hin. rewrite (orb_range_false _ _ _ Hin).
      assert (Hv : 1 <= time / (16 * CONFIG_PMW3610_REST1_SAMPLE_TIME_MS k) <= 255)
        by (apply div_unit_range; lia).
      split; [exact Hv | ]. rewrite u8_id by lia. reflexivity.
    + intros Hout. rewrite (orb_range_true _ _ _ Hout). reflexivity.
  - replace (255 * 128 * CONFIG_PMW3610_REST2_SAMPLE_TIME_MS k)
      with (255 * (128 * CONFIG_PMW3610_REST2_SAMPLE_TIME_MS k)) by lia.
    split.
    + intros Hin. rewrite (orb_range_false _ _ _ Hin).
      assert (Hv : 1 <= time / (128 * CONFIG_PMW3610_REST2_SAMPLE_TIME_MS k) <= 255)
        by (apply div_unit_range; lia).
      split; [exact Hv | ]. rewrite u8_id by lia. reflexivity.
    + intros Hout. rewrite (orb_range_true _ _ _ Hout). reflexivity.
Qed.

Lemma set_downshift_time_rest_modes_witness :
  PMW3610_REG_REST1_DOWNSHIFT Sample.hdr <> PMW3610_REG_RUN_DOWNSHIFT Sample.hdr
  /\ 1 <= CONFIG_PMW3610_REST1_SAMPLE_TIME_MS SampleStart.kcfg0 <= 2550
  /\ 16 * 40 <= 9600 <= 255 * (16 * 40)
  /\ set_downshift_time Sample.hdr SampleStart.kcfg0 (Sample.bus_const []) 0x1D 9600
       Sample.world0
     = (0, set_trace [EvSpiWrite [193; 186]; EvSleepUs 300; EvSpiWrite [157; 15];
                      EvSpiWrite [193; 181]] Sample.world0).
Proof.
  split; [discriminate | ]. split; [cbn; lia | ]. split; [lia | ].
  destruct (set_downshift_time_rest_modes Sample.hdr SampleStart.kcfg0
              (Sample.bus_const []) 9600 Sample.world0) as [Hr1 _];
    try discriminate.
  destruct (Hr1 40 640 eq_refl eq_refl) as [Hin _]; [lia | ].
  destruct Hin as [_ Heq]; [lia | ].
  etransitivity; [exact Heq | reflexivity].
Defined.

(* ================================================================== *)
(** ** Further properties: the bring-up steps *)

Lemma truthy_false_zero (e : Z) : truthy e = false -> e = 0.
Proof.
  unfold truthy. intros He. apply negb_false_iff in He. apply Z.eqb_eq. exact He.
Qed.

Lemma truthy_true_nonzero (e : Z) : truthy e = true -> e <> 0.
Proof.
  unfold truthy. intros He. apply negb_true_iff in He. apply Z.eqb_neq. exact He.
Qed.

(** The self-test step, by the answers of its two reads. *)
Lemma pmw3610_async_init_check_ob1_cases (h : pmw3610_h) (spi : bus) (w : world) :
  let t1 := trace w ++ [observation_read h] in
  let t2 := trace w ++ [observation_read h; product_id_read h] in
  pmw3610_async_init_check_ob1 h spi w
  = if truthy (fst (spi t1)) then (fst (spi t1), set_trace t1 w)
    else if negb (Z.land (read_byte (spi t1)) 0x0F =? 0x0F)
         then (- EINVAL, set_trace t1 w)
    else if truthy (fst (spi t2)) then (fst (spi t2), set_trace t2 w)
    else if negb (read_byte (spi t2) =? PMW3610_PRODUCT_ID h)
         then (- EIO, set_trace t2 w)
    else (0, set_trace t2 w).
Proof.
  cbv zeta. unfold pmw3610_async_init_check_ob1, observation_read, product_id_read,
    read_byte, byte_at.
  run_bus. norm_trace.
  destruct (truthy (fst (spi (trace w ++ [_])))); [reflexivity | ].
  destruct (negb (_ =? 15)); [reflexivity | ]. norm_trace.
  destruct (truthy (fst (spi (trace w ++ [_; _])))); [reflexivity | ].
  destruct (negb (_ =? PMW3610_PRODUCT_ID h)); reflexivity.
Qed.

(** X5.  The self-test step succeeds exactly when both of its reads
    succeed, the observation register reads with a low nibble of [0xF]
    and the product-id register reads as the expected id.  A failed
    observation read ends the step with that read's code, the product id
    not being read; a wrong product id ends it with [-EIO]. *)
Theorem check_ob1_passes_iff :
  forall (h : pmw3610_h) (spi : bus) (w : world),
    let t1 := trace w ++ [observation_read h] in
    let t2 := trace w ++ [observation_read h; product_id_read h] in
    (fst (pmw3610_async_init_check_ob1 h spi w) = 0 <->
       fst (spi t1) = 0
       /\ Z.land (read_byte (spi t1)) 0x0F = 0x0F
       /\ fst (spi t2) = 0
       /\ read_byte (spi t2) = PMW3610_PRODUCT_ID h)
    /\ (fst (spi t1) <> 0 ->
        pmw3610_async_init_check_ob1 h spi w = (fst (spi t1), set_trace t1 w))
    /\ (fst (spi t1) = 0 ->
        Z.land (read_byte (spi t1)) 0x0F = 0x0F ->
        fst (spi t2) = 0 ->
        read_byte (spi t2) <> PMW3610_PRODUCT_ID h ->
        pmw3610_async_init_check_ob1 h spi w = (- EIO, set_trace t2 w)).
Proof.
  intros h spi w t1 t2.
  pose proof (pmw3610_async_init_check_ob1_cases h spi w) as Hc.
  cbv zeta in Hc. fold t1 t2 in Hc. rewrite Hc. clear Hc.
  split; [ | split].
  - destruct (truthy (fst (spi t1))) eqn:E1.
    { apply truthy_true_nonzero in E1. cbn [fst]. split; [contradiction | tauto]. }
    apply truthy_false_zero in E1.
    destruct (Z.eqb_spec (Z.land (read_byte (spi t1)) 15) 15) as [En | En]; cbn [negb].
    2:{ cbn [fst]. split; [discriminate | tauto]. }
    destruct (truthy (fst (spi t2))) eqn:E2.
    { apply truthy_true_nonzero in E2. cbn [fst]. split; [contradiction | tauto]. }
    apply truthy_false_zero in E2.
    destruct (Z.eqb_spec (read_byte (spi t2)) (PMW3610_PRODUCT_ID h)) as [Ep | Ep];
      cbn [negb fst].
    + tauto.
    + split; [discriminate | tauto].
  - intros Hne. rewrite (truthy_nonzero _ Hne). reflexivity.
  - intros H1 Hn H2 Hp. rewrite H1, H2, truthy_zero, Hn. cbn [Z.eqb Pos.eqb negb].
    destruct (Z.eqb_spec (read_byte (spi t2)) (PMW3610_PRODUCT_ID h));
      [contradiction | reflexivity].
Qed.

Lemma check_ob1_passes_iff_witness :
  fst (pmw3610_async_init_check_ob1 Sample.hdr (Sample.bus_sensor 0x0F) Sample.world0) = 0
  /\ pmw3610_async_init_check_ob1 Sample.hdr
       (SampleStart.bus_fail_read_of 0x2D) Sample.world0
     = (- EIO, set_trace [EvSpiRead 0x2D 1] Sample.world0).
Proof.
  destruct (check_ob1_passes_iff Sample.hdr (Sample.bus_sensor 0x0F) Sample.world0)
    as [Hiff _].
  destruct (check_ob1_passes_iff Sample.hdr (SampleStart.bus_fail_read_of 0x2D)
              Sample.world0) as (_ & Hfail & _).
  split.
  - apply Hiff. repeat split; reflexivity.
  - apply Hfail. discriminate.
Defined.

(** The drain loop of the configure step, by the codes of its reads. *)
Lemma clear_motion_loop_cases (spi : bus) (w : world) :
  let e1 := fst (spi (trace w ++ firstn 1 motion_drain)) in
  let e2 := fst (spi (trace w ++ firstn 2 motion_drain)) in
  let e3 := fst (spi (trace w ++ firstn 3 motion_drain)) in
  let e4 := fst (spi (trace w ++ firstn 4 motion_drain)) in
  clear_motion_loop spi [0x02; 0x03; 0x04; 0x05] 0 w
  = if truthy e1 then (e1, set_trace (trace w ++ firstn 1 motion_drain) w)
    else if truthy e2 then (e2, set_trace (trace w ++ firstn 2 motion_drain) w)
    else if truthy e3 then (e3, set_trace (trace w ++ firstn 3 motion_drain) w)
    else (e4, set_trace (trace w ++ firstn 4 motion_drain) w).
Proof.
  cbv zeta. unfold motion_drain. cbn [map firstn clear_motion_loop].
  rewrite truthy_zero. run_bus. norm_trace.
  destruct (truthy (fst (spi (trace w ++ [_])))) eqn:E1; [reflexivity | ].
  norm_trace.
  destruct (truthy (fst (spi (trace w ++ [_; _])))) eqn:E2; [reflexivity | ].
  norm_trace.
  destruct (truthy (fst (spi (trace w ++ [_; _; _])))) eqn:E3; [reflexivity | ].
  norm_trace. reflexivity.
Qed.

(** Once [err] is set, the rest of the configure step does nothing. *)
Lemma configure_skips_after_error (h : pmw3610_h) (k : kconfig)
      (config : pixart_config) (spi : bus) (e : Z) (w w1 : world) :
  clear_motion_loop spi [0x02; 0x03; 0x04; 0x05] 0 w = (e, w1) ->
  e <> 0 ->
  pmw3610_async_init_configure h k config spi w = (e, w1).
Proof.
  intros Hloop Hne. unfold pmw3610_async_init_configure.
  unfold bind at 1. rewrite Hloop.
  unfold unless_err, bind, ret.
  repeat (rewrite (truthy_nonzero e Hne); cbv beta iota).
  reflexivity.
Qed.

(** X6.  The configure step first reads registers 0x02..0x05, in this
    order.  If read number [i] is the first of them to fail, the step
    returns its code after the reads up to it and nothing else: no
    register is written.  If the four reads succeed and the configured
    CPI is out of range, the step returns [-EINVAL] after the four
    reads, again without a write. *)
Theorem configure_aborts_before_writing :
  forall (h : pmw3610_h) (k : kconfig) (config : pixart_config) (spi : bus)
         (w : world),
    (forall (i : nat) (e : Z),
        (i < 4)%nat ->
        (forall j : nat, (j < i)%nat ->
           fst (spi (trace w ++ firstn (S j) motion_drain)) = 0) ->
        fst (spi (trace w ++ firstn (S i) motion_drain)) = e ->
        e <> 0 ->
        pmw3610_async_init_configure h k config spi w
        = (e, set_trace (trace w ++ firstn (S i) motion_drain) w))
    /\ ((forall j : nat, (j < 4)%nat ->
           fst (spi (trace w ++ firstn (S j) motion_drain)) = 0) ->
        cpi config > PMW3610_MAX_CPI h \/ cpi config < PMW3610_MIN_CPI h ->
        pmw3610_async_init_configure h k config spi w
        = (- EINVAL, set_trace (trace w ++ motion_drain) w)).
Proof.
  intros h k config spi w.
  pose proof (clear_motion_loop_cases spi w) as Hc. cbv zeta in Hc.
  split.
  - intros i e Hi Hprev He Hne.
    apply configure_skips_after_error; [ | exact Hne].
    rewrite Hc.
    destruct i as [| [| [| [| i]]]]; [ | | | | lia].
    + rewrite He, (truthy_nonzero e Hne). reflexivity.
    + rewrite (Hprev 0%nat) by lia. rewrite truthy_zero.
      rewrite He, (truthy_nonzero e Hne). reflexivity.
    + rewrite (Hprev 0%nat), (Hprev 1%nat) by lia. rewrite truthy_zero.
      rewrite He, (truthy_nonzero e Hne). reflexivity.
    + rewrite (Hprev 0%nat), (Hprev 1%nat), (Hprev 2%nat) by lia.
      rewrite truthy_zero. rewrite He. reflexivity.
  - intros Hall Hout.
    unfold pmw3610_async_init_configure. unfold bind at 1. rewrite Hc.
    rewrite (Hall 0%nat), (Hall 1%nat), (Hall 2%nat), (Hall 3%nat) by lia.
    rewrite truthy_zero.
    unfold unless_err at 1. rewrite truthy_zero. unfold bind at 1.
    rewrite set_cpi_out_of_range by exact Hout.
    unfold unless_err, bind, ret.
    assert (Ht : truthy (- EINVAL) = true) by reflexivity.
    repeat (rewrite Ht; cbv beta iota).
    reflexivity.
Qed.

Lemma configure_aborts_before_writing_witness :
  pmw3610_async_init_configure Sample.hdr SampleStart.kcfg0 Sample.cfg
    (SampleStart.bus_fail_read_of 0x03) Sample.world0
  = (- EIO, set_trace [EvSpiRead 0x02 1; EvSpiRead 0x03 1] Sample.world0).
Proof.
  destruct (configure_aborts_before_writing Sample.hdr SampleStart.kcfg0 Sample.cfg
              (SampleStart.bus_fail_read_of 0x03) Sample.world0) as [Hfail _].
  apply (Hfail 1%nat (- EIO)).
  - lia.
  - intros j Hj. assert (j = 0%nat) as -> by lia. reflexivity.
  - reflexivity.
  - discriminate.
Defined.

(* ================================================================== *)
(** ** Further properties: bring-up of a healthy sensor *)

Section Healthy.

Variable h : pmw3610_h.
Variable k : kconfig.
Variable config : pixart_config.
Variable spi : bus.

Hypothesis Hbus : bus_never_fails spi.

Lemma write_reg_never_fails (a v : Z) (w : world) :
  fst (pmw3610_write_reg h spi a v w) = 0.
Proof. unfold pmw3610_write_reg, spi_write_dt. cbn [fst]. apply Hbus. Qed.

Lemma write_never_fails (a v : Z) (w : world) :
  fst (pmw3610_write h spi a v w) = 0.
Proof. rewrite pmw3610_write_ok by apply Hbus. reflexivity. Qed.

Lemma set_cpi_never_fails (c : Z) (w : world) :
  PMW3610_MIN_CPI h <= c <= PMW3610_MAX_CPI h ->
  fst (set_cpi h spi c w) = 0.
Proof.
  intros Hc. rewrite (set_cpi_in_range h spi c w Hc). cbv zeta.
  rewrite !Hbus, truthy_zero. reflexivity.
Qed.

Lemma set_sample_time_never_fails (reg ms : Z) (w : world) :
  10 <= ms <= 2550 ->
  fst (set_sample_time h spi reg ms w) = 0.
Proof.
  intros Hin. unfold set_sample_time.
  rewrite (orb_range_false ms 10 2550 Hin). apply write_never_fails.
Qed.

Lemma set_downshift_time_never_fails (reg time maxtime mintime : Z) (w : world) :
  (if reg =? PMW3610_REG_RUN_DOWNSHIFT h then Some (8160, 32)
   else if reg =? PMW3610_REG_REST1_DOWNSHIFT h then
     Some (u32 (255 * 16 * CONFIG_PMW3610_REST1_SAMPLE_TIME_MS k),
           u32 (16 * CONFIG_PMW3610_REST1_SAMPLE_TIME_MS k))
   else if reg =? PMW3610_REG_REST2_DOWNSHIFT h then
     Some (u32 (255 * 128 * CONFIG_PMW3610_REST2_SAMPLE_TIME_MS k),
           u32 (128 * CONFIG_PMW3610_REST2_SAMPLE_TIME_MS k))
   else None) = Some (maxtime, mintime) ->
  mintime <= time <= maxtime ->
  fst (set_downshift_time h k spi reg time w) = 0.
Proof.
  intros Hsel Hin. unfold set_downshift_time. rewrite Hsel.
  rewrite (orb_range_false time mintime maxtime Hin). apply write_never_fails.
Qed.

Lemma clear_motion_loop_never_fails (regs : list Z) :
  forall w, fst (clear_motion_loop spi regs 0 w) = 0.
Proof.
  induction regs as [| r rest IH]; intros w; cbn [clear_motion_loop];
    [reflexivity | ].
  rewrite truthy_zero. unfold bind, pmw3610_read_reg, pmw3610_read, spi_transceive_dt.
  rewrite Hbus. apply IH.
Qed.

Lemma unless_err_zero (m : M Z) : unless_err 0 m = m.
Proof. reflexivity. Qed.

Lemma power_up_never_fails (w : world) :
  fst (pmw3610_async_init_power_up h spi w) = 0.
Proof.
  unfold pmw3610_async_init_power_up, bind.
  pose proof (write_reg_never_fails (PMW3610_REG_POWER_UP_RESET h)
                (PMW3610_POWERUP_CMD_RESET h) w) as H0.
  destruct (pmw3610_write_reg _ _ _ _ w) as [r w1]. cbn [fst] in H0. subst r.
  reflexivity.
Qed.

Lemma check_ob1_never_fails (w : world) :
  (forall t, Z.land (read_byte (spi (t ++ [observation_read h]))) 0x0F = 0x0F) ->
  (forall t, read_byte (spi (t ++ [product_id_read h])) = PMW3610_PRODUCT_ID h) ->
  fst (pmw3610_async_init_check_ob1 h spi w) = 0.
Proof.
  intros Hob Hid. rewrite pmw3610_async_init_check_ob1_cases. cbv zeta.
  rewrite !Hbus, truthy_zero, Hob.
  replace (trace w ++ [observation_read h; product_id_read h])
    with ((trace w ++ [observation_read h]) ++ [product_id_read h])
    by (rewrite <- app_assoc; reflexivity).
  rewrite Hid, !Z.eqb_refl. reflexivity.
Qed.

Lemma configure_never_fails (w : world) :
  build_accepted h k config ->
  fst (pmw3610_async_init_configure h k config spi w) = 0.
Proof.
  intros (Hd1 & Hd2 & Hd3 & Hcpi & Hrun & Hs1 & Hs2 & Hs3 & Hr1 & Hr2).
  apply Z.eqb_neq in Hd1, Hd2, Hd3.
  unfold pmw3610_async_init_configure, bind.
  pose proof (clear_motion_loop_never_fails [2; 3; 4; 5] w) as H0.
  destruct (clear_motion_loop spi [2; 3; 4; 5] 0 w) as [e w0]. cbn [fst] in H0. subst e.
  rewrite unless_err_zero.
  pose proof (set_cpi_never_fails (cpi config) w0 Hcpi) as H1.
  destruct (set_cpi h spi (cpi config) w0) as [e w1]. cbn [fst] in H1. subst e.
  rewrite unless_err_zero.
  pose proof (set_downshift_time_never_fails (PMW3610_REG_RUN_DOWNSHIFT h)
                (CONFIG_PMW3610_RUN_DOWNSHIFT_TIME_MS k) 8160 32 w1) as H2.
  rewrite Z.eqb_refl in H2. specialize (H2 eq_refl Hrun).
  destruct (set_downshift_time h k spi (PMW3610_REG_RUN_DOWNSHIFT h) _ w1) as [e w2].
  cbn [fst] in H2. subst e. rewrite unless_err_zero.
  pose proof (set_downshift_time_never_fails (PMW3610_REG_REST1_DOWNSHIFT h)
                (CONFIG_PMW3610_REST1_DOWNSHIFT_TIME_MS k)
                (255 * 16 * CONFIG_PMW3610_REST1_SAMPLE_TIME_MS k)
                (16 * CONFIG_PMW3610_REST1_SAMPLE_TIME_MS k) w2) as H3.
  rewrite Hd1, Z.eqb_refl in H3.
  rewrite !u32_id in H3 by (change (2 ^ 32) with 4294967296; lia).
  specialize (H3 eq_refl Hr1).
  destruct (set_downshift_time h k spi (PMW3610_REG_REST1_DOWNSHIFT h) _ w2) as [e w3].
  cbn [fst] in H3. subst e. rewrite unless_err_zero.
  pose proof (set_downshift_time_never_fails (PMW3610_REG_REST2_DOWNSHIFT h)
                (CONFIG_PMW3610_REST2_DOWNSHIFT_TIME_MS k)
                (255 * 128 * CONFIG_PMW3610_REST2_SAMPLE_TIME_MS k)
                (128 * CONFIG_PMW3610_REST2_SAMPLE_TIME_MS k) w3) as H4.
  rewrite Hd2, Hd3, Z.eqb_refl in H4.
  rewrite !u32_id in H4 by (change (2 ^ 32) with 4294967296; lia).
  specialize (H4 eq_refl Hr2).
  destruct (set_downshift_time h k spi (PMW3610_REG_REST2_DOWNSHIFT h) _ w3) as [e w4].
  cbn [fst] in H4. subst e. rewrite unless_err_zero.
  pose proof (set_sample_time_never_fails (PMW3610_REG_REST1_RATE h) _ w4 Hs1) as H5.
  destruct (set_sample_time h spi (PMW3610_REG_REST1_RATE h) _ w4) as [e w5].
  cbn [fst] in H5. subst e. rewrite unless_err_zero.
  pose proof (set_sample_time_never_fails (PMW3610_REG_REST2_RATE h) _ w5 Hs2) as H6.
  destruct (set_sample_time h spi (PMW3610_REG_REST2_RATE h) _ w5) as [e w6].
  cbn [fst] in H6. subst e. rewrite unless_err_zero.
  pose proof (set_sample_time_never_fails (PMW3610_REG_REST3_RATE h) _ w6 Hs3) as H7.
  destruct (set_sample_time h spi (PMW3610_REG_REST3_RATE h) _ w6) as [e w7].
  cbn [fst] in H7. subst e. reflexivity.
Qed.

End Healthy.

(** On a healthy sensor and an accepted build, every step function
    returns 0. *)
Lemma healthy_steps_return_zero (h : pmw3610_h) (k : kconfig)
      (config : pixart_config) (spi : bus) :
  sensor_healthy h spi ->
  build_accepted h k config ->
  forall (n : nat) (fn : M Z),
    nth_error (async_init_fn h k config spi) n = Some fn ->
    forall w, fst (fn w) = 0.
Proof.
  intros (Hbus & Hob & Hid) Hbuild n fn Hn w.
  unfold async_init_fn in Hn.
  destruct n as [| [| [| [| n]]]]; cbn in Hn.
  - injection Hn as <-. apply power_up_never_fails. exact Hbus.
  - injection Hn as <-. apply write_never_fails. exact Hbus.
  - injection Hn as <-. apply check_ob1_never_fails; assumption.
  - injection Hn as <-. apply configure_never_fails; assumption.
  - destruct n; discriminate.
Qed.

(** When no step fails, the work queue carries bring-up to the end. *)
Lemma run_init_work_all_ok (h : pmw3610_h) (k : kconfig)
      (config : pixart_config) (spi : bus) :
  (forall (n : nat) (fn : M Z),
      nth_error (async_init_fn h k config spi) n = Some fn ->
      forall w, fst (fn w) = 0) ->
  forall (fuel : nat) (w : world),
    (async_init_step (data w) < ASYNC_INIT_STEP_COUNT)%nat ->
    init_work w <> None ->
    (ASYNC_INIT_STEP_COUNT - async_init_step (data w) <= fuel)%nat ->
    exists (w' : world) (t0 : list event),
      run_init_work h k config spi fuel w
      = Some (all_steps_ok_from (async_init_step (data w)), w')
      /\ ready (data w') = true
      /\ err (data w') = 0
      /\ async_init_step (data w') = ASYNC_INIT_STEP_COUNT
      /\ init_work w' = None
      /\ stat w' = stat w
      /\ trace w' = trace w ++ t0 ++ [EvGpioInt true]
      /\ Forall bus_event t0.
Proof.
  intros Hok. induction fuel as [| fuel IH]; intros w Hs Hq Hfuel.
  - unfold ASYNC_INIT_STEP_COUNT in *. lia.
  - cbn [run_init_work]. destruct (init_work w) as [d |] eqn:Eq; [ | contradiction].
    set (w0 := set_init_work None w).
    destruct (pmw3610_async_init_run h k config spi w0)
      as (fn & e & t1 & Hfn & Efn & Ft1 & Hrun); [exact Hs | ].
    rewrite Hrun. clear Hrun.
    pose proof (Hok _ _ Hfn w0) as He. rewrite Efn in He. cbn [fst] in He. subst e.
    destruct (Nat.eq_dec (S (async_init_step (data w))) ASYNC_INIT_STEP_COUNT)
      as [Hlast | Hmore].
    + rewrite async_init_after_done by exact Hlast. cbn [snd].
      rewrite run_init_work_idle by reflexivity.
      eexists _, t1. split.
      { cbn [data set_data set_trace err set_err set_ready set_async_init_step].
        unfold all_steps_ok_from. unfold ASYNC_INIT_STEP_COUNT in Hlast |- *.
        injection Hlast as Hlast. rewrite Hlast. reflexivity. }
      cbn [data set_data set_trace trace err set_err set_ready ready
           set_async_init_step async_init_step init_work stat w0 set_init_work].
      repeat split; try assumption. rewrite <- app_assoc. reflexivity.
    + rewrite async_init_after_next by exact Hmore. cbn [snd].
      match goal with |- context [run_init_work _ _ _ _ fuel ?x] => set (w1 := x) end.
      assert (Hs1 : async_init_step (data w1) = S (async_init_step (data w)))
        by reflexivity.
      destruct (IH w1) as (w' & t0 & Hrun & Hrd & Herr & Hst & Hq' & Hstat & Htr & Ft0).
      { rewrite Hs1. unfold ASYNC_INIT_STEP_COUNT in *. lia. }
      { subst w1. cbn. discriminate. }
      { rewrite Hs1. lia. }
      rewrite Hrun. exists w', (t1 ++ t0). split.
      { rewrite Hs1. unfold all_steps_ok_from.
        replace (ASYNC_INIT_STEP_COUNT - async_init_step (data w))%nat
          with (S (ASYNC_INIT_STEP_COUNT - S (async_init_step (data w))))%nat
          by (unfold ASYNC_INIT_STEP_COUNT in *; lia).
        reflexivity. }
      repeat split; try assumption.
      * rewrite Htr. subst w1 w0. cbn [trace set_init_work set_data set_trace].
        rewrite <- !app_assoc. reflexivity.
      * apply Forall_app. split; assumption.
Qed.

(** X7.  Bring-up completes on a healthy sensor.  If no bus transaction
    fails, the observation register reads with low nibble [0xF], the
    product id reads as expected and the build's values are in the
    accepted ranges, then the work queue, started with step 0 queued,
    runs the four steps in order, each returning 0, and stops with
    [ready] set, [err] clear, nothing queued, and the enabling of the
    interrupt line as the last thing done, after bus traffic only. *)
Theorem bring_up_completes_on_healthy_sensor :
  forall (h : pmw3610_h) (k : kconfig) (config : pixart_config) (spi : bus)
         (fuel : nat) (w : world),
    sensor_healthy h spi ->
    build_accepted h k config ->
    async_init_step (data w) = 0%nat ->
    init_work w <> None ->
    (4 <= fuel)%nat ->
    exists (w' : world) (t0 : list event),
      run_init_work h k config spi fuel w
      = Some ([(0%nat, 0); (1%nat, 0); (2%nat, 0); (3%nat, 0)], w')
      /\ ready (data w') = true
      /\ err (data w') = 0
      /\ async_init_step (data w') = ASYNC_INIT_STEP_COUNT
      /\ init_work w' = None
      /\ trace w' = trace w ++ t0 ++ [EvGpioInt true]
      /\ Forall bus_event t0.
Proof.
  intros h k config spi fuel w Hh Hb Hs Hq Hfuel.
  destruct (run_init_work_all_ok h k config spi
              (healthy_steps_return_zero h k config spi Hh Hb) fuel w)
    as (w' & t0 & Hrun & Hrd & Herr & Hst & Hq' & _ & Htr & Ft0).
  - rewrite Hs. unfold ASYNC_INIT_STEP_COUNT. lia.
  - exact Hq.
  - rewrite Hs. unfold ASYNC_INIT_STEP_COUNT. lia.
  - exists w', t0. rewrite Hs in Hrun. repeat split; assumption.
Qed.

Lemma sample_bus_sensor_healthy : sensor_healthy Sample.hdr (Sample.bus_sensor 0x0F).
Proof.
  split; [ | split].
  - intros t. unfold Sample.bus_sensor.
    destruct (rev t) as [| [tx | a n | us | en | ty c v s] rest]; try reflexivity.
    destruct (a =? _); [reflexivity | ]. destruct (a =? _); reflexivity.
  - intros t. unfold Sample.bus_sensor, observation_read. rewrite rev_unit. reflexivity.
  - intros t. unfold Sample.bus_sensor, product_id_read. rewrite rev_unit. reflexivity.
Qed.

Lemma sample_build_accepted : build_accepted Sample.hdr SampleStart.kcfg0 Sample.cfg.
Proof. unfold build_accepted. cbn. repeat split; try lia; discriminate. Qed.

Lemma bring_up_completes_on_healthy_sensor_witness :
  sensor_healthy Sample.hdr (Sample.bus_sensor 0x0F)
  /\ build_accepted Sample.hdr SampleStart.kcfg0 Sample.cfg
  /\ exists w' : world,
       run_init_work Sample.hdr SampleStart.kcfg0 Sample.cfg (Sample.bus_sensor 0x0F)
         4 (Sample.world_at_step 0)
       = Some ([(0%nat, 0); (1%nat, 0); (2%nat, 0); (3%nat, 0)], w')
       /\ ready (data w') = true.
Proof.
  split; [exact sample_bus_sensor_healthy | ].
  split; [exact sample_build_accepted | ].
  destruct (bring_up_completes_on_healthy_sensor Sample.hdr SampleStart.kcfg0
              Sample.cfg (Sample.bus_sensor 0x0F) 4 (Sample.world_at_step 0)
              sample_bus_sensor_healthy sample_build_accepted eq_refl)
    as (w' & t0 & Hrun & Hrd & _).
  - discriminate.
  - lia.
  - exists w'. split; assumption.
Defined.

(* ================================================================== *)
(** ** Further properties: driver start-up *)

Lemma pmw3610_init_irq_cases (p : platform) (w : world) :
  pmw3610_init_irq p w
  = (if negb (device_is_ready p) then - ENODEV
     else if truthy (gpio_pin_configure_dt p) then gpio_pin_configure_dt p
     else gpio_add_callback p, w).
Proof.
  unfold pmw3610_init_irq, ret.
  destruct (negb (device_is_ready p)); [reflexivity | ].
  destruct (truthy (gpio_pin_configure_dt p)); reflexivity.
Qed.

(** X8.  [pmw3610_init], called on a driver whose step counter is within
    the table: it returns 0 exactly when the SPI bus and the interrupt
    port are ready and both GPIO calls return 0, and only then is the
    first bring-up step queued, with the delay of the current step
    ([10 + CONFIG_PMW3610_INIT_POWER_UP_EXTRA_DELAY_MS] ms for step 0)
    and with the smart-algorithm flag cleared.  On any failure nothing
    is queued, so a work queue that was idle stays idle and [ready]
    keeps its value for good.  A bus that is not ready gives [-ENODEV]
    and leaves the driver untouched.  In no case does [pmw3610_init]
    access the bus, touch the interrupt line, or change [ready] or the
    accumulators. *)
Theorem pmw3610_init_outcome :
  forall (h : pmw3610_h) (k : kconfig) (config : pixart_config) (spi : bus)
         (p : platform) (w : world),
    (async_init_step (data w) < ASYNC_INIT_STEP_COUNT)%nat ->
    exists (r : Z) (w' : world),
      pmw3610_init k p w = Some (r, w')
      /\ trace w' = trace w
      /\ ready (data w') = ready (data w)
      /\ stat w' = stat w
      /\ (r = 0 <->
            spi_is_ready_dt p = true /\ device_is_ready p = true
            /\ gpio_pin_configure_dt p = 0 /\ gpio_add_callback p = 0)
      /\ (r = 0 ->
            init_work w' = Some (nth (async_init_step (data w)) (async_init_delay k) 0)
            /\ (async_init_step (data w) = 0%nat ->
                  init_work w'
                  = Some (10 + CONFIG_PMW3610_INIT_POWER_UP_EXTRA_DELAY_MS k))
            /\ sw_smart_flag (data w') = false)
      /\ (r <> 0 ->
            init_work w' = init_work w
            /\ (init_work w = None ->
                  forall n, run_init_work h k config spi n w' = Some ([], w')))
      /\ (spi_is_ready_dt p = false -> r = - ENODEV /\ w' = w).
Proof.
  intros h k config spi p w Hs. unfold pmw3610_init.
  destruct (spi_is_ready_dt p) eqn:Espi; cbn [negb].
  2:{ exists (- ENODEV), w. split; [reflexivity | ].
      repeat split; try reflexivity; try discriminate.
      - intros [H _]. discriminate.
      - intros Hq n. apply run_init_work_idle. exact Hq. }
  rewrite pmw3610_init_irq_cases.
  set (e := if negb (device_is_ready p) then - ENODEV
            else if truthy (gpio_pin_configure_dt p) then gpio_pin_configure_dt p
            else gpio_add_callback p).
  assert (He : e = 0 <-> device_is_ready p = true
                         /\ gpio_pin_configure_dt p = 0 /\ gpio_add_callback p = 0).
  { subst e. destruct (device_is_ready p); cbn [negb].
    - destruct (truthy (gpio_pin_configure_dt p)) eqn:Et.
      + apply truthy_true_nonzero in Et. tauto.
      + apply truthy_false_zero in Et. tauto.
    - split; [discriminate | intros [H _]; discriminate]. }
  destruct (truthy e) eqn:Ete.
  - apply truthy_true_nonzero in Ete.
    eexists e, _. split; [reflexivity | ].
    cbn [trace data stat init_work set_trigger_work set_data ready set_sw_smart_flag].
    repeat split; try reflexivity; try tauto; try discriminate.
    intros Hq n. apply run_init_work_idle. exact Hq.
  - apply truthy_false_zero in Ete.
    cbn [data set_init_work set_trigger_work set_data async_init_step
         set_sw_smart_flag].
    destruct (nth_error (async_init_delay k) (async_init_step (data w))) as [ms |] eqn:En.
    2:{ apply nth_error_None in En. unfold async_init_delay in En. cbn in En.
        unfold ASYNC_INIT_STEP_COUNT in Hs. lia. }
    eexists e, _. split; [reflexivity | ].
    cbn [snd k_work_schedule trace data stat init_work set_init_work set_trigger_work
         set_data ready sw_smart_flag set_sw_smart_flag].
    split; [reflexivity | ]. split; [reflexivity | ]. split; [reflexivity | ].
    split; [tauto | ]. split.
    { intros _. split; [ | split; [ | reflexivity]].
      - f_equal. symmetry. apply nth_error_nth. exact En.
      - intros H0. rewrite H0 in En. unfold async_init_delay in En.
        cbn [nth_error] in En. injection En as <-. reflexivity. }
    split; [intros Hne; contradiction | discriminate].
Qed.

Lemma pmw3610_init_outcome_witness :
  (async_init_step (data Sample.world0) < ASYNC_INIT_STEP_COUNT)%nat
  /\ pmw3610_init SampleStart.kcfg0 SampleStart.platform_ok Sample.world0
     = Some (0, set_init_work (Some 10) Sample.world0)
  /\ pmw3610_init SampleStart.kcfg0 SampleStart.platform_no_irq_port Sample.world0
     = Some (- ENODEV, Sample.world0).
Proof.
  split; [cbn; unfold ASYNC_INIT_STEP_COUNT; lia | ].
  destruct (pmw3610_init_outcome Sample.hdr SampleStart.kcfg0 Sample.cfg
              (Sample.bus_const []) SampleStart.platform_ok Sample.world0)
    as (r & w' & Hrun & _); [cbn; unfold ASYNC_INIT_STEP_COUNT; lia | ].
  destruct (pmw3610_init_outcome Sample.hdr SampleStart.kcfg0 Sample.cfg
              (Sample.bus_const []) SampleStart.platform_no_irq_port Sample.world0)
    as (r2 & w2 & Hrun2 & _); [cbn; unfold ASYNC_INIT_STEP_COUNT; lia | ].
  split; reflexivity.
Defined.

(** X9.  From power-on to ready.  On a platform whose bus and interrupt
    port are ready and whose GPIO calls succeed, with a healthy sensor
    and an accepted build, [pmw3610_init] on the zero-initialised driver
    returns 0 and the work queue then carries the four steps through:
    the driver ends ready, with the interrupt line enabled as the last
    thing done and the accumulators untouched. *)
Theorem power_on_to_ready :
  forall (h : pmw3610_h) (k : kconfig) (config : pixart_config) (spi : bus)
         (p : platform) (w : world) (fuel : nat),
    spi_is_ready_dt p = true ->
    device_is_ready p = true ->
    gpio_pin_configure_dt p = 0 ->
    gpio_add_callback p = 0 ->
    sensor_healthy h spi ->
    build_accepted h k config ->
    async_init_step (data w) = 0%nat ->
    (4 <= fuel)%nat ->
    exists (w1 w' : world) (t0 : list event),
      pmw3610_init k p w = Some (0, w1)
      /\ run_init_work h k config spi fuel w1
         = Some ([(0%nat, 0); (1%nat, 0); (2%nat, 0); (3%nat, 0)], w')
      /\ ready (data w') = true
      /\ init_work w' = None
      /\ stat w' = stat w
      /\ trace w' = trace w ++ t0 ++ [EvGpioInt true]
      /\ Forall bus_event t0.
Proof.
  intros h k config spi p w fuel Hspi Hdev Hcfg Hadd Hh Hb Hs Hfuel.
  unfold pmw3610_init. rewrite Hspi. cbn [negb].
  rewrite pmw3610_init_irq_cases. rewrite Hdev, Hcfg, Hadd. cbn [negb truthy Z.eqb].
  cbn [data set_init_work set_trigger_work set_data async_init_step set_sw_smart_flag].
  rewrite Hs. cbn [nth_error async_init_delay].
  match goal with |- context [Some (0, ?x)] => set (w1 := x) end.
  destruct (run_init_work_all_ok h k config spi
              (healthy_steps_return_zero h k config spi Hh Hb) fuel w1)
    as (w' & t0 & Hrun & Hrd & _ & _ & Hq & Hstat & Htr & Ft0).
  - subst w1. cbn. rewrite Hs. unfold ASYNC_INIT_STEP_COUNT. lia.
  - subst w1. cbn. discriminate.
  - subst w1. cbn. rewrite Hs. unfold ASYNC_INIT_STEP_COUNT. lia.
  - exists w1, w', t0. split; [reflexivity | ].
    assert (Hs1 : async_init_step (data w1) = 0%nat) by (subst w1; cbn; exact Hs).
    rewrite Hs1 in Hrun. repeat split; assumption.
Qed.

Lemma power_on_to_ready_witness :
  sensor_healthy Sample.hdr (Sample.bus_sensor 0x0F)
  /\ build_accepted Sample.hdr SampleStart.kcfg0 Sample.cfg
  /\ exists w1 w' : world,
       pmw3610_init SampleStart.kcfg0 SampleStart.platform_ok Sample.world0
       = Some (0, w1)
       /\ run_init_work Sample.hdr SampleStart.kcfg0 Sample.cfg
            (Sample.bus_sensor 0x0F) 4 w1
          = Some ([(0%nat, 0); (1%nat, 0); (2%nat, 0); (3%nat, 0)], w')
       /\ ready (data w') = true.
Proof.
  split; [exact sample_bus_sensor_healthy | ].
  split; [exact sample_build_accepted | ].
  destruct (power_on_to_ready Sample.hdr SampleStart.kcfg0 Sample.cfg
              (Sample.bus_sensor 0x0F) SampleStart.platform_ok Sample.world0 4
              eq_refl eq_refl eq_refl eq_refl sample_bus_sensor_healthy
              sample_build_accepted eq_refl)
    as (w1 & w' & t0 & Hinit & Hrun & Hrd & _); [lia | ].
  exists w1, w'. repeat split; assumption.
Defined.

(* ================================================================== *)
(** ** Further properties: the shape of a bring-up run *)

(** X10.  A successful step, seen from one run of the handler: [err] is
    cleared and the counter advances by one; after steps 0, 1 and 2 the
    next step is queued with a delay of 200, 50 and 0 ms respectively
    and [ready] keeps its value; after step 3 nothing is queued,
    [ready] is set and the interrupt line is enabled. *)
Theorem async_init_step_success :
  forall (h : pmw3610_h) (k : kconfig) (config : pixart_config) (spi : bus)
         (w : world) (fn : M Z) (w1 : world),
    nth_error (async_init_fn h k config spi) (async_init_step (data w)) = Some fn ->
    fn w = (0, w1) ->
    exists w' : world,
      pmw3610_async_init h k config spi w = Some w'
      /\ err (data w') = 0
      /\ async_init_step (data w') = S (async_init_step (data w))
      /\ (async_init_step (data w) = 0%nat -> init_work w' = Some 200)
      /\ (async_init_step (data w) = 1%nat -> init_work w' = Some 50)
      /\ (async_init_step (data w) = 2%nat -> init_work w' = Some 0)
      /\ ((async_init_step (data w) < 3)%nat ->
            ready (data w') = ready (data w) /\ trace w' = trace w1)
      /\ (async_init_step (data w) = 3%nat ->
            init_work w' = init_work w
            /\ ready (data w') = true
            /\ trace w' = trace w1 ++ [EvGpioInt true]).
Proof.
  intros h k config spi w fn w1 Hfn Efn.
  destruct (bus_only_async_init_fn h k config spi _ _ Hfn w) as [t [_ Ht]].
  rewrite Efn in Ht. cbn [snd] in Ht.
  unfold pmw3610_async_init. rewrite Hfn. unfold bind at 1. rewrite Efn.
  assert (Hlt : (async_init_step (data w) < 4)%nat).
  { pose proof (proj1 (nth_error_Some (async_init_fn h k config spi)
                          (async_init_step (data w)))) as Hx.
    rewrite Hfn in Hx. specialize (Hx ltac:(discriminate)).
    unfold async_init_fn in Hx. cbn [length] in Hx. exact Hx. }
  assert (Hd1 : async_init_step (data w1) = async_init_step (data w))
    by (subst w1; reflexivity).
  destruct (Nat.eq_dec (S (async_init_step (data w1))) ASYNC_INIT_STEP_COUNT)
    as [Hlast | Hmore].
  - rewrite async_init_after_done by exact Hlast. cbn [snd].
    eexists. split; [reflexivity | ].
    cbn [data set_data set_trace trace err set_err set_ready ready
         set_async_init_step async_init_step init_work].
    unfold ASYNC_INIT_STEP_COUNT in *. rewrite Hd1 in Hlast.
    repeat split; try lia.
    subst w1. reflexivity.
  - rewrite async_init_after_next by exact Hmore. cbn [snd].
    eexists. split; [reflexivity | ].
    cbn [data set_data set_trace trace err set_err set_ready ready
         set_async_init_step async_init_step init_work set_init_work].
    unfold ASYNC_INIT_STEP_COUNT in *. rewrite Hd1 in *.
    repeat split; try lia.
    + intros H0. rewrite H0. reflexivity.
    + intros H0. rewrite H0. reflexivity.
    + intros H0. rewrite H0. reflexivity.
    + subst w1. reflexivity.
Qed.

Lemma async_init_step_success_witness :
  exists w' : world,
    pmw3610_async_init Sample.hdr SampleStart.kcfg0 Sample.cfg (Sample.bus_const [])
      (Sample.world_at_step 0) = Some w'
    /\ async_init_step (data w') = 1%nat
    /\ init_work w' = Some 200.
Proof.
  destruct (async_init_step_success Sample.hdr SampleStart.kcfg0 Sample.cfg
              (Sample.bus_const []) (Sample.world_at_step 0)
              (pmw3610_async_init_power_up Sample.hdr (Sample.bus_const []))
              (set_trace [EvSpiWrite [186; 90]] (Sample.world_at_step 0))
              eq_refl eq_refl)
    as (w' & Hrun & _ & Hst & H200 & _).
  exists w'. repeat split; [exact Hrun | exact Hst | exact (H200 eq_refl)].
Defined.

(** X11.  Whatever the bus does and however long the work queue runs,
    the handler runs for consecutive steps starting at the current one,
    at most once per remaining step; every run but the last returned 0;
    the step counter ends at the starting step plus the number of
    successful runs, and never exceeds 4. *)
Theorem run_init_work_log_shape :
  forall (h : pmw3610_h) (k : kconfig) (config : pixart_config) (spi : bus)
         (fuel : nat) (w : world) (log : list (nat * Z)) (w' : world),
    (async_init_step (data w) < ASYNC_INIT_STEP_COUNT)%nat ->
    run_init_work h k config spi fuel w = Some (log, w') ->
    map fst log = seq (async_init_step (data w)) (length log)
    /\ (length log <= ASYNC_INIT_STEP_COUNT - async_init_step (data w))%nat
    /\ (forall (i : nat) (e : Z), In (i, e) (removelast log) -> e = 0)
    /\ async_init_step (data w')
       = (async_init_step (data w) + length (filter step_ok log))%nat
    /\ (async_init_step (data w') <= ASYNC_INIT_STEP_COUNT)%nat.
Proof.
  intros h k config spi fuel.
  assert (Hnil : forall w : world,
            (async_init_step (data w) < ASYNC_INIT_STEP_COUNT)%nat ->
            map fst (@nil (nat * Z)) = seq (async_init_step (data w)) (length (@nil (nat * Z)))
            /\ (length (@nil (nat * Z)) <= ASYNC_INIT_STEP_COUNT - async_init_step (data w))%nat
            /\ (forall (i : nat) (e : Z), In (i, e) (removelast (@nil (nat * Z))) -> e = 0)
            /\ async_init_step (data w)
               = (async_init_step (data w) + length (filter step_ok (@nil (nat * Z))))%nat
            /\ (async_init_step (data w) <= ASYNC_INIT_STEP_COUNT)%nat).
  { intros w Hs. cbn. repeat split; try lia; try (intros ? ? []). }
  induction fuel as [| fuel IH]; intros w log w' Hs Hrun.
  - cbn [run_init_work] in Hrun. injection Hrun as <- <-. apply Hnil. exact Hs.
  - cbn [run_init_work] in Hrun. destruct (init_work w) as [d |] eqn:Hq.
    2:{ injection Hrun as <- <-. apply Hnil. exact Hs. }
    set (w0 := set_init_work None w) in *.
    destruct (pmw3610_async_init_run h k config spi w0)
      as (fn & e & t1 & Hfn & Efn & Ft1 & Hone); [exact Hs | ].
    rewrite Hone in Hrun. clear Hone.
    destruct (Z.eq_dec e 0) as [-> | Hne].
    + destruct (Nat.eq_dec (S (async_init_step (data w))) ASYNC_INIT_STEP_COUNT)
        as [Hlast | Hmore].
      * rewrite async_init_after_done in Hrun by exact Hlast. cbn [snd] in Hrun.
        rewrite run_init_work_idle in Hrun by reflexivity.
        injection Hrun as <- <-.
        cbn [data set_data set_trace err set_err set_ready set_async_init_step
             async_init_step map fst length seq removelast filter step_ok snd Z.eqb].
        unfold ASYNC_INIT_STEP_COUNT in *.
        repeat split; try lia; try (intros ? ? []).
      * rewrite async_init_after_next in Hrun by exact Hmore. cbn [snd] in Hrun.
        match type of Hrun with
        | context [run_init_work _ _ _ _ fuel ?x] => set (w1 := x) in *
        end.
        assert (Hs1 : async_init_step (data w1) = S (async_init_step (data w)))
          by reflexivity.
        destruct (run_init_work h k config spi fuel w1) as [[log1 w1'] |] eqn:Hrec;
          [ | discriminate].
        injection Hrun as <- <-.
        destruct (IH w1 log1 w1') as (Hm & Hl & Hz & Hst & Hle).
        { rewrite Hs1. unfold ASYNC_INIT_STEP_COUNT in *. lia. }
        { exact Hrec. }
        rewrite Hs1 in *. unfold ASYNC_INIT_STEP_COUNT in *.
        cbn [map fst length seq filter step_ok snd Z.eqb].
        split; [rewrite Hm; reflexivity | ].
        split; [lia | ]. split.
        { intros i e Hin. destruct log1 as [| p1 rest]; [destruct Hin | ].
          change (removelast ((async_init_step (data w), 0) :: p1 :: rest))
            with ((async_init_step (data w), 0) :: removelast (p1 :: rest)) in Hin.
          destruct Hin as [Hin | Hin]; [injection Hin as _ <-; reflexivity | ].
          apply (Hz i e Hin). }
        split; [ | exact Hle].
        rewrite Hst. cbn [length]. lia.
    + rewrite async_init_after_fail in Hrun by exact Hne. cbn [snd] in Hrun.
      rewrite run_init_work_idle in Hrun by reflexivity.
      injection Hrun as <- <-.
      cbn [data set_data set_trace err set_err async_init_step map fst length seq
           removelast filter].
      unfold step_ok. cbn [snd].
      destruct (Z.eqb_spec e 0) as [? | _]; [contradiction | ].
      unfold ASYNC_INIT_STEP_COUNT in *. cbn [length].
      repeat split; try lia; try (intros ? ? []).
Qed.

Lemma run_init_work_log_shape_witness :
  (async_init_step (data (Sample.world_at_step 0)) < ASYNC_INIT_STEP_COUNT)%nat
  /\ (exists w' : world,
        run_init_work Sample.hdr SampleStart.kcfg0 Sample.cfg (Sample.bus_sensor 0x0E)
          9 (Sample.world_at_step 0)
        = Some ([(0%nat, 0); (1%nat, 0); (2%nat, - EINVAL)], w')
        /\ async_init_step (data w') = 2%nat).
Proof.
  split; [cbn; unfold ASYNC_INIT_STEP_COUNT; lia | ].
  destruct (run_init_work Sample.hdr SampleStart.kcfg0 Sample.cfg
              (Sample.bus_sensor 0x0E) 9 (Sample.world_at_step 0))
    as [[log w'] |] eqn:Hrun; [ | discriminate Hrun].
  pose proof (run_init_work_log_shape Sample.hdr SampleStart.kcfg0 Sample.cfg
                (Sample.bus_sensor 0x0E) 9 (Sample.world_at_step 0) log w'
                ltac:(cbn; unfold ASYNC_INIT_STEP_COUNT; lia) Hrun)
    as (_ & _ & _ & Hst & _).
  exists w'.
  assert (Hlog : log = [(0%nat, 0); (1%nat, 0); (2%nat, - EINVAL)]).
  { vm_compute in Hrun. injection Hrun as <- _. reflexivity. }
  split; [rewrite Hlog; reflexivity | ].
  rewrite Hst, Hlog. reflexivity.
Defined.

(* ================================================================== *)
(** ** Further properties: the report cycle as a whole *)

Lemma clamp_int16_range (v : Z) : -32768 <= clamp_int16 v <= 32767.
Proof. unfold clamp_int16. lia. Qed.

Lemma clamp_int16_id (v : Z) : -32768 <= v <= 32767 -> clamp_int16 v = v.
Proof. unfold clamp_int16. lia. Qed.

Lemma emission_zero (config : pixart_config) : emission config 0 0 = [].
Proof. reflexivity. Qed.

Lemma bus_event_not_gpio (t : list event) :
  Forall bus_event t -> Forall not_gpio_event t.
Proof.
  apply Forall_impl. intros [tx | a n | us | en | ty c v s]; cbn; tauto.
Qed.

Lemma emission_not_gpio (config : pixart_config) (rx ry : Z) :
  Forall not_gpio_event (emission config rx ry).
Proof.
  unfold emission. apply Forall_app.
  split; [destruct (rx =? 0) | destruct (ry =? 0)]; repeat constructor.
Qed.

Lemma pmw3610_report_data_not_ready (h : pmw3610_h) (k : kconfig)
      (config : pixart_config) (spi : bus) (now : Z) (w : world) :
  ready (data w) = false ->
  pmw3610_report_data h k config spi now w = (- EBUSY, w).
Proof.
  intros Hr. unfold pmw3610_report_data, bind, get_data. rewrite Hr. reflexivity.
Qed.

Lemma pmw3610_report_data_read_error (h : pmw3610_h) (k : kconfig)
      (config : pixart_config) (spi : bus) (now : Z) (w : world) :
  ready (data w) = true ->
  fst (spi (burst_read h w)) <> 0 ->
  pmw3610_report_data h k config spi now w
  = (fst (spi (burst_read h w)), set_trace (burst_read h w) w).
Proof.
  intros Hr Hne. unfold pmw3610_report_data, burst_read in *.
  unfold bind at 1. unfold get_data at 1. rewrite Hr. cbn [negb].
  unfold bind at 1. unfold pmw3610_read, spi_transceive_dt.
  rewrite (truthy_nonzero _ Hne). reflexivity.
Qed.

(** Every call of the report function: what it adds to the trace and
    what it leaves alone. *)
Lemma pmw3610_report_data_shape (h : pmw3610_h) (k : kconfig)
      (config : pixart_config) (spi : bus) (now : Z) (w : world) :
  exists (tb : list event) (rx ry : Z),
    trace (snd (pmw3610_report_data h k config spi now w))
    = trace w ++ tb ++ emission config rx ry
    /\ Forall bus_event tb
    /\ -32768 <= rx <= 32767
    /\ -32768 <= ry <= 32767
    /\ same_bringup_state w (snd (pmw3610_report_data h k config spi now w))
    /\ trigger_work (snd (pmw3610_report_data h k config spi now w)) = trigger_work w.
Proof.
  destruct (ready (data w)) eqn:Hr.
  2:{ exists [], 0, 0. rewrite pmw3610_report_data_not_ready by exact Hr.
      cbn [snd app]. rewrite emission_zero, app_nil_r.
      unfold same_bringup_state. repeat split; try lia; constructor. }
  destruct (Z.eq_dec (fst (spi (burst_read h w))) 0) as [H0 | Hne].
  2:{ exists [EvSpiRead (u8 (PMW3610_REG_MOTION_BURST h)) (PMW3610_BURST_SIZE h)], 0, 0.
      rewrite pmw3610_report_data_read_error by assumption.
      unfold burst_read. cbn [snd trace set_trace data init_work trigger_work].
      rewrite emission_zero. unfold same_bringup_state.
      repeat split; try lia. repeat constructor. }
  rewrite (pmw3610_report_data_ok h k config spi now w Hr H0). cbv zeta.
  set (buf := rx_buffer (spi (burst_read h w)) (PMW3610_BURST_SIZE h)).
  destruct (smart_algorithm_frame h k spi buf (set_trace (burst_read h w) w))
    as (ts & flag & Fts & ->).
  cbn [stat set_data set_trace trace].
  set (acc := purge_and_accumulate k now (fst (sample_of h k buf))
                (snd (sample_of h k buf)) (stat w)).
  match goal with |- context [report_emit k config now 0 ?X] => set (W := X) end.
  assert (Ftb : Forall bus_event
                  (EvSpiRead (u8 (PMW3610_REG_MOTION_BURST h)) (PMW3610_BURST_SIZE h) :: ts))
    by (constructor; [exact I | exact Fts]).
  assert (HtW : trace W
                = trace w ++ EvSpiRead (u8 (PMW3610_REG_MOTION_BURST h))
                               (PMW3610_BURST_SIZE h) :: ts).
  { subst W. unfold burst_read. cbn [trace set_stat set_data set_trace].
    rewrite <- app_assoc. reflexivity. }
  destruct (gate_open k now (stat W)) eqn:Hg.
  - rewrite (report_emit_open k config now 0 W Hg). cbv zeta. cbn [snd].
    exists (EvSpiRead (u8 (PMW3610_REG_MOTION_BURST h)) (PMW3610_BURST_SIZE h) :: ts),
      (clamp_int16 (dx (stat W))), (clamp_int16 (dy (stat W))).
    split.
    { destruct (clamp_int16 (dx (stat W)) =? 0) eqn:Ex,
               (clamp_int16 (dy (stat W)) =? 0) eqn:Ey; cbn [andb];
        try (cbn [trace set_trace]; rewrite HtW, <- app_assoc; reflexivity).
      apply Z.eqb_eq in Ex, Ey. rewrite Ex, Ey, emission_zero, app_nil_r. exact HtW. }
    split; [exact Ftb | ].
    split; [apply clamp_int16_range | ]. split; [apply clamp_int16_range | ].
    destruct ((clamp_int16 (dx (stat W)) =? 0) && (clamp_int16 (dy (stat W)) =? 0));
      unfold same_bringup_state; subst W; repeat split.
  - rewrite (report_emit_closed k config now 0 W Hg). cbn [snd].
    exists (EvSpiRead (u8 (PMW3610_REG_MOTION_BURST h)) (PMW3610_BURST_SIZE h) :: ts),
      0, 0.
    rewrite emission_zero, app_nil_r.
    split; [exact HtW | ]. split; [exact Ftb | ].
    unfold same_bringup_state; subst W; repeat split; lia.
Qed.

(** X12.  One interrupt, from the GPIO callback to the end of the work
    item, whatever the driver state and whatever the bus answers: the
    interrupt line is disabled first and enabled last, and is not
    touched in between; the work item is no longer pending; and
    [ready], the step counter, [err] and the bring-up work item are as
    they were. *)
Theorem interrupt_cycle_masks_then_enables :
  forall (h : pmw3610_h) (k : kconfig) (config : pixart_config) (spi : bus)
         (now : Z) (w : world),
    exists t : list event,
      trace (snd (interrupt_cycle h k config spi now w))
      = trace w ++ [EvGpioInt false] ++ t ++ [EvGpioInt true]
      /\ Forall not_gpio_event t
      /\ trigger_work (snd (pmw3610_gpio_callback w)) = true
      /\ trigger_work (snd (interrupt_cycle h k config spi now w)) = false
      /\ same_bringup_state w (snd (interrupt_cycle h k config spi now w)).
Proof.
  intros h k config spi now w.
  unfold interrupt_cycle, pmw3610_gpio_callback, pmw3610_work_callback,
    set_interrupt, k_work_submit, emit, bind.
  cbn [snd set_trace set_trigger_work trace data stat init_work trigger_work].
  match goal with
  | |- context [pmw3610_report_data h k config spi now ?X] => set (w1 := X)
  end.
  destruct (pmw3610_report_data_shape h k config spi now w1)
    as (tb & rx & ry & Htr & Ftb & _ & _ & Hsame & Htrig).
  destruct (pmw3610_report_data h k config spi now w1) as [r w2].
  cbn [snd] in *. cbn [set_trace trace data init_work trigger_work].
  try subst w1. unfold same_bringup_state in *.
  cbn [set_trace set_trigger_work trace data init_work trigger_work]
    in Htr, Hsame, Htrig.
  exists (tb ++ emission config rx ry).
  split.
  { rewrite Htr. rewrite <- !app_assoc. reflexivity. }
  split.
  { apply Forall_app. split; [apply bus_event_not_gpio; exact Ftb | ].
    apply emission_not_gpio. }
  split; [reflexivity | ]. split; [exact Htrig | ].
  exact Hsame.
Qed.

(** X13.  What a call of the report function reports to the input
    subsystem, whatever the driver state and the bus: after its bus
    traffic, at most two events of the configured type; each carries a
    non-zero value within -32768..32767 on the X or the Y code; the last
    one, when there is any, has its sync flag set and the one before it
    does not. *)
Theorem report_events_well_formed :
  forall (h : pmw3610_h) (k : kconfig) (config : pixart_config) (spi : bus)
         (now : Z) (w : world),
    exists (tb ti : list event),
      trace (snd (pmw3610_report_data h k config spi now w)) = trace w ++ tb ++ ti
      /\ Forall bus_event tb
      /\ (length ti <= 2)%nat
      /\ (forall e, In e ti ->
            exists code v sync,
              e = EvInputReport (evt_type config) code v sync
              /\ (code = x_input_code config \/ code = y_input_code config)
              /\ v <> 0 /\ -32768 <= v <= 32767)
      /\ (ti <> [] ->
            exists code v, last ti (EvGpioInt false)
                           = EvInputReport (evt_type config) code v true)
      /\ (forall e, In e (removelast ti) ->
            exists code v, e = EvInputReport (evt_type config) code v false).
Proof.
  intros h k config spi now w.
  destruct (pmw3610_report_data_shape h k config spi now w)
    as (tb & rx & ry & Htr & Ftb & Hrx & Hry & _).
  exists tb, (emission config rx ry).
  split; [exact Htr | ]. split; [exact Ftb | ].
  unfold emission.
  destruct (Z.eqb_spec rx 0) as [Ex | Ex], (Z.eqb_spec ry 0) as [Ey | Ey];
    cbn [app length In last removelast];
    (split; [lia | ]); (split; [ | split]).
  - intros e [].
  - intros Hne. congruence.
  - intros e [].
  - intros e [<- | []]. exists (y_input_code config), ry, true. tauto.
  - intros _. eexists _, _. reflexivity.
  - intros e [].
  - intros e [<- | []]. exists (x_input_code config), rx, true. tauto.
  - intros _. eexists _, _. reflexivity.
  - intros e [].
  - intros e [<- | [<- | []]].
    + exists (x_input_code config), rx, false. tauto.
    + exists (y_input_code config), ry, true. tauto.
  - intros _. eexists _, _. reflexivity.
  - intros e [<- | []]. eexists _, _. reflexivity.
Qed.

(* ================================================================== *)
(** ** Further properties: accumulation and emission policies *)

(** X14.  With a minimum report interval [I > 0]: a sample taken less
    than [I] after the previous sample and less than [I] after the last
    report is added to the accumulators (which are then reported later),
    the sample time is updated, and nothing is reported in this cycle:
    the trace grows by bus traffic only and the result is 0. *)
Theorem report_within_interval_accumulates :
  forall (h : pmw3610_h) (k : kconfig) (config : pixart_config) (spi : bus)
         (now : Z) (w : world),
    ready (data w) = true ->
    fst (spi (burst_read h w)) = 0 ->
    0 < CONFIG_PMW3610_REPORT_INTERVAL_MIN k ->
    0 <= last_smp_time (stat w) < 2 ^ 63 ->
    0 <= last_rpt_time (stat w) < 2 ^ 63 ->
    0 <= now < 2 ^ 63 ->
    now - last_smp_time (stat w) < CONFIG_PMW3610_REPORT_INTERVAL_MIN k ->
    now - last_rpt_time (stat w) < CONFIG_PMW3610_REPORT_INTERVAL_MIN k ->
    - 2 ^ 62 <= dx (stat w) <= 2 ^ 62 ->
    - 2 ^ 62 <= dy (stat w) <= 2 ^ 62 ->
    let buf := rx_buffer (spi (burst_read h w)) (PMW3610_BURST_SIZE h) in
    let ws := snd (smart_algorithm h k spi buf (set_trace (burst_read h w) w)) in
    pmw3610_report_data h k config spi now w
    = (0, set_stat {| dx := dx (stat w) + fst (sample_of h k buf);
                      dy := dy (stat w) + snd (sample_of h k buf);
                      last_smp_time := now;
                      last_rpt_time := last_rpt_time (stat w) |} ws)
    /\ exists ts, trace ws = burst_read h w ++ ts /\ Forall bus_event ts.
Proof.
  intros h k config spi now w Hr H0 HI Hsmp Hrpt Hnow Hgs Hgr Hdx Hdy buf ws.
  pose proof (sample_of_range h k buf) as [Hx Hy].
  rewrite (pmw3610_report_data_ok h k config spi now w Hr H0). cbv zeta.
  fold buf. fold ws.
  destruct (smart_algorithm_frame h k spi buf (set_trace (burst_read h w) w))
    as (ts & flag & Fts & Hws).
  fold ws in Hws.
  assert (Hst : stat ws = stat w) by (rewrite Hws; reflexivity).
  rewrite Hst.
  assert (Hacc : purge_and_accumulate k now (fst (sample_of h k buf))
                   (snd (sample_of h k buf)) (stat w)
                 = {| dx := dx (stat w) + fst (sample_of h k buf);
                      dy := dy (stat w) + snd (sample_of h k buf);
                      last_smp_time := now;
                      last_rpt_time := last_rpt_time (stat w) |}).
  { unfold purge_and_accumulate.
    destruct (Z.gtb_spec (CONFIG_PMW3610_REPORT_INTERVAL_MIN k) 0); [ | lia].
    rewrite s64_uptime_diff by assumption.
    destruct (Z.geb_spec (now - last_smp_time (stat w))
                (CONFIG_PMW3610_REPORT_INTERVAL_MIN k)); [lia | ].
    cbn [dx dy last_smp_time last_rpt_time].
    change (2 ^ 62) with 4611686018427387904 in *.
    rewrite !s64_id by (change (2 ^ 63) with 9223372036854775808; lia).
    reflexivity. }
  rewrite Hacc. split.
  - rewrite report_emit_closed; [reflexivity | ].
    unfold gate_open. cbn [stat set_stat last_rpt_time].
    rewrite s64_uptime_diff by assumption.
    destruct (Z.gtb_spec (CONFIG_PMW3610_REPORT_INTERVAL_MIN k) 0); [ | lia].
    destruct (Z.ltb_spec (now - last_rpt_time (stat w))
                (CONFIG_PMW3610_REPORT_INTERVAL_MIN k)); [reflexivity | lia].
  - exists ts. split; [ | exact Fts]. rewrite Hws. reflexivity.
Qed.

Lemma report_within_interval_accumulates_witness :
  0 < CONFIG_PMW3610_REPORT_INTERVAL_MIN (Sample.kcfg 10 false false false false)
  /\ 104 - 100 < 10
  /\ pmw3610_report_data Sample.hdr (Sample.kcfg 10 false false false false)
       Sample.cfg (Sample.bus_const (Sample.packet 4 0 0 0 0)) 104
       (Sample.world_ready false (Sample.stat_of 3 0 100 98))
     = (0, {| data := Sample.data_ready false;
              stat := Sample.stat_of 7 0 104 98;
              init_work := None; trigger_work := false;
              trace := [EvSpiRead 0x12 10] |}).
Proof.
  split; [reflexivity | ]. split; [lia | ].
  etransitivity.
  - apply (report_within_interval_accumulates Sample.hdr
             (Sample.kcfg 10 false false false false) Sample.cfg
             (Sample.bus_const (Sample.packet 4 0 0 0 0)) 104
             (Sample.world_ready false (Sample.stat_of 3 0 100 98)));
      first [reflexivity | cbn; lia].
  - vm_compute. reflexivity.
Defined.

(** X15.  Without a minimum report interval
    ([CONFIG_PMW3610_REPORT_INTERVAL_MIN <= 0]) and with empty
    accumulators, a cycle reports its own sample at once and as it is -
    an X event when the sample's X is non-zero, a Y event when its Y is -
    and leaves the accumulators empty and the time stamps untouched: the
    statics are the same after the cycle as before, so this holds for
    every cycle. *)
Theorem report_without_interval_is_immediate :
  forall (h : pmw3610_h) (k : kconfig) (config : pixart_config) (spi : bus)
         (now : Z) (w : world),
    ready (data w) = true ->
    fst (spi (burst_read h w)) = 0 ->
    CONFIG_PMW3610_REPORT_INTERVAL_MIN k <= 0 ->
    dx (stat w) = 0 ->
    dy (stat w) = 0 ->
    let buf := rx_buffer (spi (burst_read h w)) (PMW3610_BURST_SIZE h) in
    let ws := snd (smart_algorithm h k spi buf (set_trace (burst_read h w) w)) in
    pmw3610_report_data h k config spi now w
    = (0, set_trace (trace ws ++ emission config (fst (sample_of h k buf))
                                   (snd (sample_of h k buf))) ws)
    /\ stat (snd (pmw3610_report_data h k config spi now w)) = stat w.
Proof.
  intros h k config spi now w Hr H0 HI Hdx Hdy buf ws.
  pose proof (sample_of_range h k buf) as [Hx Hy].
  assert (Hrun : pmw3610_report_data h k config spi now w
                 = (0, set_trace (trace ws ++ emission config (fst (sample_of h k buf))
                                                (snd (sample_of h k buf))) ws)
                 /\ stat ws = stat w).
  { rewrite (pmw3610_report_data_ok h k config spi now w Hr H0). cbv zeta.
    fold buf. fold ws.
    destruct (smart_algorithm_frame h k spi buf (set_trace (burst_read h w) w))
      as (ts & flag & Fts & Hws).
    fold ws in Hws.
    assert (Hst : stat ws = stat w) by (rewrite Hws; reflexivity).
    split; [ | exact Hst]. rewrite Hst.
    assert (Hacc : purge_and_accumulate k now (fst (sample_of h k buf))
                     (snd (sample_of h k buf)) (stat w)
                   = {| dx := fst (sample_of h k buf); dy := snd (sample_of h k buf);
                        last_smp_time := last_smp_time (stat w);
                        last_rpt_time := last_rpt_time (stat w) |}).
    { unfold purge_and_accumulate.
      destruct (Z.gtb_spec (CONFIG_PMW3610_REPORT_INTERVAL_MIN k) 0); [lia | ].
      rewrite Hdx, Hdy, !Z.add_0_l.
      rewrite !s64_id by (change (2 ^ 63) with 9223372036854775808; lia).
      reflexivity. }
    rewrite Hacc.
    rewrite report_emit_open.
    2:{ unfold gate_open.
        destruct (Z.gtb_spec (CONFIG_PMW3610_REPORT_INTERVAL_MIN k) 0);
          [lia | reflexivity]. }
    cbv zeta. cbn [stat set_stat dx dy last_smp_time last_rpt_time trace].
    rewrite !clamp_int16_id by lia.
    destruct (Z.gtb_spec (CONFIG_PMW3610_REPORT_INTERVAL_MIN k) 0); [lia | ].
    assert (Hs0 : {| dx := 0; dy := 0; last_smp_time := last_smp_time (stat w);
                     last_rpt_time := last_rpt_time (stat w) |} = stat w).
    { destruct (stat w) as [a b c d]. cbn in *. subst a b. reflexivity. }
    rewrite Hs0.
    assert (Hsame : set_stat (stat w) ws = ws) by (rewrite Hws; reflexivity).
    assert (Hreset : forall s, set_stat (stat w) (set_stat s ws) = ws)
      by (intros s; exact Hsame).
    rewrite Hreset.
    destruct (Z.eqb_spec (fst (sample_of h k buf)) 0) as [Ex | Ex],
             (Z.eqb_spec (snd (sample_of h k buf)) 0) as [Ey | Ey];
      cbn [andb]; try reflexivity.
    rewrite Ex, Ey, emission_zero, app_nil_r, set_trace_trace, Hs0, Hsame.
    reflexivity. }
  destruct Hrun as [Hrun Hst]. split; [exact Hrun | ].
  rewrite Hrun. cbn [snd stat set_trace]. exact Hst.
Qed.

Lemma report_without_interval_is_immediate_witness :
  CONFIG_PMW3610_REPORT_INTERVAL_MIN SampleStart.kcfg0 <= 0
  /\ pmw3610_report_data Sample.hdr SampleStart.kcfg0 Sample.cfg
       (Sample.bus_const (Sample.packet 0xFE 5 0xF0 0 0)) 77
       (Sample.world_ready false Sample.stat0)
     = (0, {| data := Sample.data_ready false;
              stat := Sample.stat0;
              init_work := None; trigger_work := false;
              trace := [EvSpiRead 0x12 10; EvInputReport 2 0 (-2) false;
                        EvInputReport 2 1 5 true] |}).
Proof.
  split; [cbn; lia | ].
  etransitivity.
  - apply (report_without_interval_is_immediate Sample.hdr SampleStart.kcfg0
             Sample.cfg (Sample.bus_const (Sample.packet 0xFE 5 0xF0 0 0)) 77
             (Sample.world_ready false Sample.stat0));
      first [reflexivity | cbn; lia].
  - vm_compute. reflexivity.
Defined.

(* ================================================================== *)
(** ** Further properties: smart algorithm, decoding, attributes *)

(** X16.  With the smart algorithm compiled in, after the block the flag
    tells on which side of 45 the shutter value is - clear below, set
    above - and at exactly 45 it keeps its value.  The auxiliary
    register is written exactly when the flag changes: if the flag is
    unchanged the world is untouched, and if it changed the bus has seen
    one clocked write to register [0x32], of [0x80] when the flag became
    set and of [0x00] when it became clear. *)
Theorem smart_flag_follows_shutter :
  forall (h : pmw3610_h) (k : kconfig) (spi : bus) (buf : list Z) (w : world),
    CONFIG_PMW3610_SMART_ALGORITHM k = true ->
    let w' := snd (smart_algorithm h k spi buf w) in
    sw_smart_flag (data w')
    = (if shutter_of h buf <? 45 then false
       else if shutter_of h buf >? 45 then true
       else sw_smart_flag (data w))
    /\ (sw_smart_flag (data w') = sw_smart_flag (data w) -> w' = w)
    /\ (sw_smart_flag (data w') <> sw_smart_flag (data w) ->
        trace w'
        = trace (snd (pmw3610_write h spi 0x32
                        (if sw_smart_flag (data w') then 0x80 else 0x00) w))).
Proof.
  intros h k spi buf w Hsmart w'. subst w'.
  rewrite smart_algorithm_cases, Hsmart.
  destruct (bus_only_write h spi 0x32 0x00 w) as [t0 [_ H0]].
  destruct (bus_only_write h spi 0x32 0x80 w) as [t1 [_ H1]].
  destruct (sw_smart_flag (data w)) eqn:Ef; cbn [andb negb].
  - destruct (Z.ltb_spec (shutter_of h buf) 45) as [Hlt | Hge].
    + cbv zeta. rewrite H0.
      cbn [snd data set_data set_trace sw_smart_flag set_sw_smart_flag trace].
      repeat split; try discriminate.
      intros _. rewrite H0. reflexivity.
    + cbn [snd]. rewrite Ef.
      destruct (shutter_of h buf >? 45); repeat split; try reflexivity;
        intros Hne; contradiction.
  - destruct (Z.gtb_spec (shutter_of h buf) 45) as [Hgt | Hle].
    + cbv zeta. rewrite H1.
      cbn [snd data set_data set_trace sw_smart_flag set_sw_smart_flag trace].
      destruct (Z.ltb_spec (shutter_of h buf) 45); [lia | ].
      repeat split; try discriminate.
      intros _. rewrite H1. reflexivity.
    + cbn [snd]. rewrite Ef.
      destruct (shutter_of h buf <? 45); repeat split; try reflexivity;
        intros Hne; contradiction.
Qed.

Lemma smart_flag_follows_shutter_witness :
  CONFIG_PMW3610_SMART_ALGORITHM (Sample.kcfg 0 false false false true) = true
  /\ shutter_of Sample.hdr (rx_buffer (0, Sample.packet 0 0 0 1 4) 10) = 260
  /\ sw_smart_flag
       (data (snd (smart_algorithm Sample.hdr (Sample.kcfg 0 false false false true)
                     (Sample.bus_const []) (rx_buffer (0, Sample.packet 0 0 0 1 4) 10)
                     (Sample.world_ready false Sample.stat0))))
     = true.
Proof.
  split; [reflexivity | ]. split; [reflexivity | ].
  etransitivity.
  - apply (smart_flag_follows_shutter Sample.hdr (Sample.kcfg 0 false false false true)
             (Sample.bus_const []) (rx_buffer (0, Sample.packet 0 0 0 1 4) 10)
             (Sample.world_ready false Sample.stat0) eq_refl).
  - reflexivity.
Defined.

(** X17.  Every delta in -2048..2047 has a packet encoding that decodes
    back to it: with the low byte [v mod 256] and the top four bits of
    [v mod 4096] in the axis's nibble of the shared byte, the decoded
    value is [v], whatever the other axis's nibble holds. *)
Theorem motion_decode_round_trip :
  forall v n : Z,
    -2048 <= v <= 2047 ->
    0 <= n < 16 ->
    decode_x (v mod 256) (16 * ((v mod 4096) / 256) + n) = v
    /\ decode_y (v mod 256) (16 * n + (v mod 4096) / 256) = v.
Proof.
  intros v n Hv Hn.
  set (r := v mod 4096).
  assert (Hr : 0 <= r < 4096) by (apply Z.mod_pos_bound; lia).
  assert (Hq : 0 <= r / 256 < 16).
  { split; [apply Z.div_pos; lia | apply Z.div_lt_upper_bound; lia]. }
  assert (Hlo : v mod 256 = r mod 256).
  { subst r. symmetry. apply Z.mod_mod_divide. exists 16. reflexivity. }
  assert (Hlob : 0 <= v mod 256 < 256) by (apply Z.mod_pos_bound; lia).
  assert (Hraw : v mod 256 + 256 * (r / 256) = r).
  { rewrite Hlo. pose proof (Z.div_mod r 256). lia. }
  assert (Hext : sign_extend_12 r = v).
  { unfold sign_extend_12. subst r.
    destruct (Z_lt_le_dec v 0) as [Hneg | Hpos].
    - assert (Hm : v mod 4096 = v + 4096)
        by (symmetry; apply (Z.mod_unique v 4096 (-1)); lia).
      rewrite Hm. destruct (Z.leb_spec 2048 (v + 4096)); lia.
    - rewrite Z.mod_small by lia. destruct (Z.leb_spec 2048 v); lia. }
  split.
  - rewrite decode_x_sign_extend by lia.
    replace ((16 * (r / 256) + n) / 16) with (r / 256).
    + rewrite Hraw. exact Hext.
    + apply (Z.div_unique _ 16 (r / 256) n); lia.
  - rewrite decode_y_sign_extend by lia.
    replace ((16 * n + r / 256) mod 16) with (r / 256).
    + rewrite Hraw. exact Hext.
    + apply (Z.mod_unique _ 16 n (r / 256)); lia.
Qed.

Lemma motion_decode_round_trip_witness :
  -2048 <= -3 <= 2047
  /\ decode_x 0xFD 0xF9 = -3
  /\ decode_y 0xFD 0x9F = -3.
Proof.
  split; [lia | ].
  apply (motion_decode_round_trip (-3) 9); lia.
Defined.

(** X18.  The configured axis transforms keep the magnitudes of a
    decoded sample: without swap each axis keeps its absolute value,
    with swap the two absolute values are exchanged.  No inversion
    overflows. *)
Theorem axis_transform_keeps_magnitudes :
  forall (h : pmw3610_h) (k : kconfig) (buf : list Z),
    let p := decode_packet h buf in
    let q := sample_of h k buf in
    if CONFIG_PMW3610_SWAP_XY k
    then Z.abs (fst q) = Z.abs (snd p) /\ Z.abs (snd q) = Z.abs (fst p)
    else Z.abs (fst q) = Z.abs (fst p) /\ Z.abs (snd q) = Z.abs (snd p).
Proof.
  intros h k buf p q. subst q. unfold sample_of. fold p.
  assert (Hx : -2048 <= fst p <= 2047) by apply decode_x_range.
  assert (Hy : -2048 <= snd p <= 2047) by apply decode_y_range.
  rewrite axis_transform_swap_then_invert by assumption.
  unfold swap_then_invert, invert_axes, swap_xy.
  destruct (CONFIG_PMW3610_SWAP_XY k), (CONFIG_PMW3610_INVERT_X k),
    (CONFIG_PMW3610_INVERT_Y k); cbn [fst snd]; lia.
Qed.

Lemma bus_only_get_data_bind {A : Type} (f : pixart_data -> M A) :
  (forall d, bus_only (f d)) -> bus_only (bind get_data f).
Proof.
  intros Hf w. unfold bind, get_data. apply Hf.
Qed.

(** X19.  The attribute interface rejects before it touches anything: a
    channel other than [SENSOR_CHAN_ALL] gives [-ENOTSUP] (even on a
    driver that is not ready), a driver that is not ready gives
    [-EBUSY], an attribute that is none of the seven gives [-ENOTSUP],
    and a CPI outside the accepted range gives [-EINVAL] - each time
    with the world unchanged.  Whatever the arguments, an attribute call
    only adds bus traffic to the trace: it changes neither the driver
    data nor the accumulators nor the work queue. *)
Theorem pmw3610_attr_set_guards :
  forall (h : pmw3610_h) (k : kconfig) (spi : bus) (a : pmw3610_attr_h)
         (chan attr : Z) (val : sensor_value) (w : world),
    (chan <> SENSOR_CHAN_ALL a ->
       pmw3610_attr_set h k spi a chan attr val w = (- ENOTSUP, w))
    /\ (chan = SENSOR_CHAN_ALL a -> ready (data w) = false ->
        pmw3610_attr_set h k spi a chan attr val w = (- EBUSY, w))
    /\ (chan = SENSOR_CHAN_ALL a -> ready (data w) = true ->
        u32 attr <> PMW3610_ATTR_CPI a ->
        u32 attr <> PMW3610_ATTR_RUN_DOWNSHIFT_TIME a ->
        u32 attr <> PMW3610_ATTR_REST1_DOWNSHIFT_TIME a ->
        u32 attr <> PMW3610_ATTR_REST2_DOWNSHIFT_TIME a ->
        u32 attr <> PMW3610_ATTR_REST1_SAMPLE_TIME a ->
        u32 attr <> PMW3610_ATTR_REST2_SAMPLE_TIME a ->
        u32 attr <> PMW3610_ATTR_REST3_SAMPLE_TIME a ->
        pmw3610_attr_set h k spi a chan attr val w = (- ENOTSUP, w))
    /\ (chan = SENSOR_CHAN_ALL a -> ready (data w) = true ->
        u32 attr = PMW3610_ATTR_CPI a ->
        PMW3610_SVALUE_TO_CPI a val > PMW3610_MAX_CPI h
        \/ PMW3610_SVALUE_TO_CPI a val < PMW3610_MIN_CPI h ->
        pmw3610_attr_set h k spi a chan attr val w = (- EINVAL, w))
    /\ exists t : list event,
         Forall bus_event t
         /\ snd (pmw3610_attr_set h k spi a chan attr val w)
            = set_trace (trace w ++ t) w.
Proof.
  intros h k spi a chan attr val w.
  split; [ | split; [ | split; [ | split]]].
  - intros Hc. unfold pmw3610_attr_set. apply Z.eqb_neq in Hc. rewrite Hc. reflexivity.
  - intros -> Hr. unfold pmw3610_attr_set, bind, get_data.
    rewrite Z.eqb_refl. cbn [negb]. cbv beta iota. rewrite Hr. reflexivity.
  - intros -> Hr H1 H2 H3 H4 H5 H6 H7. unfold pmw3610_attr_set, bind, get_data.
    rewrite Z.eqb_refl. cbn [negb]. cbv beta iota. rewrite Hr. cbn [negb].
    apply Z.eqb_neq in H1, H2, H3, H4, H5, H6, H7.
    rewrite H1, H2, H3, H4, H5, H6, H7. reflexivity.
  - intros -> Hr Hattr Hout. unfold pmw3610_attr_set, bind, get_data.
    rewrite Z.eqb_refl. cbn [negb]. cbv beta iota. rewrite Hr. cbn [negb].
    rewrite Hattr, Z.eqb_refl.
    apply set_cpi_out_of_range. exact Hout.
  - assert (Hbo : bus_only (pmw3610_attr_set h k spi a chan attr val)).
    { unfold pmw3610_attr_set.
      destruct (negb (chan =? SENSOR_CHAN_ALL a)); [apply bus_only_ret | ].
      apply bus_only_get_data_bind. intros d.
      destruct (negb (ready d)); [apply bus_only_ret | ].
      repeat match goal with
             | |- bus_only (if ?b then _ else _) => destruct b
             end;
        first [ apply bus_only_set_cpi | apply bus_only_set_downshift_time
              | apply bus_only_set_sample_time | apply bus_only_ret ]. }
    exact (Hbo w).
Qed.

Lemma pmw3610_attr_set_guards_witness :
  pmw3610_attr_set Sample.hdr SampleStart.kcfg0 (Sample.bus_const [])
    SampleStart.attrs 59 0 {| val1 := 5000; val2 := 0 |}
    (Sample.world_ready false Sample.stat0)
  = (- EINVAL, Sample.world_ready false Sample.stat0)
  /\ pmw3610_attr_set Sample.hdr SampleStart.kcfg0 (Sample.bus_const [])
       SampleStart.attrs 59 0 {| val1 := 800; val2 := 0 |} Sample.world0
     = (- EBUSY, Sample.world0)
  /\ pmw3610_attr_set Sample.hdr SampleStart.kcfg0 (Sample.bus_const [])
       SampleStart.attrs 13 0 {| val1 := 800; val2 := 0 |} Sample.world0
     = (- ENOTSUP, Sample.world0).
Proof.
  split; [ | split].
  - apply (pmw3610_attr_set_guards Sample.hdr SampleStart.kcfg0 (Sample.bus_const [])
             SampleStart.attrs 59 0 {| val1 := 5000; val2 := 0 |}
             (Sample.world_ready false Sample.stat0));
      first [reflexivity | left; reflexivity].
  - apply (pmw3610_attr_set_guards Sample.hdr SampleStart.kcfg0 (Sample.bus_const [])
             SampleStart.attrs 59 0 {| val1 := 800; val2 := 0 |} Sample.world0);
      reflexivity.
  - destruct (pmw3610_attr_set_guards Sample.hdr SampleStart.kcfg0
                (Sample.bus_const []) SampleStart.attrs 13 0
                {| val1 := 800; val2 := 0 |} Sample.world0) as [Hchan _].
    apply Hchan. cbn. discriminate.
Defined.
